(** * Vegapp: order ingestion and report aggregation

    A shallow embedding of [app.py] (the La Vega order manager): the
    grouping of Shopify export rows into candidate orders
    ([parse_note_attributes], [parse_shopify_csv]), the deduplicating
    ingestion loop ([upload_csv]), the category management calls, the
    shopping-list query ([get_lista_compras]), the order query behind the
    picking manifest ([get_pedidos]) and the two lifecycle operations
    ([completar_pedido], [eliminar_pedido]).

    Conventions.
    - Python [str] values are byte strings holding their UTF-8 encoding;
      equality and the byte-wise order of the store's BINARY collation are
      then the ones of [string].
    - Exceptions are values of [exc]; [try ... except: pass] is [try_except].
    - Builtins of the Python runtime whose full definition lives outside
      the repository ([float], [int], [datetime.strptime], [re.search],
      [str.strip]) are the fields of the class [PyRuntime], over the
      value types of [PyTypes]; every theorem holds for all runtimes, and
      [RefRuntime] gives one to compute with.
    - The relational store is a record of tables, each a list of rows in
      row-id order, with the AUTOINCREMENT counters of [sqlite_sequence].
      Text columns compare as texts (the delivery dates the extractor
      yields hold two dashes, so the DATE column keeps them as text).
    - Python integers are unbounded ([Z]); an INTEGER of the store holds
      64 bits. Binding a Python [int] outside that range to a statement
      raises [OverflowError] ([bind_int]), and SUM raises
      [sqlite3.OperationalError] once its running total leaves the range.
      A REAL column gives back what [sql_real] says of the float bound
      to it. The row ids the store hands out are taken to stay in range.
    - An operation of the HTTP layer is a function from the store to the
      new store and the answer, or to the exception it raises, in which
      case nothing is committed and the store stays as it was;
      [upload_csv] starts from the rows the CSV reader yields for the
      decoded upload, read to the end, and takes the store's clock, which
      stamps [imported_at]; [parse_reader] is the grouper over a reader
      that may stop with [csv.Error]. *)

From Stdlib Require Import ZArith Lia Ascii String Sorting.Sorted Sorting.Permutation.
From stdpp Require Import base option list strings gmap sorting.

Local Open Scope string_scope.
Local Open Scope Z_scope.
Local Open Scope list_scope.

(** ** Exceptions *)

Inductive exn : Type :=
| ValueError
| TypeError
| KeyError
| AttributeError
| OverflowError
| OperationalError
| CsvError
| HTTPException (code : Z).

Inductive exc (A : Type) : Type :=
| Ok (a : A)
| Raise (e : exn).
Arguments Ok {A} a.
Arguments Raise {A} e.

Definition exc_bind {A B} (m : exc A) (k : A -> exc B) : exc B :=
  match m with
  | Ok a => k a
  | Raise e => Raise e
  end.

Notation "x <-! m ; k" := (exc_bind m (fun x => k))
  (at level 100, m at next level, right associativity,
   format "'[v' x  <-!  m ; '/' k ']'").

(** [try: body except: handler] with a bare [except]. *)
Definition try_except {A} (body handler : exc A) : exc A :=
  match body with
  | Ok a => Ok a
  | Raise _ => handler
  end.

Definition of_option {A} (e : exn) (o : option A) : exc A :=
  match o with
  | Some a => Ok a
  | None => Raise e
  end.

Definition is_ok {A} (m : exc A) : bool :=
  match m with Ok _ => true | Raise _ => false end.

(** ** Python values met by the parser *)

(** What [row.get(key, default)] can return: a cell of the CSV reader
    ([None] for a short row, else a [str]) or the default given. *)
Inductive pyval : Type :=
| PyNone
| PyStr (s : string)
| PyInt (z : Z).

Definition truthy (v : pyval) : bool :=
  match v with
  | PyNone => false
  | PyStr s => negb (String.eqb s "")
  | PyInt z => negb (z =? 0)
  end.

(** [a or b] *)
Definition py_or (a b : pyval) : pyval := if truthy a then a else b.

(** Truth value of an optional string ([None] and [''] are falsy). *)
Definition truthy_opt (o : option string) : bool :=
  match o with
  | None => false
  | Some s => negb (String.eqb s "")
  end.

(** ** Strings *)

(** [s.split(sep)[0]] for a non-empty [sep]: the part of [s] before the
    first occurrence of [sep], all of [s] when there is none. *)
Fixpoint split_first (sep s : string) : string :=
  if String.prefix sep s then ""
  else match s with
       | EmptyString => ""
       | String c s' => String c (split_first sep s')
       end.

(** [s.endswith(suffix)] *)
Definition endswith (s suffix : string) : bool :=
  let n := String.length s in
  let k := String.length suffix in
  (k <=? n)%nat && String.eqb (String.substring (n - k) k s) suffix.

(** ** The runtime *)

(** The values of Python's [float] and [datetime]. *)
Class PyTypes : Type := {
  float : Type;
  datetime : Type;
}.

Class PyRuntime {PT : PyTypes} : Type := {
  (** [float(n)] on an [int] *)
  float_of_Z : Z -> float;
  (** [float(s)] and [int(s)] on a [str]; [None] stands for [ValueError] *)
  float_of_str : string -> option float;
  int_of_str : string -> option Z;
  (** [datetime.strptime(s, fmt)]; [None] stands for [ValueError] *)
  strptime : string -> string -> option datetime;
  (** [re.search(pattern, s)]: the text of group 1 of the first match *)
  re_search : string -> string -> option string;
  (** [s.strip()] *)
  str_strip : string -> string;
  (** What a REAL column of the store gives back for a float bound to
      it: NULL for a NaN, 0.0 for -0.0, else the float as it is. *)
  sql_real : float -> option float;
}.

(** [csv.DictReader] yields one dict per record, keyed by the header's
    column names; the cell of a column the record is too short to reach
    is [None]. (Cells beyond the header sit under the key [None], which
    the program never reads.) *)
Abbreviation Row := (gmap string (option string)).

Section Program.
Context {PT : PyTypes} {RT : PyRuntime}.

(** [float(v)] *)
Definition py_float (v : pyval) : exc float :=
  match v with
  | PyNone => Raise TypeError
  | PyStr s => of_option ValueError (float_of_str s)
  | PyInt z => Ok (float_of_Z z)
  end.

(** [int(v)] *)
Definition py_int (v : pyval) : exc Z :=
  match v with
  | PyNone => Raise TypeError
  | PyStr s => of_option ValueError (int_of_str s)
  | PyInt z => Ok z
  end.

(** ** Rows of the export *)

(** [row.get(key, default)] *)
Definition row_get (row : Row) (key : string) (default : pyval) : pyval :=
  match row !! key with
  | Some (Some s) => PyStr s
  | Some None => PyNone
  | None => default
  end.

(** [row[key]] *)
Definition row_item (row : Row) (key : string) : exc pyval :=
  match row !! key with
  | Some (Some s) => Ok (PyStr s)
  | Some None => Ok PyNone
  | None => Raise KeyError
  end.

(** [v.split(sep)[0]] *)
Definition py_split_first (v : pyval) (sep : string) : exc string :=
  match v with
  | PyStr s => Ok (split_first sep s)
  | _ => Raise AttributeError
  end.

(** ** Text extractor *)

Record note_attrs : Type := {
  na_comuna : option string;
  na_fecha_entrega : option string;
}.

Definition pat_comuna : string := "Comuna de Entrega:\s*([^\n]+)".
Definition pat_fecha : string := "Fecha de Entrega:\s*(\d{4}-\d{2}-\d{2})".

Definition parse_note_attributes (note : pyval) : exc note_attrs :=
  if negb (truthy note) then
    Ok {| na_comuna := None; na_fecha_entrega := None |}
  else
    match note with
    | PyStr s =>
        Ok {| na_comuna := str_strip <$> re_search pat_comuna s;
              na_fecha_entrega := re_search pat_fecha s |}
    | _ => Raise TypeError
    end.

(** ** Order grouper *)

Record item : Type := {
  it_producto : string;
  it_cantidad : Z;
  it_precio : float;
  it_sku : pyval;
}.

Record order : Type := {
  o_order_number : string;
  o_email : pyval;
  o_comuna : option string;
  o_fecha_entrega : option string;
  o_nombre_cliente : pyval;
  o_direccion : pyval;
  o_telefono : pyval;
  o_total : float;
  o_created_at : option datetime;
  o_items : list item;
}.

Definition fmt_created_at : string := "%Y-%m-%d %H:%M:%S".

(** The [created_at] block of [parse_shopify_csv] (lines 164-172). *)
Definition parse_created_at (row : Row) : exc (option datetime) :=
  if truthy (row_get row "Created at" PyNone) then
    try_except
      (v <-! row_item row "Created at";
       s1 <-! py_split_first v " -";
       s2 <-! py_split_first (PyStr s1) " +";
       d <-! of_option ValueError (strptime s2 fmt_created_at);
       Ok (Some d))
      (Ok None)
  else Ok None.

(** [float(row.get('Total', 0) or 0)] *)
Definition row_total (row : Row) : exc float :=
  py_float (py_or (row_get row "Total" (PyInt 0)) (PyInt 0)).

(** [int(row.get('Lineitem quantity', 1) or 1)] *)
Definition row_cantidad (row : Row) : exc Z :=
  py_int (py_or (row_get row "Lineitem quantity" (PyInt 1)) (PyInt 1)).

(** [float(row.get('Lineitem price', 0) or 0)] *)
Definition row_precio (row : Row) : exc float :=
  py_float (py_or (row_get row "Lineitem price" (PyInt 0)) (PyInt 0)).

(** The dict stored at [orders[order_number]] for a first row. *)
Definition new_order (order_number : string) (row : Row) : exc order :=
  na <-! parse_note_attributes (row_get row "Note Attributes" (PyStr ""));
  created_at <-! parse_created_at row;
  total <-! row_total row;
  Ok {| o_order_number := order_number;
        o_email := row_get row "Email" (PyStr "");
        o_comuna := na_comuna na;
        o_fecha_entrega := na_fecha_entrega na;
        o_nombre_cliente :=
          py_or (row_get row "Shipping Name" (PyStr ""))
                (row_get row "Billing Name" (PyStr ""));
        o_direccion := row_get row "Shipping Address1" (PyStr "");
        o_telefono :=
          py_or (row_get row "Phone" (PyStr ""))
                (row_get row "Shipping Phone" (PyStr ""));
        o_total := total;
        o_created_at := created_at;
        o_items := [] |}.

(** The dict appended to [items] for a row with a product name. *)
Definition new_item (producto : string) (row : Row) : exc item :=
  cantidad <-! row_cantidad row;
  precio <-! row_precio row;
  Ok {| it_producto := producto;
        it_cantidad := cantidad;
        it_precio := precio;
        it_sku := row_get row "Lineitem sku" (PyStr "") |}.

(** The dict [orders]: keys in insertion order, each with its value. *)
Definition odict : Type := list (string * order).

Definition dict_contains (key : string) (d : odict) : bool :=
  existsb (fun kv => String.eqb (fst kv) key) d.

Definition add_item (it : item) (o : order) : order :=
  {| o_order_number := o_order_number o;
     o_email := o_email o;
     o_comuna := o_comuna o;
     o_fecha_entrega := o_fecha_entrega o;
     o_nombre_cliente := o_nombre_cliente o;
     o_direccion := o_direccion o;
     o_telefono := o_telefono o;
     o_total := o_total o;
     o_created_at := o_created_at o;
     o_items := o_items o ++ [it] |}.

(** [d[key]['items'].append(it)] *)
Definition dict_append_item (key : string) (it : item) (d : odict) : odict :=
  map (fun kv => if String.eqb (fst kv) key then (fst kv, add_item it (snd kv)) else kv) d.

(** One turn of the loop over the reader (lines 155-194). *)
Definition process_row (orders : odict) (row : Row) : exc odict :=
  let name := row_get row "Name" (PyStr "") in
  if negb (truthy name) then Ok orders
  else
    match name with
    | PyStr order_number =>
        orders1 <-!
          (if dict_contains order_number orders then Ok orders
           else (o <-! new_order order_number row;
                 Ok (orders ++ [(order_number, o)])));
        let lineitem := row_get row "Lineitem name" PyNone in
        if truthy lineitem then
          match lineitem with
          | PyStr producto =>
              it <-! new_item producto row;
              Ok (dict_append_item order_number it orders1)
          | _ => Raise TypeError
          end
        else Ok orders1
    | _ => Raise TypeError
    end.

Fixpoint process_rows (orders : odict) (rows : list Row) : exc odict :=
  match rows with
  | [] => Ok orders
  | row :: rest =>
      orders' <-! process_row orders row;
      process_rows orders' rest
  end.

Definition parse_shopify_csv (rows : list Row) : exc (list order) :=
  orders <-! process_rows [] rows;
  Ok (map snd orders).

(** How [csv.DictReader] ends: at the end of the file, or with
    [csv.Error] on a record it cannot split (a field beyond the size
    limit of the module). *)
Inductive reader_end : Type := EndOfFile | ReaderError.

(** [parse_shopify_csv] over a reader that yields [rows] and then ends
    as [fin] says: the loop takes the rows as they come, so the error of
    the reader comes up once the rows before it are through. *)
Definition parse_reader (rows : list Row) (fin : reader_end) : exc (list order) :=
  orders <-! process_rows [] rows;
  match fin with
  | EndOfFile => Ok (map snd orders)
  | ReaderError => Raise CsvError
  end.


(** ** The store *)

Record categoria : Type := {
  c_id : Z;
  c_nombre : string;
  c_orden : Z;
}.

Record prod_cat : Type := {
  pc_id : Z;
  pc_producto : string;
  pc_categoria_id : Z;
}.

Record pedido : Type := {
  p_id : Z;
  p_order_number : string;
  p_email : pyval;
  p_comuna : option string;
  p_fecha_entrega : option string;
  p_direccion : pyval;
  p_telefono : pyval;
  p_nombre_cliente : pyval;
  p_total : option float;
  p_created_at : option datetime;
  p_imported_at : string;
  p_status : string;
}.

Record linea : Type := {
  l_id : Z;
  l_pedido_id : Z;
  l_producto : string;
  l_cantidad : Z;
  l_precio : option float;
  l_sku : pyval;
}.

Record db : Type := {
  categorias : list categoria;
  producto_categoria : list prod_cat;
  pedidos : list pedido;
  lineas_pedido : list linea;
  (** [sqlite_sequence]: the largest row id ever given out, per table *)
  seq_categorias : Z;
  seq_producto_categoria : Z;
  seq_pedidos : Z;
  seq_lineas_pedido : Z;
}.

Definition empty_db : db :=
  {| categorias := []; producto_categoria := []; pedidos := [];
     lineas_pedido := []; seq_categorias := 0; seq_producto_categoria := 0;
     seq_pedidos := 0; seq_lineas_pedido := 0 |}.

Definition max_list (l : list Z) : Z := fold_right Z.max 0 l.

(** The row id an AUTOINCREMENT key gives the next row: one more than
    the largest id the table holds or ever held. *)
Definition next_rowid (seq : Z) (ids : list Z) : Z :=
  Z.max seq (max_list ids) + 1.

(** The range of an INTEGER of the store. *)
Definition int64_min : Z := -9223372036854775808.
Definition int64_max : Z := 9223372036854775807.

Definition in_int64 (z : Z) : bool := (int64_min <=? z) && (z <=? int64_max).

(** Binding a Python [int] to a parameter of a statement. *)
Definition bind_int (z : Z) : exc Z :=
  if in_int64 z then Ok z else Raise OverflowError.

Definition pendiente : string := "pendiente".
Definition completado : string := "completado".

(** *** [init_db] *)

Definition categorias_default : list (string * Z) :=
  [("Frutas", 1); ("Verduras", 2); ("Congelados", 3); ("Abarrotes", 4);
   ("Lácteos", 5); ("Carnes", 6); ("Otros", 99)].

(** [INSERT OR IGNORE INTO categorias (nombre, orden)]: the row id is
    drawn, and the counter moved, before the UNIQUE constraint on
    [nombre] is looked at; an ignored insert leaves no row but keeps the
    counter where it moved to. *)
Definition insert_or_ignore_categoria (d : db) (no : string * Z) : db :=
  let id := next_rowid (seq_categorias d) (map c_id (categorias d)) in
  {| categorias :=
       if existsb (fun c => String.eqb (c_nombre c) (fst no)) (categorias d)
       then categorias d
       else categorias d ++ [{| c_id := id; c_nombre := fst no; c_orden := snd no |}];
     producto_categoria := producto_categoria d;
     pedidos := pedidos d;
     lineas_pedido := lineas_pedido d;
     seq_categorias := id;
     seq_producto_categoria := seq_producto_categoria d;
     seq_pedidos := seq_pedidos d;
     seq_lineas_pedido := seq_lineas_pedido d |}.

Definition init_db (d : db) : db :=
  fold_left insert_or_ignore_categoria categorias_default d.

(** *** [upload_csv] *)

Record counts : Type := {
  nuevos : Z;
  duplicados : Z;
  sin_fecha : Z;
}.

Record upload_result : Type := {
  r_success : bool;
  r_nuevos : Z;
  r_duplicados : Z;
  r_sin_fecha : Z;
  r_total : Z;
}.

(** [SELECT id FROM pedidos WHERE order_number = ?] finds a row. *)
Definition order_exists (d : db) (order_number : string) : bool :=
  existsb (fun p => String.eqb (p_order_number p) order_number) (pedidos d).

(** The row of [lineas_pedido] an item is stored as. *)
Definition linea_of_item (id pedido_id : Z) (it : item) : linea :=
  {| l_id := id; l_pedido_id := pedido_id; l_producto := it_producto it;
     l_cantidad := it_cantidad it; l_precio := sql_real (it_precio it);
     l_sku := it_sku it |}.

(** The inner loop: one [INSERT INTO lineas_pedido] per item, which
    binds the item's quantity. *)
Fixpoint insert_lineas (pedido_id : Z) (items : list item)
    (seq : Z) (lineas : list linea) : exc (Z * list linea) :=
  match items with
  | [] => Ok (seq, lineas)
  | it :: rest =>
      _ <-! bind_int (it_cantidad it);
      let id := next_rowid seq (map l_id lineas) in
      insert_lineas pedido_id rest id (lineas ++ [linea_of_item id pedido_id it])
  end.

(** The row of [pedidos] a candidate order is stored as, under [id];
    [imported_at] is the store's CURRENT_TIMESTAMP and [status] takes
    its default. *)
Definition pedido_of_order (id : Z) (imported_at : string) (o : order) : pedido :=
  {| p_id := id;
     p_order_number := o_order_number o;
     p_email := o_email o;
     p_comuna := o_comuna o;
     p_fecha_entrega := o_fecha_entrega o;
     p_direccion := o_direccion o;
     p_telefono := o_telefono o;
     p_nombre_cliente := o_nombre_cliente o;
     p_total := sql_real (o_total o);
     p_created_at := o_created_at o;
     p_imported_at := imported_at;
     p_status := pendiente |}.

(** [INSERT INTO pedidos (...)] followed by the lines of the order;
    [clock id] is the store's CURRENT_TIMESTAMP when row [id] goes in. *)
Definition insert_order (clock : Z -> string) (d : db) (o : order) : exc db :=
  let pedido_id := next_rowid (seq_pedidos d) (map p_id (pedidos d)) in
  let p := pedido_of_order pedido_id (clock pedido_id) o in
  sl <-! insert_lineas pedido_id (o_items o) (seq_lineas_pedido d) (lineas_pedido d);
  Ok {| categorias := categorias d;
        producto_categoria := producto_categoria d;
        pedidos := pedidos d ++ [p];
        lineas_pedido := snd sl;
        seq_categorias := seq_categorias d;
        seq_producto_categoria := seq_producto_categoria d;
        seq_pedidos := pedido_id;
        seq_lineas_pedido := fst sl |}.

(** One turn of the loop over the candidate orders (lines 259-297). *)
Definition ingest_step (clock : Z -> string) (st : db * counts) (o : order)
    : exc (db * counts) :=
  let '(d, n) := st in
  if order_exists d (o_order_number o) then
    Ok (d, {| nuevos := nuevos n; duplicados := duplicados n + 1; sin_fecha := sin_fecha n |})
  else if negb (truthy_opt (o_fecha_entrega o)) then
    Ok (d, {| nuevos := nuevos n; duplicados := duplicados n; sin_fecha := sin_fecha n + 1 |})
  else
    d' <-! insert_order clock d o;
    Ok (d', {| nuevos := nuevos n + 1; duplicados := duplicados n; sin_fecha := sin_fecha n |}).

(** The loop: an exception leaves it at once. *)
Fixpoint ingest_from (clock : Z -> string) (orders : list order) (st : db * counts)
    : exc (db * counts) :=
  match orders with
  | [] => Ok st
  | o :: rest =>
      st' <-! ingest_step clock st o;
      ingest_from clock rest st'
  end.

Definition ingest (clock : Z -> string) (d : db) (orders : list order)
    : exc (db * counts) :=
  ingest_from clock orders (d, {| nuevos := 0; duplicados := 0; sin_fecha := 0 |}).

(** The handler, from the decoded upload on: [rows] is what the reader
    yields for the file's content. The commit comes after the loop: an
    exception on the way leaves the store as it was. *)
Definition upload_csv (clock : Z -> string) (filename : string)
    (rows : list Row) (d : db) : exc (db * upload_result) :=
  if negb (endswith filename ".csv") then Raise (HTTPException 400)
  else
    orders <-! parse_shopify_csv rows;
    st <-! ingest clock d orders;
    Ok (fst st, {| r_success := true;
                   r_nuevos := nuevos (snd st);
                   r_duplicados := duplicados (snd st);
                   r_sin_fecha := sin_fecha (snd st);
                   r_total := Z.of_nat (length orders) |}).

(** *** Category management *)

(** [SELECT MAX(orden) FROM categorias], [None] on an empty table. *)
Definition max_orden (cats : list categoria) : option Z :=
  match cats with
  | [] => None
  | c :: rest => Some (fold_left Z.max (map c_orden rest) (c_orden c))
  end.

(** [create_categoria]: the new id, or HTTP 400 when the UNIQUE
    constraint on [nombre] refuses the insert. *)
Definition create_categoria (nombre : string) (d : db) : exc (db * Z) :=
  let max_orden :=
    match max_orden (categorias d) with
    | Some m => if m =? 0 then 0 else m
    | None => 0
    end in
  if existsb (fun c => String.eqb (c_nombre c) nombre) (categorias d) then
    Raise (HTTPException 400)
  else
    let id := next_rowid (seq_categorias d) (map c_id (categorias d)) in
    Ok ({| categorias :=
             categorias d ++ [{| c_id := id; c_nombre := nombre; c_orden := max_orden + 1 |}];
           producto_categoria := producto_categoria d;
           pedidos := pedidos d;
           lineas_pedido := lineas_pedido d;
           seq_categorias := id;
           seq_producto_categoria := seq_producto_categoria d;
           seq_pedidos := seq_pedidos d;
           seq_lineas_pedido := seq_lineas_pedido d |}, id).

(** [INSERT OR REPLACE INTO producto_categoria (producto, categoria_id)]
    drops the row that holds the product, if any, and inserts the new
    one. *)
Definition replace_producto_categoria (producto : string) (categoria_id : Z) (d : db)
    : db :=
  let id := next_rowid (seq_producto_categoria d) (map pc_id (producto_categoria d)) in
  {| categorias := categorias d;
     producto_categoria :=
       List.filter (fun pc => negb (String.eqb (pc_producto pc) producto))
                   (producto_categoria d)
       ++ [{| pc_id := id; pc_producto := producto; pc_categoria_id := categoria_id |}];
     pedidos := pedidos d;
     lineas_pedido := lineas_pedido d;
     seq_categorias := seq_categorias d;
     seq_producto_categoria := id;
     seq_pedidos := seq_pedidos d;
     seq_lineas_pedido := seq_lineas_pedido d |}.

(** [asignar_categoria]: the statement binds the category id. *)
Definition asignar_categoria (producto : string) (categoria_id : Z) (d : db) : exc db :=
  id <-! bind_int categoria_id;
  Ok (replace_producto_categoria producto id d).

(** *** Sorting, as ORDER BY does *)

Section Sort.
Context {A : Type} (leb : A -> A -> bool).

Fixpoint insert_sorted (x : A) (l : list A) : list A :=
  match l with
  | [] => [x]
  | y :: l' => if leb x y then x :: l else y :: insert_sorted x l'
  end.

Definition sort_by (l : list A) : list A := fold_right insert_sorted [] l.
End Sort.

Definition lex (c1 c2 : comparison) : comparison :=
  match c1 with
  | Eq => c2
  | _ => c1
  end.

(** NULL sorts before every text. *)
Definition compare_opt_string (a b : option string) : comparison :=
  match a, b with
  | None, None => Eq
  | None, Some _ => Lt
  | Some _, None => Gt
  | Some x, Some y => String.compare x y
  end.

Definition not_gt (c : comparison) : bool :=
  match c with
  | Gt => false
  | _ => true
  end.

(** *** [get_pedidos] *)

(** [column = ?] on a nullable text column. *)
Definition sql_eq_opt (col : option string) (v : string) : bool :=
  match col with
  | Some s => String.eqb s v
  | None => false
  end.

(** ORDER BY fecha_entrega, order_number *)
Definition pedido_compare (p1 p2 : pedido) : comparison :=
  lex (compare_opt_string (p_fecha_entrega p1) (p_fecha_entrega p2))
      (String.compare (p_order_number p1) (p_order_number p2)).

Definition pedido_leb (p1 p2 : pedido) : bool := not_gt (pedido_compare p1 p2).

(** [SELECT * FROM lineas_pedido WHERE pedido_id = ?] *)
Definition lineas_of (d : db) (pedido_id : Z) : list linea :=
  List.filter (fun l => l_pedido_id l =? pedido_id) (lineas_pedido d).

(** Each selected order with its [items]. *)
Definition get_pedidos (fecha status : option string) (d : db)
    : list (pedido * list linea) :=
  let by_fecha p :=
    match fecha with
    | Some f => if truthy_opt fecha then sql_eq_opt (p_fecha_entrega p) f else true
    | None => true
    end in
  let by_status p :=
    match status with
    | Some s => if truthy_opt status then String.eqb (p_status p) s else true
    | None => true
    end in
  let selected :=
    sort_by pedido_leb
      (List.filter (fun p => by_fecha p && by_status p) (pedidos d)) in
  map (fun p => (p, lineas_of d (p_id p))) selected.

(** The query of [descargar_pedidos_armado]. *)
Definition picking_manifest (fecha : string) (d : db) : list (pedido * list linea) :=
  get_pedidos (Some fecha) (Some pendiente) d.

(** *** [get_lista_compras] *)

(** A row of the FROM clause: a line, its order, and what the two LEFT
    JOINs found. *)
Record joined : Type := {
  j_lp : linea;
  j_p : pedido;
  j_pc : option prod_cat;
  j_c : option categoria;
}.

(** The right-hand rows of a LEFT JOIN: the matches, or one NULL row. *)
Definition left_join {B} (matches : list B) : list (option B) :=
  match matches with
  | [] => [None]
  | _ => map Some matches
  end.

Definition from_clause (d : db) : list joined :=
  flat_map (fun lp =>
    flat_map (fun p =>
      flat_map (fun pc =>
        map (fun c => {| j_lp := lp; j_p := p; j_pc := pc; j_c := c |})
          (match pc with
           | Some pc' =>
               left_join (List.filter (fun c => pc_categoria_id pc' =? c_id c) (categorias d))
           | None => [None]
           end))
        (left_join (List.filter (fun pc => String.eqb (l_producto lp) (pc_producto pc))
                                (producto_categoria d))))
      (List.filter (fun p => l_pedido_id lp =? p_id p) (pedidos d)))
    (lineas_pedido d).

(** WHERE p.fecha_entrega = ? AND p.status = 'pendiente' *)
Definition where_clause (fecha : string) (j : joined) : bool :=
  sql_eq_opt (p_fecha_entrega (j_p j)) fecha && String.eqb (p_status (j_p j)) pendiente.

(** A group of GROUP BY lp.producto: the key, the running SUM with its
    overflow mark, and the category row behind the bare columns
    [c.nombre] and [c.orden], which the store takes from one row of the
    group (here the first; when the product mapping is unique, all rows
    of a group agree on it).

    SUM adds the quantities in the order the rows come. The first time
    the running total leaves the 64-bit range the mark is set, and it
    stays: the query then fails when the group is finished, whatever
    the total would come back to. *)
Record grupo : Type := {
  g_producto : string;
  g_cantidad_total : Z;
  g_overflow : bool;
  g_c : option categoria;
}.

Fixpoint group_add (j : joined) (gs : list grupo) : list grupo :=
  match gs with
  | [] => [{| g_producto := l_producto (j_lp j);
              g_cantidad_total := l_cantidad (j_lp j);
              g_overflow := negb (in_int64 (l_cantidad (j_lp j)));
              g_c := j_c j |}]
  | g :: gs' =>
      if String.eqb (g_producto g) (l_producto (j_lp j)) then
        {| g_producto := g_producto g;
           g_cantidad_total := g_cantidad_total g + l_cantidad (j_lp j);
           g_overflow :=
             g_overflow g
             || negb (in_int64 (g_cantidad_total g + l_cantidad (j_lp j)));
           g_c := g_c g |} :: gs'
      else g :: group_add j gs'
  end.

Definition group_by_producto (js : list joined) : list grupo :=
  fold_left (fun gs j => group_add j gs) js [].

Definition sin_categoria : string := "Sin Categoría".

(** COALESCE(c.nombre, 'Sin Categoría') and COALESCE(c.orden, 999) *)
Definition g_categoria (g : grupo) : string :=
  match g_c g with
  | Some c => c_nombre c
  | None => sin_categoria
  end.

Definition g_categoria_orden (g : grupo) : Z :=
  match g_c g with
  | Some c => c_orden c
  | None => 999
  end.

(** ORDER BY categoria_orden, c.nombre, lp.producto *)
Definition grupo_compare (g1 g2 : grupo) : comparison :=
  lex (Z.compare (g_categoria_orden g1) (g_categoria_orden g2))
      (lex (compare_opt_string (c_nombre <$> g_c g1) (c_nombre <$> g_c g2))
           (String.compare (g_producto g1) (g_producto g2))).

Definition grupo_leb (g1 g2 : grupo) : bool := not_gt (grupo_compare g1 g2).

(** The groups of the query, before ORDER BY. *)
Definition grupos (fecha : string) (d : db) : list grupo :=
  group_by_producto (List.filter (where_clause fecha) (from_clause d)).

(** The rows the cursor returns, or "integer overflow" when a SUM has
    overflowed. *)
Definition lista_query (fecha : string) (d : db) : exc (list grupo) :=
  if existsb g_overflow (grupos fecha d) then Raise OperationalError
  else Ok (sort_by grupo_leb (grupos fecha d)).

(** An entry [{'producto': ..., 'cantidad': ...}]. *)
Record entrada : Type := {
  e_producto : string;
  e_cantidad : Z;
}.

(** [por_categoria[cat].append(e)], after creating the key if absent. *)
Fixpoint cat_append (cat : string) (e : entrada)
    (por_categoria : list (string * list entrada)) : list (string * list entrada) :=
  match por_categoria with
  | [] => [(cat, [e])]
  | (k, v) :: rest =>
      if String.eqb k cat then (k, v ++ [e]) :: rest
      else (k, v) :: cat_append cat e rest
  end.

(** The loop that files the rows under their category (lines 444-452):
    the dict [por_categoria], keys in insertion order. *)
Definition por_categoria (items : list grupo) : list (string * list entrada) :=
  fold_left
    (fun por_categoria g =>
       cat_append (g_categoria g)
         {| e_producto := g_producto g; e_cantidad := g_cantidad_total g |}
         por_categoria)
    items [].

Definition get_lista_compras (fecha : string) (d : db)
    : exc (list (string * list entrada)) :=
  items <-! lista_query fecha d;
  Ok (por_categoria items).

(** *** Lifecycle operations *)

Definition set_status (s : string) (p : pedido) : pedido :=
  {| p_id := p_id p;
     p_order_number := p_order_number p;
     p_email := p_email p;
     p_comuna := p_comuna p;
     p_fecha_entrega := p_fecha_entrega p;
     p_direccion := p_direccion p;
     p_telefono := p_telefono p;
     p_nombre_cliente := p_nombre_cliente p;
     p_total := p_total p;
     p_created_at := p_created_at p;
     p_imported_at := p_imported_at p;
     p_status := s |}.

(** [UPDATE pedidos SET status = 'completado' WHERE id = ?] *)
Definition update_completado (pedido_id : Z) (d : db) : db :=
  {| categorias := categorias d;
     producto_categoria := producto_categoria d;
     pedidos := map (fun p => if p_id p =? pedido_id then set_status completado p else p)
                    (pedidos d);
     lineas_pedido := lineas_pedido d;
     seq_categorias := seq_categorias d;
     seq_producto_categoria := seq_producto_categoria d;
     seq_pedidos := seq_pedidos d;
     seq_lineas_pedido := seq_lineas_pedido d |}.

(** [completar_pedido]: the statement binds the id; the handler answers
    [{"success": True}]. *)
Definition completar_pedido (pedido_id : Z) (d : db) : exc (db * bool) :=
  id <-! bind_int pedido_id;
  Ok (update_completado id d, true).

(** [DELETE FROM lineas_pedido WHERE pedido_id = ?] *)
Definition delete_lineas (pedido_id : Z) (d : db) : db :=
  {| categorias := categorias d;
     producto_categoria := producto_categoria d;
     pedidos := pedidos d;
     lineas_pedido :=
       List.filter (fun l => negb (l_pedido_id l =? pedido_id)) (lineas_pedido d);
     seq_categorias := seq_categorias d;
     seq_producto_categoria := seq_producto_categoria d;
     seq_pedidos := seq_pedidos d;
     seq_lineas_pedido := seq_lineas_pedido d |}.

(** [DELETE FROM pedidos WHERE id = ?] *)
Definition delete_pedido (pedido_id : Z) (d : db) : db :=
  {| categorias := categorias d;
     producto_categoria := producto_categoria d;
     pedidos := List.filter (fun p => negb (p_id p =? pedido_id)) (pedidos d);
     lineas_pedido := lineas_pedido d;
     seq_categorias := seq_categorias d;
     seq_producto_categoria := seq_producto_categoria d;
     seq_pedidos := seq_pedidos d;
     seq_lineas_pedido := seq_lineas_pedido d |}.

(** [eliminar_pedido]: each of the two statements binds the id; the
    handler answers [{"success": True}]. *)
Definition eliminar_pedido (pedido_id : Z) (d : db) : exc (db * bool) :=
  id <-! bind_int pedido_id;
  let d1 := delete_lineas id d in
  id <-! bind_int pedido_id;
  Ok (delete_pedido id d1, true).

(** *** Listings *)

(** ORDER BY orden *)
Definition categoria_leb (c1 c2 : categoria) : bool :=
  not_gt (Z.compare (c_orden c1) (c_orden c2)).

(** [get_categorias]: every category, by display order (categories of
    equal display order stay in row order). *)
Definition get_categorias (d : db) : list categoria :=
  sort_by categoria_leb (categorias d).

(** SELECT DISTINCT: the first occurrence of each text. *)
Definition distinct (l : list string) : list string :=
  fold_right (fun x acc => x :: List.filter (fun y => negb (String.eqb x y)) acc) [] l.

(** The products of the rows of
    [lineas_pedido lp LEFT JOIN producto_categoria pc ON lp.producto = pc.producto]
    that pass [WHERE pc.id IS NULL]. *)
Definition productos_sin_mapeo (d : db) : list string :=
  flat_map (fun lp =>
    flat_map (fun pc : option prod_cat =>
                match pc with
                | None => [l_producto lp]
                | Some _ => []
                end)
      (left_join (List.filter (fun pc => String.eqb (l_producto lp) (pc_producto pc))
                              (producto_categoria d))))
    (lineas_pedido d).

(** [get_productos_sin_categoria]: SELECT DISTINCT ... ORDER BY lp.producto *)
Definition get_productos_sin_categoria (d : db) : list string :=
  sort_by String.leb (distinct (productos_sin_mapeo d)).

Definition is_pendiente (p : pedido) : bool := String.eqb (p_status p) pendiente.

Definition opt_eqb (a b : option string) : bool :=
  match a, b with
  | None, None => true
  | Some x, Some y => String.eqb x y
  | _, _ => false
  end.

(** One more row for the group of [k] in GROUP BY fecha_entrega; NULLs
    form a group of their own. *)
Fixpoint count_add (k : option string) (gs : list (option string * Z))
    : list (option string * Z) :=
  match gs with
  | [] => [(k, 1)]
  | (k', n) :: gs' =>
      if opt_eqb k' k then (k', n + 1) :: gs' else (k', n) :: count_add k gs'
  end.

Definition fecha_leb (a b : option string * Z) : bool :=
  not_gt (compare_opt_string (fst a) (fst b)).

(** [get_fechas_pendientes]: for each delivery date with pending
    orders, their number, by date. *)
Definition get_fechas_pendientes (d : db) : list (option string * Z) :=
  sort_by fecha_leb
    (fold_left (fun gs p => count_add (p_fecha_entrega p) gs)
       (List.filter is_pendiente (pedidos d)) []).

(** The figures [home] hands to its template; [hoy] is
    [date.today().isoformat()]. *)
Record home_stats : Type := {
  pedidos_pendientes : Z;
  fechas_pendientes : Z;
  pedidos_hoy : Z;
  productos_sin_categoria : Z;
}.

(** The texts of a nullable column, NULLs left out. *)
Definition non_null (l : list (option string)) : list string :=
  flat_map (fun o => match o with Some s => [s] | None => [] end) l.

Definition home (hoy : string) (d : db) : home_stats :=
  {| pedidos_pendientes :=
       Z.of_nat (length (List.filter is_pendiente (pedidos d)));
     fechas_pendientes :=
       Z.of_nat (length (distinct (non_null (map p_fecha_entrega
                                       (List.filter is_pendiente (pedidos d))))));
     pedidos_hoy :=
       Z.of_nat (length (List.filter
                           (fun p => sql_eq_opt (p_fecha_entrega p) hoy && is_pendiente p)
                           (pedidos d)));
     productos_sin_categoria :=
       Z.of_nat (length (distinct (productos_sin_mapeo d))) |}.

End Program.

(** ** A reference runtime

    One runtime to evaluate the program with: decimal numerals, the one
    timestamp layout and the two patterns the program uses, over ASCII.
    It is used for the worked examples only. *)

Module RefRuntime.

Definition is_digit (c : ascii) : bool :=
  let n := N_of_ascii c in ((48 <=? n) && (n <=? 57))%N.

Definition digit_val (c : ascii) : Z := Z.of_N (N_of_ascii c) - 48.

(** [\s] and [str.isspace] on ASCII: TAB..CR, FS..US and the space. *)
Definition is_space (c : ascii) : bool :=
  let n := N_of_ascii c in
  (((9 <=? n) && (n <=? 13)) || ((28 <=? n) && (n <=? 32)))%N.

Definition is_newline (c : ascii) : bool := (N_of_ascii c =? 10)%N.

Fixpoint digits_val (acc : Z) (l : list ascii) : option Z :=
  match l with
  | [] => Some acc
  | c :: l' => if is_digit c then digits_val (10 * acc + digit_val c) l' else None
  end.

(** A non-empty run of digits. *)
Definition nat_literal (l : list ascii) : option Z :=
  match l with
  | [] => None
  | _ => digits_val 0 l
  end.

Definition signed (f : list ascii -> option Z) (l : list ascii) : option (bool * Z) :=
  match l with
  | "-"%char :: l' => pair true <$> f l'
  | "+"%char :: l' => pair false <$> f l'
  | _ => pair false <$> f l
  end.

Definition ref_int_of_str (s : string) : option Z :=
  (fun sz : bool * Z => if fst sz then - snd sz else snd sz)
    <$> signed nat_literal (list_ascii_of_string s).

(** Floats are kept as numerals [m / 10^k] with a minimal [k]. *)
Record dec : Type := { mant : Z; expo : nat }.

Fixpoint normalise (fuel : nat) (m : Z) (k : nat) : dec :=
  match fuel, k with
  | S fuel', S k' =>
      if m mod 10 =? 0 then normalise fuel' (m / 10) k'
      else {| mant := m; expo := k |}
  | _, _ => {| mant := m; expo := k |}
  end.

Fixpoint split_at_dot (l : list ascii) : list ascii * option (list ascii) :=
  match l with
  | [] => ([], None)
  | "."%char :: l' => ([], Some l')
  | c :: l' => let '(a, b) := split_at_dot l' in (c :: a, b)
  end.

Definition unsigned_dec (l : list ascii) : option dec :=
  match split_at_dot l with
  | (ip, None) => (fun m => {| mant := m; expo := 0 |}) <$> nat_literal ip
  | (ip, Some fp) =>
      match ip, fp with
      | [], [] => None
      | _, _ =>
          m ← digits_val 0 (ip ++ fp);
          Some (normalise (length fp) m (length fp))
      end
  end.

Definition ref_float_of_str (s : string) : option dec :=
  match list_ascii_of_string s with
  | "-"%char :: l' =>
      (fun d : dec => {| mant := - mant d; expo := expo d |}) <$> unsigned_dec l'
  | "+"%char :: l' => unsigned_dec l'
  | l => unsigned_dec l
  end.

Record stamp : Type := {
  year : Z; month : Z; day : Z; hour : Z; minute : Z; second : Z;
}.

Definition field (l : list ascii) (from len : nat) : option Z :=
  let part := take len (drop from l) in
  if (length part =? len)%nat then digits_val 0 part else None.

Definition sep_at (l : list ascii) (i : nat) (c : ascii) : bool :=
  match l !! i with
  | Some c' => Ascii.eqb c c'
  | None => false
  end.

Definition is_leap (y : Z) : bool :=
  ((y mod 4 =? 0) && negb (y mod 100 =? 0)) || (y mod 400 =? 0).

Definition days_in_month (y m : Z) : Z :=
  if m =? 2 then (if is_leap y then 29 else 28)
  else if (m =? 4) || (m =? 6) || (m =? 9) || (m =? 11) then 30
  else 31.

(** The layout [%Y-%m-%d %H:%M:%S] with every field at full width. *)
Definition ref_strptime (s fmt : string) : option stamp :=
  let l := list_ascii_of_string s in
  if negb (String.eqb fmt "%Y-%m-%d %H:%M:%S") then None
  else if negb ((length l =? 19)%nat && sep_at l 4 "-" && sep_at l 7 "-"
                && sep_at l 10 " " && sep_at l 13 ":" && sep_at l 16 ":") then None
  else
    y ← field l 0 4; mo ← field l 5 2; dd ← field l 8 2;
    h ← field l 11 2; mi ← field l 14 2; ss ← field l 17 2;
    if (1 <=? y) && (1 <=? mo) && (mo <=? 12) && (1 <=? dd) && (dd <=? days_in_month y mo)
       && (h <=? 23) && (mi <=? 59) && (ss <=? 59)
    then Some {| year := y; month := mo; day := dd; hour := h; minute := mi; second := ss |}
    else None.

Fixpoint is_prefix (p l : list ascii) : option (list ascii) :=
  match p, l with
  | [], _ => Some l
  | a :: p', b :: l' => if Ascii.eqb a b then is_prefix p' l' else None
  | _ :: _, [] => None
  end.

(** The first position of [l] at which [label] starts and [body]
    accepts what follows. *)
Fixpoint search (label : list ascii) (body : list ascii -> option (list ascii))
    (l : list ascii) : option (list ascii) :=
  match
    match is_prefix label l with
    | Some rest => body rest
    | None => None
    end
  with
  | Some r => Some r
  | None =>
      match l with
      | [] => None
      | _ :: l' => search label body l'
      end
  end.

Fixpoint line_prefix (l : list ascii) : list ascii :=
  match l with
  | [] => []
  | c :: l' => if is_newline c then [] else c :: line_prefix l'
  end.

(** [\s*([^\n]+)]: the longest run of spaces after which a character
    other than a newline follows, then the rest of the line. *)
Fixpoint body_comuna (l : list ascii) : option (list ascii) :=
  match l with
  | [] => None
  | c :: l' =>
      if is_space c then
        match body_comuna l' with
        | Some r => Some r
        | None => if is_newline c then None else Some (line_prefix l)
        end
      else Some (line_prefix l)
  end.

Definition date_shape (l : list ascii) : bool :=
  let d i := match l !! i with Some c => is_digit c | None => false end in
  d 0%nat && d 1%nat && d 2%nat && d 3%nat && sep_at l 4 "-"
  && d 5%nat && d 6%nat && sep_at l 7 "-" && d 8%nat && d 9%nat.

(** [\s*(\d{4}-\d{2}-\d{2})] *)
Fixpoint body_fecha (l : list ascii) : option (list ascii) :=
  match l with
  | c :: l' =>
      if is_space c then body_fecha l'
      else if date_shape l then Some (take 10 l) else None
  | [] => None
  end.

Definition ref_re_search (pattern s : string) : option string :=
  let l := list_ascii_of_string s in
  if String.eqb pattern "Comuna de Entrega:\s*([^\n]+)" then
    string_of_list_ascii
      <$> search (list_ascii_of_string "Comuna de Entrega:") body_comuna l
  else if String.eqb pattern "Fecha de Entrega:\s*(\d{4}-\d{2}-\d{2})" then
    string_of_list_ascii
      <$> search (list_ascii_of_string "Fecha de Entrega:") body_fecha l
  else None.

Fixpoint lstrip (l : list ascii) : list ascii :=
  match l with
  | c :: l' => if is_space c then lstrip l' else l
  | [] => []
  end.

Definition ref_str_strip (s : string) : string :=
  string_of_list_ascii (rev (lstrip (rev (lstrip (list_ascii_of_string s))))).

#[export] Instance types : PyTypes := {|
  float := dec;
  datetime := stamp;
|}.

(** The numerals have no NaN and no negative zero: a REAL column
    gives each back as it is. *)
#[export] Instance runtime : PyRuntime := {|
  float_of_Z := fun z => {| mant := z; expo := 0 |};
  float_of_str := ref_float_of_str;
  int_of_str := ref_int_of_str;
  strptime := ref_strptime;
  re_search := ref_re_search;
  str_strip := ref_str_strip;
  sql_real := Some;
|}.

End RefRuntime.

(** ** Vocabulary of the statements *)

Section Vocabulary.
Context {PT : PyTypes} {RT : PyRuntime}.

(** The grouping key a row carries. *)
Definition row_key (row : Row) : pyval := row_get row "Name" (PyStr "").

(** [row] belongs to the order numbered [number]. *)
Definition has_key (number : string) (row : Row) : bool :=
  match row_key row with
  | PyStr s => String.eqb s number
  | _ => false
  end.

Definition has_lineitem (row : Row) : bool :=
  truthy (row_get row "Lineitem name" PyNone).

(** [row] is a row of order [number] that names a product. *)
Definition contributes (number : string) (row : Row) : bool :=
  has_key number row && has_lineitem row.

(** The order without its items: its scalar fields. *)
Definition header (o : order) : order :=
  {| o_order_number := o_order_number o;
     o_email := o_email o;
     o_comuna := o_comuna o;
     o_fecha_entrega := o_fecha_entrega o;
     o_nombre_cliente := o_nombre_cliente o;
     o_direccion := o_direccion o;
     o_telefono := o_telefono o;
     o_total := o_total o;
     o_created_at := o_created_at o;
     o_items := [] |}.

(** [it] is the line item that [row] carries. *)
Definition item_of_row (row : Row) (it : item) : Prop :=
  exists producto,
    row_get row "Lineitem name" PyNone = PyStr producto /\
    new_item producto row = Ok it.

(** [r] is the first row of [rows] that belongs to order [number]. *)
Definition first_row (number : string) (rows : list Row) (r : Row) : Prop :=
  exists pre post,
    rows = pre ++ r :: post /\
    Forall (fun r' => has_key number r' = false) pre /\
    has_key number r = true.

(** What grouping [rows] makes of the entry [kv] of the dict. *)
Definition grouped (rows : list Row) (kv : string * order) : Prop :=
  o_order_number (snd kv) = fst kv /\
  fst kv <> "" /\
  (exists r, first_row (fst kv) rows r /\ new_order (fst kv) r = Ok (header (snd kv))) /\
  Forall2 item_of_row (List.filter (contributes (fst kv)) rows) (o_items (snd kv)).

(** Between the two halves of a turn of the loop: the scalar fields
    already account for [row], the items do not yet. *)
Definition grouped_upto (rows : list Row) (row : Row) (kv : string * order) : Prop :=
  o_order_number (snd kv) = fst kv /\
  fst kv <> "" /\
  (exists r, first_row (fst kv) (rows ++ [row]) r /\
             new_order (fst kv) r = Ok (header (snd kv))) /\
  Forall2 item_of_row (List.filter (contributes (fst kv)) rows) (o_items (snd kv)).

Definition grouping_inv (rows : list Row) (orders : odict) : Prop :=
  NoDup (map fst orders) /\
  Forall (grouped rows) orders /\
  (forall r k, r ∈ rows -> k <> "" -> has_key k r = true ->
               dict_contains k orders = true).

Definition exc_map {A B} (f : A -> B) (m : exc A) : exc B :=
  match m with
  | Ok a => Ok (f a)
  | Raise e => Raise e
  end.

(** The order with its creation timestamp unset. *)
Definition erase_created_at (o : order) : order :=
  {| o_order_number := o_order_number o;
     o_email := o_email o;
     o_comuna := o_comuna o;
     o_fecha_entrega := o_fecha_entrega o;
     o_nombre_cliente := o_nombre_cliente o;
     o_direccion := o_direccion o;
     o_telefono := o_telefono o;
     o_total := o_total o;
     o_created_at := None;
     o_items := o_items o |}.

(** The text handed to [strptime]: the cell up to a [' -'] or [' +']. *)
Definition created_at_text (s : string) : string :=
  split_first " +" (split_first " -" s).

(** A text cell read with a numeric default, then converted. *)
Definition cell_or {A} (row : Row) (key : string) (default : A)
    (convert : string -> exc A) : exc A :=
  match row !! key with
  | Some (Some s) => if String.eqb s "" then Ok default else convert s
  | _ => Ok default
  end.

Definition erase_dict (d : odict) : odict :=
  map (fun kv => (fst kv, erase_created_at (snd kv))) d.

(** The row without its creation-timestamp cell. *)
Definition drop_created_at (row : Row) : Row := delete "Created at" row.

(** *** The rows an upload writes

    The loops of [upload_csv] with the binding of the quantities left
    out: what they write when every quantity binds. The lemmas
    [insert_lineas_ok], [insert_order_ok] and [ingest_from_ok] tie them
    to the program's loops. *)

Fixpoint insert_lineas_rows (pedido_id : Z) (items : list item)
    (seq : Z) (lineas : list linea) : Z * list linea :=
  match items with
  | [] => (seq, lineas)
  | it :: rest =>
      let id := next_rowid seq (map l_id lineas) in
      insert_lineas_rows pedido_id rest id (lineas ++ [linea_of_item id pedido_id it])
  end.

Definition insert_order_rows (clock : Z -> string) (d : db) (o : order) : db :=
  let pedido_id := next_rowid (seq_pedidos d) (map p_id (pedidos d)) in
  let sl :=
    insert_lineas_rows pedido_id (o_items o) (seq_lineas_pedido d) (lineas_pedido d) in
  {| categorias := categorias d;
     producto_categoria := producto_categoria d;
     pedidos := pedidos d ++ [pedido_of_order pedido_id (clock pedido_id) o];
     lineas_pedido := snd sl;
     seq_categorias := seq_categorias d;
     seq_producto_categoria := seq_producto_categoria d;
     seq_pedidos := pedido_id;
     seq_lineas_pedido := fst sl |}.

Definition ingest_step_rows (clock : Z -> string) (st : db * counts) (o : order)
    : db * counts :=
  let '(d, n) := st in
  if order_exists d (o_order_number o) then
    (d, {| nuevos := nuevos n; duplicados := duplicados n + 1; sin_fecha := sin_fecha n |})
  else if negb (truthy_opt (o_fecha_entrega o)) then
    (d, {| nuevos := nuevos n; duplicados := duplicados n; sin_fecha := sin_fecha n + 1 |})
  else
    (insert_order_rows clock d o,
     {| nuevos := nuevos n + 1; duplicados := duplicados n; sin_fecha := sin_fecha n |}).

(** Every quantity of the order fits an INTEGER of the store. *)
Definition binds (o : order) : bool :=
  forallb (fun it => in_int64 (it_cantidad it)) (o_items o).

(** The delivery date is present ([order['fecha_entrega']] is truthy). *)
Definition dated (o : order) : bool := truthy_opt (o_fecha_entrega o).

Definition count_if {A} (f : A -> bool) (l : list A) : Z :=
  Z.of_nat (length (List.filter f l)).

(** The order number of [o] is already in the store. *)
Definition stored (d : db) (o : order) : bool := order_exists d (o_order_number o).

(** The constraints the schema puts on the tables: the PRIMARY KEYs of
    [pedidos] and [categorias] and the UNIQUE columns. *)
Record schema_ok (d : db) : Prop := {
  ok_pedido_ids : NoDup (map p_id (pedidos d));
  ok_order_numbers : NoDup (map p_order_number (pedidos d));
  ok_categoria_ids : NoDup (map c_id (categorias d));
  ok_categoria_nombres : NoDup (map c_nombre (categorias d));
  ok_productos : NoDup (map pc_producto (producto_categoria d));
}.

(** The order a line belongs to. *)
Definition parent (d : db) (l : linea) : option pedido :=
  List.find (fun p => l_pedido_id l =? p_id p) (pedidos d).

(** The order is pending and its delivery date is [fecha]. *)
Definition due (fecha : string) (p : pedido) : Prop :=
  p_fecha_entrega p = Some fecha /\ p_status p = "pendiente".

(** The line's order is pending and due on [fecha]. *)
Definition parent_pending (d : db) (fecha : string) (l : linea) : bool :=
  match parent d l with
  | Some p => bool_decide (due fecha p)
  | None => false
  end.

(** The quantities of the lines of [producto] whose order is pending and
    due on [fecha]. *)
Definition demand (d : db) (fecha producto : string) : list Z :=
  map l_cantidad
    (List.filter (fun l => String.eqb (l_producto l) producto && parent_pending d fecha l)
                 (lineas_pedido d)).

Definition sumZ (l : list Z) : Z := fold_right Z.add 0 l.



(** Nothing for no quantity, else their sum. *)
Definition summary (qs : list Z) : list Z :=
  match qs with
  | [] => []
  | _ => [sumZ qs]
  end.

(** The quantities a shopping list shows for [producto], over all its
    categories. *)
Definition reported (lista : list (string * list entrada)) (producto : string) : list Z :=
  map e_cantidad
    (List.filter (fun e => String.eqb (e_producto e) producto) (flat_map snd lista)).

(** The category the mapping gives a product, if any. *)
Definition mapping_of (d : db) (producto : string) : option prod_cat :=
  List.find (fun pc => String.eqb producto (pc_producto pc)) (producto_categoria d).

Definition cat_of (d : db) (producto : string) : option categoria :=
  match mapping_of d producto with
  | Some pc => List.find (fun c => pc_categoria_id pc =? c_id c) (categorias d)
  | None => None
  end.

(** The rows the FROM clause yields for one line when ids and products
    are unique: at most one, with the line's order and category. *)
Definition join_line (d : db) (lp : linea) : list joined :=
  match parent d lp with
  | Some p =>
      [{| j_lp := lp; j_p := p;
          j_pc := mapping_of d (l_producto lp);
          j_c := cat_of d (l_producto lp) |}]
  | None => []
  end.

(** The quantities of the joined rows of [producto]. *)
Definition qty (producto : string) (js : list joined) : list Z :=
  map (fun j => l_cantidad (j_lp j))
    (List.filter (fun j => String.eqb (l_producto (j_lp j)) producto) js).

(** The totals of the groups of [producto]. *)
Definition total_of (producto : string) (gs : list grupo) : list Z :=
  map g_cantidad_total
    (List.filter (fun g => String.eqb (g_producto g) producto) gs).

Definition entrada_of (g : grupo) : entrada :=
  {| e_producto := g_producto g; e_cantidad := g_cantidad_total g |}.

(** [p'] is [p] but for its status. *)
Definition same_but_status (p p' : pedido) : Prop :=
  p_id p' = p_id p /\
  p_order_number p' = p_order_number p /\
  p_email p' = p_email p /\
  p_comuna p' = p_comuna p /\
  p_fecha_entrega p' = p_fecha_entrega p /\
  p_direccion p' = p_direccion p /\
  p_telefono p' = p_telefono p /\
  p_nombre_cliente p' = p_nombre_cliente p /\
  p_total p' = p_total p /\
  p_created_at p' = p_created_at p /\
  p_imported_at p' = p_imported_at p.

(** *** Comparisons *)

Definition on {A K} (f : A -> K) (cmp : K -> K -> comparison) (x y : A) : comparison :=
  cmp (f x) (f y).

Definition lex_compare {A} (c1 c2 : A -> A -> comparison) (x y : A) : comparison :=
  lex (c1 x y) (c2 x y).

(** A three-way comparison that comes from a total preorder. *)
Record proper_compare {A} (cmp : A -> A -> comparison) : Prop := {
  cmp_opp : forall x y, cmp y x = CompOpp (cmp x y);
  cmp_trans : forall x y z, cmp x y = Lt -> cmp y z = Lt -> cmp x z = Lt;
  cmp_eq_l : forall x y z, cmp x y = Eq -> cmp x z = cmp y z;
}.

(** The strict byte-wise order of texts. *)
Definition str_lt (a b : string) : Prop := String.compare a b = Lt.

(** The sort key of a category name: the display order configured for
    it, 999 for a name no category has. *)
Definition cat_rank (d : db) (name : string) : Z :=
  match List.find (fun c => String.eqb (c_nombre c) name) (categorias d) with
  | Some c => c_orden c
  | None => 999
  end.

(** Categories by display order, then by name. *)
Definition cat_lt (d : db) (n1 n2 : string) : Prop :=
  cat_rank d n1 < cat_rank d n2 \/
  (cat_rank d n1 = cat_rank d n2 /\ str_lt n1 n2).

(** The category name the shopping list files a product under. *)
Definition categoria_de (d : db) (producto : string) : string :=
  match cat_of d producto with
  | Some c => c_nombre c
  | None => sin_categoria
  end.

(** The loop that files the rows of the query under their category. *)
Definition agrupar (gs : list grupo) : list (string * list entrada) :=
  fold_left (fun pc g => cat_append (g_categoria g) (entrada_of g) pc) gs [].

(** The group without its overflow mark. *)
Definition unmark (g : grupo) : grupo :=
  {| g_producto := g_producto g;
     g_cantidad_total := g_cantidad_total g;
     g_overflow := false;
     g_c := g_c g |}.

(** The rows of the query in their order, and the list made of them:
    what [get_lista_compras] returns when no SUM overflows. *)
Definition lista_rows (fecha : string) (d : db) : list grupo :=
  sort_by grupo_leb (grupos fecha d).

Definition lista_de (fecha : string) (d : db) : list (string * list entrada) :=
  por_categoria (lista_rows fecha d).

(** The order the shopping list is to follow: category first, product
    within the category. *)
Definition grupo_before (d : db) (g1 g2 : grupo) : Prop :=
  cat_lt d (g_categoria g1) (g_categoria g2) \/
  (g_categoria g1 = g_categoria g2 /\ str_lt (g_producto g1) (g_producto g2)).

(** Every configured category sorts before the sentinel 999 and none
    bears the name of the synthetic category. *)
Definition categorias_below_sentinel (d : db) : Prop :=
  forall c, c ∈ categorias d -> c_orden c < 999 /\ c_nombre c <> sin_categoria.

(** [d2] holds the rows of [d], table by table, in some other order. *)
Definition same_rows (d d2 : db) : Prop :=
  Permutation (categorias d) (categorias d2) /\
  Permutation (producto_categoria d) (producto_categoria d2) /\
  Permutation (pedidos d) (pedidos d2) /\
  Permutation (lineas_pedido d) (lineas_pedido d2).

(** What the loop has built after the rows [gs]. *)
Record filed (d : db) (gs : list grupo) (out : list (string * list entrada)) : Prop := {
  filed_keys : StronglySorted (cat_lt d) (map fst out);
  filed_products :
    Forall (fun kv => StronglySorted str_lt (map e_producto (snd kv))) out;
  filed_source :
    forall cat es e, (cat, es) ∈ out -> e ∈ es ->
      exists g, g ∈ gs /\ cat = g_categoria g /\ e = entrada_of g;
  filed_key_source :
    forall k, k ∈ map fst out -> exists g, g ∈ gs /\ g_categoria g = k;
}.

(** Alphabetical order as a reader takes it: the order of the texts
    with the case of their ASCII letters set aside. *)
Definition minuscula (c : ascii) : ascii :=
  let n := N_of_ascii c in
  if ((65 <=? n) && (n <=? 90))%N then ascii_of_N (n + 32) else c.

Fixpoint minusculas (s : string) : string :=
  match s with
  | EmptyString => EmptyString
  | String c s' => String (minuscula c) (minusculas s')
  end.

Definition alfabetico (a b : string) : bool :=
  String.leb (minusculas a) (minusculas b).

(** *** Vocabulary of the further properties *)

(** The order number a row is grouped under, if it has one. *)
Definition row_number (row : Row) : list string :=
  match row_key row with
  | PyStr s => if String.eqb s "" then [] else [s]
  | _ => []
  end.

Definition numbers_of (rows : list Row) : list string := flat_map row_number rows.

(** The cell [key] of [row] holds a non-empty text that [conv] refuses. *)
Definition bad_cell {A} (conv : string -> option A) (row : Row) (key : string) : Prop :=
  exists s, row !! key = Some (Some s) /\ s <> "" /\ conv s = None.

(** Coming after the rows [pre], [row] holds a number the grouper
    converts and cannot: it has an order number and either is the first
    row of that number and its total is bad, or it names a product and
    its quantity or its price is bad. *)
Definition faulty (pre : list Row) (row : Row) : Prop :=
  exists number,
    row_key row = PyStr number /\ number <> "" /\
    ((Forall (fun r => has_key number r = false) pre /\
      bad_cell float_of_str row "Total") \/
     (has_lineitem row = true /\
      (bad_cell int_of_str row "Lineitem quantity" \/
       bad_cell float_of_str row "Lineitem price"))).

(** The cell [key] of [row] is missing, [None] or empty. *)
Definition blank (row : Row) (key : string) : Prop :=
  row !! key = None \/ row !! key = Some None \/ row !! key = Some (Some "").

Definition nombres (d : db) : list string := map c_nombre (categorias d).

(** The counter of [categorias] is at least every id of the table. *)
Definition counter_ahead (d : db) : Prop :=
  max_list (map c_id (categorias d)) <= seq_categorias d.

(** Some line of the store asks for [producto]. *)
Definition pedido_alguna_vez (d : db) (producto : string) : Prop :=
  exists l, l ∈ lineas_pedido d /\ l_producto l = producto.

(** What the program keeps true of the orders and lines it stores:
    every order has a delivery date and is pending or completed, and
    every line belongs to a stored order. *)
Record store_inv (d : db) : Prop := {
  inv_dated : forall p, p ∈ pedidos d -> truthy_opt (p_fecha_entrega p) = true;
  inv_status :
    forall p, p ∈ pedidos d -> p_status p = pendiente \/ p_status p = completado;
  inv_parent : forall l, l ∈ lineas_pedido d -> l_pedido_id l ∈ map p_id (pedidos d);
}.

(** [l] is the row an item [it] is stored as: its product, quantity
    and SKU as they are, its price as a REAL column keeps it. *)
Definition stored_line (it : item) (l : linea) : Prop :=
  l_producto l = it_producto it /\
  l_cantidad l = it_cantidad it /\
  l_precio l = sql_real (it_precio it) /\
  l_sku l = it_sku it.

(** [p] is the row a candidate order [o] is stored as: its scalar
    fields as they are, its total as a REAL column keeps it. *)
Definition stored_as (o : order) (p : pedido) : Prop :=
  p_order_number p = o_order_number o /\
  p_email p = o_email o /\
  p_comuna p = o_comuna o /\
  p_fecha_entrega p = o_fecha_entrega o /\
  p_direccion p = o_direccion o /\
  p_telefono p = o_telefono o /\
  p_nombre_cliente p = o_nombre_cliente o /\
  p_total p = sql_real (o_total o) /\
  p_created_at p = o_created_at o /\
  p_status p = "pendiente".

(** The store holds [o] as [p], with the items of [o] as its lines, one
    line per item and in the order of the items. *)
Definition holds (d : db) (o : order) (p : pedido) : Prop :=
  p ∈ pedidos d /\ stored_as o p /\
  Forall2 stored_line (o_items o) (lineas_of d (p_id p)).

(** One operation of the program on the store, carried through. *)
Inductive step : db -> db -> Prop :=
| step_init (d : db) : step d (init_db d)
| step_upload (clock : Z -> string) (filename : string) (rows : list Row)
    (d d' : db) (r : upload_result) :
    upload_csv clock filename rows d = Ok (d', r) -> step d d'
| step_create (nombre : string) (d d' : db) (id : Z) :
    create_categoria nombre d = Ok (d', id) -> step d d'
| step_asignar (producto : string) (categoria_id : Z) (d d' : db) :
    asignar_categoria producto categoria_id d = Ok d' -> step d d'
| step_completar (pedido_id : Z) (d d' : db) (r : bool) :
    completar_pedido pedido_id d = Ok (d', r) -> step d d'
| step_eliminar (pedido_id : Z) (d d' : db) (r : bool) :
    eliminar_pedido pedido_id d = Ok (d', r) -> step d d'.

(** The stores the program can bring an empty database to. *)
Inductive reachable : db -> Prop :=
| reach_empty : reachable empty_db
| reach_step (d d' : db) : reachable d -> step d d' -> reachable d'.

(** An optional filter text lets a value through: no filter, an empty
    filter text, or equality. *)
Definition passes (filtro : option string) (col : option string) : bool :=
  match filtro with
  | Some f => if String.eqb f "" then true else sql_eq_opt col f
  | None => true
  end.

(** The order passes the two filters of [get_pedidos]. *)
Definition selected (fecha status : option string) (p : pedido) : bool :=
  passes fecha (p_fecha_entrega p) && passes status (Some (p_status p)).

(** The quantities the picking manifest of [fecha] lists for [producto],
    order after order. *)
Definition manifest_qty (d : db) (fecha producto : string) : list Z :=
  map l_cantidad
    (List.filter (fun l => String.eqb (l_producto l) producto)
                 (flat_map snd (picking_manifest fecha d))).

(** The number of pending orders whose delivery date is [k]. *)
Definition pendientes_de (d : db) (k : option string) : Z :=
  Z.of_nat (length (List.filter
                      (fun p => is_pendiente p && opt_eqb (p_fecha_entrega p) k)
                      (pedidos d))).

(** The counts the groups of key [k] hold. *)
Definition count_of (k : option string) (gs : list (option string * Z)) : list Z :=
  map snd (List.filter (fun g => opt_eqb (fst g) k) gs).

(** Nothing for zero, else the number. *)
Definition nz (n : nat) : list Z :=
  match n with
  | O => []
  | S _ => [Z.of_nat n]
  end.

Definition has_date (g : option string * Z) : bool :=
  match fst g with
  | Some _ => true
  | None => false
  end.

End Vocabulary.

(** ** Worked data *)

Module Ejemplo.
Import RefRuntime.

Definition nl : string := String (ascii_of_nat 10) "".

(** A record of the reader with every cell a text. *)
Definition mkrow (l : list (string * string)) : Row :=
  list_to_map (map (fun kv => (fst kv, Some (snd kv))) l).

Definition nota (fecha comuna : string) : string :=
  ("Comuna de Entrega: " ++ comuna ++ nl ++ "Fecha de Entrega: " ++ fecha)%string.

Definition clock0 : Z -> string := fun _ => "2024-05-01 12:00:00".

(** The store as [init_db] leaves it at start-up. *)
Definition db0 : db := init_db empty_db.

(** Order #2002 of the specification: dated, one line. *)
Definition fila_2002 : Row :=
  mkrow [("Name", "#2002"); ("Email", "ana@example.com");
         ("Created at", "2024-05-01 10:00:00 -0400"); ("Total", "1500");
         ("Note Attributes", nota "2024-05-10" "Providencia");
         ("Lineitem name", "Leche"); ("Lineitem quantity", "1");
         ("Lineitem price", "1500")].

(** Order #1001 of the specification: two lines, no delivery date; as
    in an export, the second row leaves the order-level cells empty. *)
Definition fila_1001a : Row :=
  mkrow [("Name", "#1001"); ("Total", "10"); ("Note Attributes", "");
         ("Lineitem name", "Manzana"); ("Lineitem quantity", "3")].

Definition fila_1001b : Row :=
  mkrow [("Name", "#1001"); ("Total", ""); ("Note Attributes", "");
         ("Lineitem name", "Pera"); ("Lineitem quantity", "2")].

(** The same order number, this time with a delivery date. *)
Definition fila_1001_fechada : Row :=
  mkrow [("Name", "#1001"); ("Total", "10");
         ("Note Attributes", nota "2024-05-10" "Maipu");
         ("Lineitem name", "Manzana"); ("Lineitem quantity", "3")].

(** An order whose total is not a number. *)
Definition fila_3003 : Row :=
  mkrow [("Name", "#3003"); ("Total", "abc");
         ("Note Attributes", nota "2024-05-10" "Maipu");
         ("Lineitem name", "Pan"); ("Lineitem quantity", "1")].

(** A second dated order that also asks for milk. *)
Definition fila_4004 : Row :=
  mkrow [("Name", "#4004"); ("Total", "3000");
         ("Note Attributes", nota "2024-05-10" "Maipu");
         ("Lineitem name", "Leche"); ("Lineitem quantity", "2")].

Definition store_of (r : exc (db * upload_result)) : db :=
  match r with
  | Ok (d, _) => d
  | Raise _ => empty_db
  end.

Definition result_of (r : exc (db * upload_result)) : upload_result :=
  match r with
  | Ok (_, res) => res
  | Raise _ =>
      {| r_success := false; r_nuevos := 0; r_duplicados := 0;
         r_sin_fecha := 0; r_total := 0 |}
  end.

Definition orders_of (r : exc (list order)) : list order :=
  match r with
  | Ok l => l
  | Raise _ => []
  end.

Definition db_of (r : exc db) : db :=
  match r with
  | Ok d => d
  | Raise _ => empty_db
  end.

Definition store_after (r : exc (db * bool)) : db :=
  match r with
  | Ok (d, _) => d
  | Raise _ => empty_db
  end.

(** The store after the export with orders #1001 (dateless) and #2002. *)
Definition filas_a : list Row := [fila_1001a; fila_1001b; fila_2002].
Definition db_a : db := Eval vm_compute in store_of (upload_csv clock0 "pedidos.csv" filas_a db0).
Definition res_a : upload_result :=
  Eval vm_compute in result_of (upload_csv clock0 "pedidos.csv" filas_a db0).
Definition pedidos_a : list order := Eval vm_compute in orders_of (parse_shopify_csv filas_a).

(** Order #1001 as grouped from [filas_a]. *)
Definition pedido_1001 : order :=
  {| o_order_number := "#1001";
     o_email := PyStr "";
     o_comuna := None;
     o_fecha_entrega := None;
     o_nombre_cliente := PyStr "";
     o_direccion := PyStr "";
     o_telefono := PyStr "";
     o_total := {| mant := 10; expo := 0 |};
     o_created_at := None;
     o_items :=
       [{| it_producto := "Manzana"; it_cantidad := 3;
           it_precio := {| mant := 0; expo := 0 |}; it_sku := PyStr "" |};
        {| it_producto := "Pera"; it_cantidad := 2;
           it_precio := {| mant := 0; expo := 0 |}; it_sku := PyStr "" |}] |}.

(** The store with #2002 and #4004, both pending for the same date. *)
Definition db_b : db :=
  Eval vm_compute in store_of (upload_csv clock0 "pedidos.csv" [fila_2002; fila_4004] db0).

(** The store that already holds a dated #1001. *)
Definition db_c : db :=
  Eval vm_compute in store_of (upload_csv clock0 "pedidos.csv" [fila_1001_fechada] db0).

(** A category that bears the name of the synthetic one, and one more;
    product A mapped to the first, C to the second, B unmapped. *)
Definition db_clash : db :=
  Eval vm_compute in
    match create_categoria "Sin Categoría" db0 with
    | Ok (d1, i1) =>
        match create_categoria "Zeta" d1 with
        | Ok (d2, i2) =>
            db_of (asignar_categoria "C" i2 (db_of (asignar_categoria "A" i1 d2)))
        | Raise _ => empty_db
        end
    | Raise _ => empty_db
    end.

Definition fila_A : Row :=
  mkrow [("Name", "#1"); ("Note Attributes", nota "2024-05-10" "Maipu");
         ("Lineitem name", "A"); ("Lineitem quantity", "2")].
Definition fila_B : Row := mkrow [("Name", "#1"); ("Lineitem name", "B")].
Definition fila_C : Row := mkrow [("Name", "#1"); ("Lineitem name", "C")].

Definition db_clash_pedido : db :=
  Eval vm_compute in
    store_of (upload_csv clock0 "pedidos.csv" [fila_A; fila_B; fila_C] db_clash).

(** Names for many categories. *)
Fixpoint name_of (p : positive) : string :=
  match p with
  | xH => "c"
  | xO q => String "0" (name_of q)
  | xI q => String "1" (name_of q)
  end.

(** [n] calls of [create_categoria], with fresh names. *)
Fixpoint create_many (n : nat) (d : db) : db :=
  match n with
  | O => d
  | S k =>
      let d' := create_many k d in
      match create_categoria (name_of (Pos.of_succ_nat k)) d' with
      | Ok (d'', _) => d''
      | Raise _ => d'
      end
  end.

(** After 901 more categories the last one has display order 1000;
    product A is mapped to it, B is unmapped. *)
Definition db_many : db := db_of (asignar_categoria "A" 908 (create_many 901 db0)).

Definition db_many_pedido : db :=
  store_of (upload_csv clock0 "pedidos.csv" [fila_A; fila_B] db_many).

(** A row of an order with one product. *)
Definition fila (numero producto cantidad : string) : Row :=
  mkrow [("Name", numero); ("Note Attributes", nota "2024-05-10" "Maipu");
         ("Lineitem name", producto); ("Lineitem quantity", cantidad)].

(** Six products mapped to three of the default categories, and two
    orders for the same date that ask for them and for two products
    that are not mapped. *)
Definition db_mapeado : db :=
  Eval vm_compute in
    fold_left (fun d pc => db_of (asignar_categoria (fst pc) (snd pc) d))
      [("Manzana", 1); ("Pera", 1); ("Zanahoria", 2); ("Zapallo", 2); ("apio", 2);
       ("Leche", 5)]
      db0.

Definition filas_surtido : list Row :=
  [fila "#501" "Pera" "2"; fila "#501" "Leche" "1"; fila "#501" "Zanahoria" "3";
   fila "#501" "Pan" "1"; fila "#501" "apio" "1";
   fila "#502" "Manzana" "4"; fila "#502" "Pera" "1"; fila "#502" "Arroz" "2";
   fila "#502" "Zapallo" "1"].

Definition db_surtido : db :=
  Eval vm_compute in store_of (upload_csv clock0 "pedidos.csv" filas_surtido db_mapeado).

(** The shopping list of [db_surtido]. *)
Definition lista_surtido : list (string * list entrada) :=
  [("Frutas", [{| e_producto := "Manzana"; e_cantidad := 4 |};
               {| e_producto := "Pera"; e_cantidad := 3 |}]);
   ("Verduras", [{| e_producto := "Zanahoria"; e_cantidad := 3 |};
                 {| e_producto := "Zapallo"; e_cantidad := 1 |};
                 {| e_producto := "apio"; e_cantidad := 1 |}]);
   ("Lácteos", [{| e_producto := "Leche"; e_cantidad := 1 |}]);
   ("Sin Categoría", [{| e_producto := "Arroz"; e_cantidad := 2 |};
                      {| e_producto := "Pan"; e_cantidad := 1 |}])].



(** An order with a quantity that no INTEGER of the store holds. *)
Definition fila_enorme : Row := fila "#701" "Leche" "9223372036854775808".

(** What the upload that leads to [db_b] answers. *)
Definition res_b : upload_result :=
  Eval vm_compute in
    result_of (upload_csv clock0 "pedidos.csv" [fila_2002; fila_4004] db0).

(** Order #2002 as grouped from [filas_a]. *)
Definition orden_2002 : order :=
  Eval vm_compute in
    match pedidos_a with
    | _ :: o :: _ => o
    | _ => pedido_1001
    end.

(** [db_b] once order #2002 (id 1) is completed. *)
Definition db_b_completado : db :=
  Eval vm_compute in store_after (completar_pedido 1 db_b).

(** The row of the completed #2002. *)
Definition fila_completada : pedido :=
  {| p_id := 1;
     p_order_number := "#2002";
     p_email := PyStr "ana@example.com";
     p_comuna := Some "Providencia";
     p_fecha_entrega := Some "2024-05-10";
     p_direccion := PyStr "";
     p_telefono := PyStr "";
     p_nombre_cliente := PyStr "";
     p_total := Some {| mant := 1500; expo := 0 |};
     p_created_at :=
       Some {| year := 2024; month := 5; day := 1; hour := 10; minute := 0; second := 0 |};
     p_imported_at := "2024-05-01 12:00:00";
     p_status := "completado" |}.

End Ejemplo.

(** * Properties *)

(** ** General lemmas *)

Lemma elem_of_lfilter {A} (f : A -> bool) (l : list A) (x : A) :
  x ∈ List.filter f l <-> x ∈ l /\ f x = true.
Proof. rewrite !list_elem_of_In. apply filter_In. Qed.

Lemma existsb_elem {A} (f : A -> bool) (l : list A) :
  existsb f l = true <-> exists x, x ∈ l /\ f x = true.
Proof.
  rewrite existsb_exists. split; intros (x & Hx & Hf); exists x; split; auto;
    by apply list_elem_of_In.
Qed.

Lemma existsb_false_elem {A} (f : A -> bool) (l : list A) :
  existsb f l = false <-> forall x, x ∈ l -> f x = false.
Proof.
  split.
  - intros H x Hx. destruct (f x) eqn:E; [|done].
    assert (existsb f l = true) by (apply existsb_elem; eauto). congruence.
  - intros H. destruct (existsb f l) eqn:E; [|done].
    apply existsb_elem in E as (x & Hx & Hf). rewrite (H x Hx) in Hf. done.
Qed.

Lemma lfilter_app {A} (f : A -> bool) (l1 l2 : list A) :
  List.filter f (l1 ++ l2) = List.filter f l1 ++ List.filter f l2.
Proof. apply List.filter_app. Qed.

Lemma lfilter_none {A} (f : A -> bool) (l : list A) :
  Forall (fun x => f x = false) l -> List.filter f l = [].
Proof. induction 1 as [|x l Hx _ IH]; simpl; [done|]. by rewrite Hx. Qed.

Lemma eqb_true (s1 s2 : string) : String.eqb s1 s2 = true <-> s1 = s2.
Proof. apply String.eqb_eq. Qed.

Lemma eqb_false (s1 s2 : string) : String.eqb s1 s2 = false <-> s1 <> s2.
Proof. apply String.eqb_neq. Qed.

Lemma insert_sorted_perm {A} (leb : A -> A -> bool) (x : A) (l : list A) :
  Permutation (insert_sorted leb x l) (x :: l).
Proof.
  induction l as [|y l IH]; simpl; [done|].
  destruct (leb x y); [done|].
  rewrite IH. apply perm_swap.
Qed.

Lemma sort_by_perm {A} (leb : A -> A -> bool) (l : list A) :
  Permutation (sort_by leb l) l.
Proof.
  induction l as [|x l IH]; simpl; [done|].
  rewrite insert_sorted_perm. by constructor.
Qed.

Lemma elem_of_sort_by {A} (leb : A -> A -> bool) (l : list A) (x : A) :
  x ∈ sort_by leb l <-> x ∈ l.
Proof. by rewrite sort_by_perm. Qed.

(** ** Comparisons and sorting *)

Section Comparison.
Context {A : Type}.

Lemma proper_on {K} (f : A -> K) (cmp : K -> K -> comparison) :
  proper_compare cmp -> proper_compare (on f cmp).
Proof. intros [H1 H2 H3]. split; unfold on; eauto. Qed.

Lemma cmp_eq_r (cmp : A -> A -> comparison) (x y z : A) :
  proper_compare cmp -> cmp x y = Eq -> cmp z x = cmp z y.
Proof.
  intros [H1 _ H3] Hxy. rewrite (H1 x z), (H1 y z). f_equal. by apply H3.
Qed.

Lemma proper_lex (c1 c2 : A -> A -> comparison) :
  proper_compare c1 -> proper_compare c2 -> proper_compare (lex_compare c1 c2).
Proof.
  intros P1 P2. pose proof (cmp_eq_r c1) as E1.
  destruct P1 as [O1 T1 L1] eqn:HP1, P2 as [O2 T2 L2]. clear HP1.
  split; unfold lex_compare, lex.
  - intros x y. rewrite (O1 x y), (O2 x y). by destruct (c1 x y), (c2 x y).
  - intros x y z Hxy Hyz.
    destruct (c1 x y) eqn:E; [|clear Hxy|done].
    + rewrite (L1 x y z E). destruct (c1 y z); [|done..]. eauto.
    + destruct (c1 y z) eqn:E'; [| |done].
      * by rewrite <- (E1 y z x P1 E'), E.
      * by rewrite (T1 x y z E E').
  - intros x y z Hxy. destruct (c1 x y) eqn:E; [|done..].
    by rewrite (L1 x y z E), (L2 x y z Hxy).
Qed.

Context (cmp : A -> A -> comparison) (Hcmp : proper_compare cmp).

Lemma not_gt_total (x y : A) :
  not_gt (cmp x y) = false -> not_gt (cmp y x) = true.
Proof.
  destruct Hcmp as [O _ _]. rewrite (O x y). by destruct (cmp x y).
Qed.

Lemma not_gt_trans (x y z : A) :
  not_gt (cmp x y) = true -> not_gt (cmp y z) = true -> not_gt (cmp x z) = true.
Proof.
  pose proof (cmp_eq_r cmp) as R. destruct Hcmp as [O T L] eqn:HP. clear HP.
  destruct (cmp x y) eqn:E; [| |done]; intros _.
  - by rewrite (L x y z E).
  - destruct (cmp y z) eqn:E'; [| |done]; intros _.
    + by rewrite <- (R y z x Hcmp E'), E.
    + by rewrite (T x y z E E').
Qed.

Lemma insert_sorted_sorted (x : A) (l : list A) :
  StronglySorted (fun a b => not_gt (cmp a b) = true) l ->
  StronglySorted (fun a b => not_gt (cmp a b) = true)
                 (insert_sorted (fun a b => not_gt (cmp a b)) x l).
Proof.
  induction 1 as [|y l Hl IH Hy]; simpl; [by repeat constructor|].
  destruct (not_gt (cmp x y)) eqn:E.
  - constructor; [by constructor|]. constructor; [done|].
    eapply Forall_impl; [exact Hy|]. intros z Hz. simpl in Hz.
    by eapply not_gt_trans.
  - constructor; [done|].
    assert (Hperm := insert_sorted_perm (fun a b => not_gt (cmp a b)) x l).
    rewrite Forall_forall. intros z Hz. rewrite Hperm in Hz.
    apply elem_of_cons in Hz as [->|Hz]; [by apply not_gt_total|].
    rewrite Forall_forall in Hy. by apply Hy.
Qed.

Lemma sort_by_sorted (l : list A) :
  StronglySorted (fun a b => not_gt (cmp a b) = true)
                 (sort_by (fun a b => not_gt (cmp a b)) l).
Proof.
  induction l as [|x l IH]; simpl; [constructor|]. by apply insert_sorted_sorted.
Qed.
End Comparison.

Lemma proper_Z_compare : proper_compare Z.compare.
Proof.
  split.
  - intros x y. by rewrite Z.compare_antisym.
  - intros x y z. rewrite !Z.compare_lt_iff. lia.
  - intros x y z ->%Z.compare_eq. done.
Qed.

Lemma string_compare_refl (s : string) : String.compare s s = Eq.
Proof.
  destruct (String.compare s s) eqn:E; [done| |];
    pose proof (String.compare_antisym s s) as H; rewrite E in H; done.
Qed.

Lemma proper_string_compare : proper_compare String.compare.
Proof.
  split.
  - intros x y. apply String.compare_antisym.
  - intros x y z Hxy Hyz.
    assert (Hle : String.le x z).
    { transitivity y; unfold String.le, String.leb; by rewrite ?Hxy, ?Hyz. }
    unfold String.le, String.leb in Hle.
    destruct (String.compare x z) eqn:E; [|done|done].
    apply String.compare_eq_iff in E as ->.
    rewrite String.compare_antisym, Hyz in Hxy. done.
  - intros x y z ->%String.compare_eq_iff. done.
Qed.

Lemma proper_compare_opt_string : proper_compare compare_opt_string.
Proof.
  destruct proper_string_compare as [O T L]. split.
  - intros [x|] [y|]; simpl; auto.
  - intros [x|] [y|] [z|]; simpl; eauto; done.
  - intros [x|] [y|] [z|]; simpl; eauto; done.
Qed.

Lemma proper_grupo_compare : proper_compare grupo_compare.
Proof.
  change grupo_compare with
    (lex_compare (on g_categoria_orden Z.compare)
       (lex_compare (on (fun g => c_nombre <$> g_c g) compare_opt_string)
                    (on g_producto String.compare))).
  repeat apply proper_lex; apply proper_on;
    auto using proper_Z_compare, proper_string_compare, proper_compare_opt_string.
Qed.

Lemma proper_pedido_compare {PT : PyTypes} : proper_compare pedido_compare.
Proof.
  change pedido_compare with
    (lex_compare (on p_fecha_entrega compare_opt_string)
                 (on p_order_number String.compare)).
  apply proper_lex; apply proper_on;
    auto using proper_string_compare, proper_compare_opt_string.
Qed.

Section Grouper.
Context {PT : PyTypes} {RT : PyRuntime}.

(** ** The order grouper *)

Lemma truthy_PyStr (s : string) : truthy (PyStr s) = true <-> s <> "".
Proof. simpl. rewrite negb_true_iff. apply eqb_false. Qed.

Lemma row_get_str_not_int (row : Row) (key d : string) (z : Z) :
  row_get row key (PyStr d) <> PyInt z.
Proof. unfold row_get. by repeat case_match. Qed.

Lemma row_get_none_not_int (row : Row) (key : string) (z : Z) :
  row_get row key PyNone <> PyInt z.
Proof. unfold row_get. by repeat case_match. Qed.

Lemma dict_contains_elem (k : string) (d : odict) :
  dict_contains k d = true <-> k ∈ map fst d.
Proof.
  unfold dict_contains. rewrite existsb_elem, list_elem_of_fmap. split.
  - intros (kv & Hin & Heq). apply eqb_true in Heq. eauto.
  - intros (kv & -> & Hin). exists kv. split; [done|]. by apply eqb_true.
Qed.

Lemma dict_append_item_keys (k : string) (it : item) (d : odict) :
  map fst (dict_append_item k it d) = map fst d.
Proof.
  unfold dict_append_item. rewrite map_map. apply map_ext.
  intros kv. by case_match.
Qed.

Lemma header_add_item (it : item) (o : order) : header (add_item it o) = header o.
Proof. done. Qed.

Lemma new_order_shape (k : string) (row : Row) (o : order) :
  new_order k row = Ok o -> o_order_number o = k /\ o_items o = [] /\ header o = o.
Proof.
  unfold new_order, exc_bind. intros H.
  repeat case_match; simplify_eq. done.
Qed.

Lemma has_key_falsy (k : string) (row : Row) :
  truthy (row_key row) = false -> k <> "" -> has_key k row = false.
Proof.
  unfold has_key. destruct (row_key row) as [|s|z]; simpl; [done| |done].
  intros Hs%negb_false_iff%eqb_true Hk. subst s. by apply eqb_false.
Qed.

Lemma has_key_of_key (k number : string) (row : Row) :
  row_key row = PyStr number -> has_key k row = String.eqb number k.
Proof. unfold has_key. by intros ->. Qed.

Lemma first_row_snoc (k : string) (rows : list Row) (r row : Row) :
  first_row k rows r -> first_row k (rows ++ [row]) r.
Proof.
  intros (pre & post & -> & Hpre & Hr). exists pre, (post ++ [row]).
  by rewrite <- app_assoc.
Qed.

Lemma grouped_upto_old (rows : list Row) (row : Row) (kv : string * order) :
  grouped rows kv -> grouped_upto rows row kv.
Proof.
  intros (Hn & Hne & (r & Hfirst & Hnew) & Hitems).
  split_and!; [done|done| |done].
  exists r. split; [by apply first_row_snoc|done].
Qed.

Lemma grouped_upto_new (rows : list Row) (row : Row) (k : string) (o : order) :
  k <> "" -> has_key k row = true ->
  Forall (fun r' => has_key k r' = false) rows ->
  new_order k row = Ok o ->
  grouped_upto rows row (k, o).
Proof.
  intros Hk Hrow Hrows Hnew.
  destruct (new_order_shape _ _ _ Hnew) as (Hn & Hi & Hh).
  split_and!; simpl; [done|done| |].
  - exists row. split; [|by rewrite Hh].
    exists rows, []. done.
  - rewrite Hi, lfilter_none; [constructor|].
    eapply Forall_impl; [exact Hrows|]. intros r Hr. simpl in Hr.
    unfold contributes. by rewrite Hr.
Qed.

Lemma grouped_snoc_other (rows : list Row) (row : Row) (kv : string * order) :
  contributes (fst kv) row = false ->
  grouped_upto rows row kv -> grouped (rows ++ [row]) kv.
Proof.
  intros Hk (Hn & Hne & Hfirst & Hitems).
  split_and!; [done|done|done|].
  rewrite lfilter_app. simpl. rewrite Hk. by rewrite app_nil_r.
Qed.

Lemma grouped_snoc_item (rows : list Row) (row : Row) (k : string) (o : order)
    (it : item) :
  contributes k row = true -> item_of_row row it ->
  grouped_upto rows row (k, o) -> grouped (rows ++ [row]) (k, add_item it o).
Proof.
  intros Hk Hit (Hn & Hne & Hfirst & Hitems). simpl in *.
  split_and!; [done|done|done|]; simpl.
  rewrite lfilter_app. simpl. rewrite Hk.
  apply Forall2_app; [done|]. by constructor.
Qed.

Lemma grouped_append_item (rows : list Row) (row : Row) (number : string)
    (it : item) (d : odict) :
  row_key row = PyStr number -> has_lineitem row = true -> item_of_row row it ->
  Forall (grouped_upto rows row) d ->
  Forall (grouped (rows ++ [row])) (dict_append_item number it d).
Proof.
  intros Hkey Hl Hit Hd. unfold dict_append_item. apply Forall_map.
  eapply Forall_impl; [exact Hd|]. intros [k o] Hg. simpl.
  destruct (String.eqb k number) eqn:E.
  - apply eqb_true in E as ->. apply grouped_snoc_item; try done.
    unfold contributes. rewrite Hl, (has_key_of_key _ number); [|done].
    rewrite andb_true_r. by apply eqb_true.
  - apply grouped_snoc_other; [|done]. simpl. unfold contributes.
    rewrite (has_key_of_key _ number); [|done].
    apply andb_false_iff. left.
    apply eqb_false. apply eqb_false in E. congruence.
Qed.

Lemma grouped_keep (rows : list Row) (row : Row) (d : odict) :
  has_lineitem row = false ->
  Forall (grouped_upto rows row) d -> Forall (grouped (rows ++ [row])) d.
Proof.
  intros Hl Hd. eapply Forall_impl; [exact Hd|].
  intros kv Hg. apply grouped_snoc_other; [|done].
  unfold contributes. rewrite Hl. apply andb_false_r.
Qed.

Lemma grouped_skip (rows : list Row) (row : Row) (d : odict) :
  truthy (row_key row) = false ->
  Forall (grouped rows) d -> Forall (grouped (rows ++ [row])) d.
Proof.
  intros Hl Hd. eapply Forall_impl; [exact Hd|].
  intros kv Hg. apply grouped_snoc_other; [|by apply grouped_upto_old].
  unfold contributes. rewrite has_key_falsy; [done..|]. apply Hg.
Qed.

(** One turn of the loop keeps the invariant. *)
Lemma process_row_inv (done_rows : list Row) (orders orders' : odict) (row : Row) :
  grouping_inv done_rows orders ->
  process_row orders row = Ok orders' ->
  grouping_inv (done_rows ++ [row]) orders'.
Proof.
  intros (Hnd & Hall & Hcov). unfold process_row. fold (row_key row).
  destruct (truthy (row_key row)) eqn:Htr; simpl.
  2:{ intros [= <-]. split_and!; [done|by apply grouped_skip|].
      intros r k [Hr| ->%list_elem_of_singleton]%elem_of_app Hk Hhas; [eauto|].
      by rewrite has_key_falsy in Hhas. }
  destruct (row_key row) as [|number|z] eqn:Hkey; [done| |done].
  apply truthy_PyStr in Htr.
  assert (Hself : has_key number row = true).
  { rewrite (has_key_of_key _ number); [|done]. by apply eqb_true. }
  set (step1 := if dict_contains number orders then Ok orders
                else exc_bind (new_order number row)
                       (fun o => Ok (orders ++ [(number, o)]))).
  destruct step1 as [orders1|e] eqn:Hstep1; simpl; [|done].
  assert (H1 : NoDup (map fst orders1) /\
               Forall (grouped_upto done_rows row) orders1 /\
               (forall r k, r ∈ done_rows ++ [row] -> k <> "" -> has_key k r = true ->
                            dict_contains k orders1 = true)).
  { subst step1. destruct (dict_contains number orders) eqn:Hc.
    - injection Hstep1 as <-. split_and!; [done| |].
      + eapply Forall_impl; [exact Hall|]. intros kv. apply grouped_upto_old.
      + intros r k [Hr| ->%list_elem_of_singleton]%elem_of_app Hk Hhas; [eauto|].
        rewrite (has_key_of_key _ number) in Hhas; [|done].
        apply eqb_true in Hhas as <-. done.
    - destruct (new_order number row) as [o|] eqn:Hnew; simpl in Hstep1; [|done].
      injection Hstep1 as <-.
      assert (Hfresh : Forall (fun r' => has_key number r' = false) done_rows).
      { apply Forall_forall. intros r Hr.
        destruct (has_key number r) eqn:E; [|done].
        rewrite (Hcov r number Hr Htr E) in Hc. done. }
      split_and!.
      + rewrite map_app. simpl. apply NoDup_app. split_and!; [done| |apply NoDup_singleton].
        intros k Hk ->%list_elem_of_singleton.
        apply dict_contains_elem in Hk. congruence.
      + apply Forall_app. split.
        * eapply Forall_impl; [exact Hall|]. intros kv. apply grouped_upto_old.
        * constructor; [|constructor]. by apply grouped_upto_new.
      + intros r k Hr Hk Hhas. apply dict_contains_elem. rewrite map_app.
        apply elem_of_app.
        apply elem_of_app in Hr as [Hr| ->%list_elem_of_singleton].
        * left. apply dict_contains_elem. eauto.
        * right. rewrite (has_key_of_key _ number) in Hhas; [|done].
          apply eqb_true in Hhas as <-. simpl. apply list_elem_of_singleton. done. }
  destruct H1 as (Hnd1 & Hall1 & Hcov1).
  fold (has_lineitem row).
  destruct (has_lineitem row) eqn:Hl.
  - unfold has_lineitem in Hl.
    destruct (row_get row "Lineitem name" PyNone) as [|producto|z] eqn:Hprod; [done| |done].
    destruct (new_item producto row) as [it|] eqn:Hit; simpl; [|done].
    intros [= <-]. split_and!.
    + by rewrite dict_append_item_keys.
    + apply grouped_append_item; try done.
      * unfold has_lineitem. by rewrite Hprod.
      * exists producto. done.
    + intros r k Hr Hk Hhas. apply dict_contains_elem.
      rewrite dict_append_item_keys. apply dict_contains_elem. eauto.
  - intros [= <-]. split_and!; [done|by apply grouped_keep|done].
Qed.

Lemma process_rows_inv (rows done_rows : list Row) (orders res : odict) :
  grouping_inv done_rows orders ->
  process_rows orders rows = Ok res ->
  grouping_inv (done_rows ++ rows) res.
Proof.
  revert done_rows orders. induction rows as [|row rows IH]; intros done_rows orders Hinv; simpl.
  - intros [= <-]. by rewrite app_nil_r.
  - destruct (process_row orders row) as [orders'|] eqn:Hrow; simpl; [|done].
    intros Hrest. rewrite (cons_middle row), app_assoc. eapply IH; [|done].
    by eapply process_row_inv.
Qed.

Lemma parse_grouped (rows : list Row) (orders : list order) :
  parse_shopify_csv rows = Ok orders ->
  exists d : odict, orders = map snd d /\ grouping_inv rows d.
Proof.
  unfold parse_shopify_csv.
  destruct (process_rows [] rows) as [d|] eqn:Hd; simpl; [|done].
  intros [= <-]. exists d. split; [done|].
  apply (process_rows_inv rows [] [] d); [|done].
  split_and!; [constructor|constructor|]. intros r k Hr. by apply elem_of_nil in Hr.
Qed.

(** The candidate orders carry distinct, non-empty order numbers. *)
Lemma parse_numbers_NoDup (rows : list Row) (orders : list order) :
  parse_shopify_csv rows = Ok orders -> NoDup (map o_order_number orders).
Proof.
  intros (d & -> & Hnd & Hall & _)%parse_grouped.
  rewrite map_map.
  replace (map (fun x => o_order_number (snd x)) d) with (map fst d); [done|].
  rewrite Forall_forall in Hall. clear Hnd.
  induction d as [|kv d IH]; simpl; [done|].
  f_equal.
  - symmetry. apply Hall. apply list_elem_of_here.
  - apply IH. intros x Hx. apply Hall. by apply list_elem_of_further.
Qed.

Lemma parse_order_grouped (rows : list Row) (orders : list order) (o : order) :
  parse_shopify_csv rows = Ok orders -> o ∈ orders ->
  grouped rows (o_order_number o, o).
Proof.
  intros (d & -> & _ & Hall & _)%parse_grouped Ho.
  apply list_elem_of_fmap in Ho as ([k o'] & -> & Hin). simpl.
  rewrite Forall_forall in Hall. specialize (Hall _ Hin).
  destruct Hall as (Hn & Hrest). simpl in Hn. by rewrite Hn.
Qed.

Lemma cell_or_get {A} (row : Row) (key : string) (z : Z) (default : A)
    (conv : pyval -> exc A) :
  z <> 0 -> conv (PyInt z) = Ok default ->
  conv (py_or (row_get row key (PyInt z)) (PyInt z))
  = cell_or row key default (fun s => conv (PyStr s)).
Proof.
  intros Hz Hconv. unfold cell_or, row_get, py_or.
  destruct (row !! key) as [[s|]|]; simpl; try done.
  - destruct (String.eqb s ""); simpl; done.
  - destruct (z =? 0) eqn:E; simpl; done.
Qed.

Lemma cell_or_get0 {A} (row : Row) (key : string) (default : A)
    (conv : pyval -> exc A) :
  conv (PyInt 0) = Ok default ->
  conv (py_or (row_get row key (PyInt 0)) (PyInt 0))
  = cell_or row key default (fun s => conv (PyStr s)).
Proof.
  intros Hconv. unfold cell_or, row_get, py_or.
  destruct (row !! key) as [[s|]|]; simpl; try done.
  destruct (String.eqb s ""); simpl; done.
Qed.

Lemma row_total_cell (row : Row) :
  row_total row
  = cell_or row "Total" (float_of_Z 0) (fun s => of_option ValueError (float_of_str s)).
Proof. by apply (cell_or_get0 row "Total" (float_of_Z 0) py_float). Qed.

Lemma row_cantidad_cell (row : Row) :
  row_cantidad row
  = cell_or row "Lineitem quantity" 1 (fun s => of_option ValueError (int_of_str s)).
Proof. by apply (cell_or_get row "Lineitem quantity" 1 1 py_int). Qed.

Lemma row_precio_cell (row : Row) :
  row_precio row
  = cell_or row "Lineitem price" (float_of_Z 0)
      (fun s => of_option ValueError (float_of_str s)).
Proof. by apply (cell_or_get0 row "Lineitem price" (float_of_Z 0) py_float). Qed.

Lemma new_order_total (k : string) (row : Row) (o : order) :
  new_order k row = Ok o -> row_total row = Ok (o_total o).
Proof.
  unfold new_order, exc_bind. intros H. repeat case_match; simplify_eq. done.
Qed.

Lemma new_item_numbers (producto : string) (row : Row) (it : item) :
  new_item producto row = Ok it ->
  it_producto it = producto /\
  row_cantidad row = Ok (it_cantidad it) /\ row_precio row = Ok (it_precio it).
Proof.
  unfold new_item, exc_bind. intros H. repeat case_match; simplify_eq. done.
Qed.

Lemma parse_created_at_cell (row : Row) :
  parse_created_at row
  = Ok (match row !! "Created at" with
        | Some (Some s) =>
            if String.eqb s "" then None
            else strptime (created_at_text s) fmt_created_at
        | _ => None
        end).
Proof.
  unfold parse_created_at, row_get, row_item, created_at_text.
  destruct (row !! "Created at") as [[s|]|]; simpl; try done.
  destruct (String.eqb s ""); simpl; [done|].
  by destruct (strptime _ _).
Qed.

(** *** The timestamp cell does not steer the grouping *)

Lemma row_get_drop (row : Row) (key : string) (d : pyval) :
  key <> "Created at" ->
  row_get (drop_created_at row) key d = row_get row key d.
Proof.
  intros Hk. unfold row_get, drop_created_at. by rewrite lookup_delete_ne.
Qed.

Lemma parse_created_at_drop (row : Row) :
  parse_created_at (drop_created_at row) = Ok None.
Proof.
  rewrite parse_created_at_cell. unfold drop_created_at.
  by rewrite lookup_delete_eq.
Qed.

Lemma new_order_drop (k : string) (row : Row) :
  new_order k (drop_created_at row) = exc_map erase_created_at (new_order k row).
Proof.
  unfold new_order, row_total. rewrite parse_created_at_drop.
  rewrite (parse_created_at_cell row). rewrite !row_get_drop by done.
  destruct (parse_note_attributes _); simpl; [|done].
  by destruct (py_float _).
Qed.

Lemma new_item_drop (producto : string) (row : Row) :
  new_item producto (drop_created_at row) = new_item producto row.
Proof.
  unfold new_item, row_cantidad, row_precio. by rewrite !row_get_drop.
Qed.

Lemma dict_contains_erase (k : string) (d : odict) :
  dict_contains k (erase_dict d) = dict_contains k d.
Proof.
  unfold dict_contains, erase_dict. induction d as [|kv d IH]; simpl; [done|].
  by rewrite IH.
Qed.

Lemma dict_append_item_erase (k : string) (it : item) (d : odict) :
  dict_append_item k it (erase_dict d) = erase_dict (dict_append_item k it d).
Proof.
  unfold dict_append_item, erase_dict. rewrite !map_map. apply map_ext.
  intros [k' o]. simpl. by destruct (String.eqb k' k).
Qed.

Lemma process_row_drop (d : odict) (row : Row) :
  process_row (erase_dict d) (drop_created_at row)
  = exc_map erase_dict (process_row d row).
Proof.
  unfold process_row. rewrite !row_get_drop by done.
  destruct (truthy (row_get row "Name" (PyStr ""))); simpl; [|done].
  destruct (row_get row "Name" (PyStr "")) as [|number|z]; [done| |done].
  rewrite dict_contains_erase, new_order_drop.
  destruct (dict_contains number d); simpl.
  - destruct (truthy (row_get row "Lineitem name" PyNone)); [|done].
    destruct (row_get row "Lineitem name" PyNone) as [|producto|z]; [done| |done].
    rewrite new_item_drop.
    destruct (new_item producto row); simpl; [|done].
    by rewrite dict_append_item_erase.
  - destruct (new_order number row) as [o|]; simpl; [|done].
    replace (erase_dict d ++ [(number, erase_created_at o)])
      with (erase_dict (d ++ [(number, o)])).
    2:{ unfold erase_dict. by rewrite map_app. }
    destruct (truthy (row_get row "Lineitem name" PyNone)); [|done].
    destruct (row_get row "Lineitem name" PyNone) as [|producto|z]; [done| |done].
    rewrite new_item_drop.
    destruct (new_item producto row); simpl; [|done].
    by rewrite dict_append_item_erase.
Qed.

Lemma process_rows_drop (rows : list Row) (d : odict) :
  process_rows (erase_dict d) (map drop_created_at rows)
  = exc_map erase_dict (process_rows d rows).
Proof.
  revert d. induction rows as [|row rows IH]; intros d; simpl; [done|].
  rewrite process_row_drop.
  destruct (process_row d row) as [d'|]; simpl; [|done]. apply IH.
Qed.

Lemma parse_drop (rows : list Row) :
  parse_shopify_csv (map drop_created_at rows)
  = exc_map (map erase_created_at) (parse_shopify_csv rows).
Proof.
  unfold parse_shopify_csv.
  change (@nil (string * order)) with (erase_dict []) at 1.
  rewrite process_rows_drop.
  destruct (process_rows [] rows) as [d|]; simpl; [|done].
  unfold erase_dict. by rewrite !map_map.
Qed.

(** *** The claims on the grouper *)


(** C9. The creation-timestamp block always returns: it yields the
    parsed timestamp when the cell holds a text that [strptime] accepts
    once a trailing [' -...'] or [' +...'] offset is cut, and leaves the
    timestamp unset in every other case (no cell, [None], empty text,
    text that [strptime] refuses). Whether the grouping succeeds, and
    everything it returns besides the timestamps, is the same as for the
    rows without their timestamp cell. *)
Theorem created_at_never_raises :
  (forall row : Row,
     parse_created_at row
     = Ok (match row !! "Created at" with
           | Some (Some s) =>
               if String.eqb s "" then None
               else strptime (created_at_text s) fmt_created_at
           | _ => None
           end)) /\
  (forall rows : list Row,
     exc_map (map erase_created_at) (parse_shopify_csv rows)
     = parse_shopify_csv (map drop_created_at rows)).
Proof.
  split; [apply parse_created_at_cell|]. intros rows. symmetry. apply parse_drop.
Qed.

End Grouper.

Section Gate.
Context {PT : PyTypes} {RT : PyRuntime}.

(** ** The deduplication and persistence gate *)

Lemma count_if_cons {A} (f : A -> bool) (x : A) (l : list A) :
  count_if f (x :: l) = (if f x then 1 else 0) + count_if f l.
Proof. unfold count_if. simpl. destruct (f x); simpl; lia. Qed.

Lemma count_if_split {A} (f : A -> bool) (l : list A) :
  count_if f l + count_if (fun x => negb (f x)) l = Z.of_nat (length l).
Proof.
  induction l as [|x l IH]; [done|]. rewrite !count_if_cons. simpl length.
  destruct (f x); simpl; lia.
Qed.

Lemma count_if_ext {A} (f g : A -> bool) (l : list A) :
  (forall x, x ∈ l -> f x = g x) -> count_if f l = count_if g l.
Proof.
  induction l as [|x l IH]; intros H; [done|]. rewrite !count_if_cons.
  rewrite (H x) by apply list_elem_of_here.
  rewrite IH; [done|]. intros y Hy. apply H. by apply list_elem_of_further.
Qed.

(** *** The loops and the rows they write *)

Lemma bind_int_eq (z : Z) :
  bind_int z = if in_int64 z then Ok z else Raise OverflowError.
Proof. done. Qed.

Lemma insert_lineas_eq (pedido_id : Z) (items : list item) (seq : Z)
    (lineas : list linea) :
  insert_lineas pedido_id items seq lineas
  = if forallb (fun it => in_int64 (it_cantidad it)) items
    then Ok (insert_lineas_rows pedido_id items seq lineas)
    else Raise OverflowError.
Proof.
  revert seq lineas. induction items as [|it items IH]; intros seq lineas; [done|].
  simpl. unfold bind_int. destruct (in_int64 (it_cantidad it)); simpl; [apply IH|done].
Qed.

Lemma insert_order_eq (clock : Z -> string) (d : db) (o : order) :
  insert_order clock d o
  = if binds o then Ok (insert_order_rows clock d o) else Raise OverflowError.
Proof.
  unfold insert_order, insert_order_rows, binds. rewrite insert_lineas_eq.
  by destruct (forallb _ _).
Qed.

Lemma ingest_step_eq (clock : Z -> string) (st : db * counts) (o : order) :
  ingest_step clock st o
  = if stored (fst st) o || negb (dated o) || binds o
    then Ok (ingest_step_rows clock st o)
    else Raise OverflowError.
Proof.
  destruct st as [d n]. unfold ingest_step, ingest_step_rows, stored, dated. simpl.
  destruct (order_exists d (o_order_number o)); simpl; [done|].
  destruct (truthy_opt (o_fecha_entrega o)); simpl; [|done].
  rewrite insert_order_eq. by destruct (binds o).
Qed.

(** The loop, when it ends, has written what the rows say, and it ends
    in no other exception than [OverflowError]. *)
Lemma ingest_from_ok (clock : Z -> string) (orders : list order) (st st' : db * counts) :
  ingest_from clock orders st = Ok st' ->
  fold_left (ingest_step_rows clock) orders st = st'.
Proof.
  revert st. induction orders as [|o orders IH]; intros st; simpl; [by intros [= <-]|].
  rewrite ingest_step_eq. destruct (_ || _); simpl; [apply IH|done].
Qed.

Lemma ingest_from_raise (clock : Z -> string) (orders : list order) (st : db * counts)
    (e : exn) :
  ingest_from clock orders st = Raise e ->
  e = OverflowError /\ exists o, o ∈ orders /\ binds o = false.
Proof.
  revert st. induction orders as [|o orders IH]; intros st; simpl; [done|].
  rewrite ingest_step_eq. destruct (_ || _) eqn:E; simpl.
  - intros (-> & o' & Ho' & Hb)%IH. split; [done|]. exists o'.
    split; [by apply list_elem_of_further|done].
  - intros [= <-]. split; [done|]. exists o. split; [apply list_elem_of_here|].
    apply orb_false_iff in E as [_ E]. done.
Qed.

Lemma insert_order_pedidos (clock : Z -> string) (d : db) (o : order) :
  exists p, pedidos (insert_order_rows clock d o) = pedidos d ++ [p] /\
            p_order_number p = o_order_number o /\
            p_fecha_entrega p = o_fecha_entrega o /\
            p_id p = next_rowid (seq_pedidos d) (map p_id (pedidos d)).
Proof.
  unfold insert_order_rows. eexists. simpl. split; [done|]. done.
Qed.

Lemma order_exists_insert (clock : Z -> string) (d : db) (o : order) (k : string) :
  order_exists (insert_order_rows clock d o) k
  = order_exists d k || String.eqb (o_order_number o) k.
Proof.
  destruct (insert_order_pedidos clock d o) as (p & Hp & Hn & _).
  unfold order_exists. rewrite Hp, existsb_app. simpl. by rewrite Hn, orb_false_r.
Qed.

Lemma stored_step (clock : Z -> string) (st : db * counts) (o o' : order) :
  stored (fst st) o' = true -> stored (fst (ingest_step_rows clock st o)) o' = true.
Proof.
  destruct st as [d n]. unfold ingest_step_rows, stored. simpl. intros H.
  destruct (order_exists d (o_order_number o)); [done|].
  destruct (negb _); [done|]. simpl. by rewrite order_exists_insert, H.
Qed.

(** The loop ends when every candidate it has to insert binds. *)
Lemma ingest_from_total (clock : Z -> string) (orders : list order) (st : db * counts) :
  (forall o, o ∈ orders ->
     stored (fst st) o = true \/ dated o = false \/ binds o = true) ->
  ingest_from clock orders st = Ok (fold_left (ingest_step_rows clock) orders st).
Proof.
  revert st. induction orders as [|o orders IH]; intros st H; simpl; [done|].
  rewrite ingest_step_eq.
  assert (stored (fst st) o || negb (dated o) || binds o = true) as ->.
  { destruct (H o) as [->| [->| ->]]; [apply list_elem_of_here|done|..].
    - by rewrite orb_true_r.
    - by rewrite orb_true_r. }
  simpl. apply IH. intros o' Ho'.
  destruct (H o') as [Hs|[Hd|Hb]]; [by apply list_elem_of_further|..]; auto.
  left. by apply stored_step.
Qed.

(** After a pass, the store knows the numbers it knew plus those of the
    dated candidates. *)
Lemma ingest_known (clock : Z -> string) (orders : list order) (d d1 : db)
    (n n1 : counts) (k : string) :
  fold_left (ingest_step_rows clock) orders (d, n) = (d1, n1) ->
  order_exists d1 k
  = order_exists d k
    || existsb (fun o => String.eqb (o_order_number o) k && dated o) orders.
Proof.
  revert d n. induction orders as [|o orders IH]; intros d n; simpl.
  - intros [= <- <-]. by rewrite orb_false_r.
  - destruct (order_exists d (o_order_number o)) eqn:Hex.
    + intros H. rewrite (IH _ _ H).
      destruct (String.eqb (o_order_number o) k) eqn:E; simpl; [|done].
      apply eqb_true in E as <-. by rewrite Hex.
    + fold (dated o). destruct (dated o) eqn:Hd; simpl.
      * intros H. rewrite (IH _ _ H), order_exists_insert.
        rewrite andb_true_r. by rewrite orb_assoc.
      * intros H. rewrite (IH _ _ H). by rewrite andb_false_r.
Qed.

(** The counters of a pass over candidates with distinct numbers, read
    off the store it ends in. *)
Lemma ingest_counts (clock : Z -> string) (orders : list order) (d d1 : db)
    (n n1 : counts) :
  NoDup (map o_order_number orders) ->
  fold_left (ingest_step_rows clock) orders (d, n) = (d1, n1) ->
  sin_fecha n1 = sin_fecha n + count_if (fun o => negb (stored d1 o)) orders /\
  nuevos n1 + duplicados n1
  = nuevos n + duplicados n + count_if (stored d1) orders /\
  sin_fecha n1
  = sin_fecha n + count_if (fun o => negb (dated o) && negb (stored d o)) orders.
Proof.
  revert d n. induction orders as [|o orders IH]; intros d n Hnd; simpl.
  - intros [= <- <-]. unfold count_if. simpl. lia.
  - apply NoDup_cons in Hnd as [Hfresh Hnd]. rewrite !count_if_cons.
    unfold stored at 1 3 5.
    assert (Hlater : existsb (fun o' => String.eqb (o_order_number o') (o_order_number o)
                                        && dated o') orders = false).
    { apply existsb_false_elem. intros o' Ho'.
      apply andb_false_iff. left. apply eqb_false. intros Heq.
      apply Hfresh. rewrite <- Heq. apply list_elem_of_fmap. eauto. }
    destruct (order_exists d (o_order_number o)) eqn:Hex.
    + intros H. destruct (IH _ _ Hnd H) as (H1 & H2 & H3).
      rewrite (ingest_known _ _ _ _ _ _ (o_order_number o) H), Hex. simpl in *.
      rewrite andb_false_r. lia.
    + fold (dated o). destruct (dated o) eqn:Hd; simpl.
      * intros H. destruct (IH _ _ Hnd H) as (H1 & H2 & H3).
        rewrite (ingest_known _ _ _ _ _ _ (o_order_number o) H).
        rewrite order_exists_insert, Hex, String.eqb_refl. simpl in *.
        rewrite H3. split_and!; [lia|lia|].
        f_equal. apply count_if_ext. intros o' Ho'. unfold stored.
        rewrite order_exists_insert.
        assert (String.eqb (o_order_number o) (o_order_number o') = false) as ->.
        { apply eqb_false. intros Heq. apply Hfresh. rewrite Heq.
          apply list_elem_of_fmap. eauto. }
        by rewrite orb_false_r.
      * intros H. destruct (IH _ _ Hnd H) as (H1 & H2 & H3).
        rewrite (ingest_known _ _ _ _ _ _ (o_order_number o) H), Hex, Hlater.
        simpl in *. lia.
Qed.

(** Each counter of a pass over candidates with distinct numbers, read
    off the store it starts from: a candidate whose number is stored is
    a duplicate, dated or not; of the others, the dateless are rejected
    and the dated accepted. *)
Lemma ingest_tally (clock : Z -> string) (orders : list order) (d d1 : db)
    (n n1 : counts) :
  NoDup (map o_order_number orders) ->
  fold_left (ingest_step_rows clock) orders (d, n) = (d1, n1) ->
  nuevos n1 = nuevos n + count_if (fun o => dated o && negb (stored d o)) orders /\
  duplicados n1 = duplicados n + count_if (stored d) orders /\
  sin_fecha n1
  = sin_fecha n + count_if (fun o => negb (dated o) && negb (stored d o)) orders.
Proof.
  revert d n. induction orders as [|o orders IH]; intros d n Hnd; simpl.
  - intros [= <- <-]. unfold count_if. simpl. lia.
  - apply NoDup_cons in Hnd as [Hfresh Hnd]. rewrite !count_if_cons.
    unfold stored at 1 3 5.
    destruct (order_exists d (o_order_number o)) eqn:Hex.
    + intros H. destruct (IH _ _ Hnd H) as (H1 & H2 & H3). simpl in *.
      rewrite !andb_false_r. lia.
    + fold (dated o). destruct (dated o) eqn:Hd; simpl.
      * intros H. destruct (IH _ _ Hnd H) as (H1 & H2 & H3). simpl in *.
        assert (Hsame : forall o', o' ∈ orders ->
                  stored (insert_order_rows clock d o) o' = stored d o').
        { intros o' Ho'. unfold stored. rewrite order_exists_insert.
          assert (String.eqb (o_order_number o) (o_order_number o') = false) as ->.
          { apply eqb_false. intros Heq. apply Hfresh. rewrite Heq.
            apply list_elem_of_fmap. eauto. }
          by rewrite orb_false_r. }
        rewrite H1, H2, H3.
        rewrite (count_if_ext (stored (insert_order_rows clock d o)) (stored d))
          by exact Hsame.
        rewrite (count_if_ext
                   (fun o' => dated o' && negb (stored (insert_order_rows clock d o) o'))
                   (fun o' => dated o' && negb (stored d o')))
          by (intros o' Ho'; by rewrite Hsame).
        rewrite (count_if_ext
                   (fun o' => negb (dated o')
                              && negb (stored (insert_order_rows clock d o) o'))
                   (fun o' => negb (dated o') && negb (stored d o')))
          by (intros o' Ho'; by rewrite Hsame).
        lia.
      * intros H. destruct (IH _ _ Hnd H) as (H1 & H2 & H3). simpl in *. lia.
Qed.

(** A pass over candidates whose dated members are all stored changes
    nothing and accepts nothing. *)
Lemma ingest_saturated (clock : Z -> string) (orders : list order) (d : db) (n : counts) :
  (forall o, o ∈ orders -> dated o = true -> stored d o = true) ->
  fold_left (ingest_step_rows clock) orders (d, n)
  = (d, {| nuevos := nuevos n;
           duplicados := duplicados n + count_if (stored d) orders;
           sin_fecha := sin_fecha n + count_if (fun o => negb (stored d o)) orders |}).
Proof.
  revert n. induction orders as [|o orders IH]; intros n Hsat; simpl.
  - unfold count_if. simpl. rewrite !Z.add_0_r. by destruct n.
  - rewrite !count_if_cons. fold (stored d o). fold (dated o).
    destruct (stored d o) eqn:Hex; simpl.
    + rewrite IH; [|intros o' Ho'; apply Hsat; by apply list_elem_of_further].
      simpl. do 2 f_equal; lia.
    + destruct (dated o) eqn:Hd.
      { rewrite (Hsat o) in Hex; [done|apply list_elem_of_here|done]. }
      simpl. rewrite IH; [|intros o' Ho'; apply Hsat; by apply list_elem_of_further].
      simpl. do 2 f_equal; lia.
Qed.

Lemma ingest_dated_only (clock : Z -> string) (orders : list order) (d : db)
    (n n' : counts) :
  fst (fold_left (ingest_step_rows clock) orders (d, n))
  = fst (fold_left (ingest_step_rows clock) (List.filter dated orders) (d, n')).
Proof.
  revert d n n'. induction orders as [|o orders IH]; intros d n n'; simpl; [done|].
  fold (dated o). destruct (dated o) eqn:Hd; simpl.
  - unfold dated in Hd. rewrite ?Hd. destruct (order_exists d (o_order_number o)); simpl; apply IH.
  - destruct (order_exists d (o_order_number o)); simpl; apply IH.
Qed.

Lemma get_pedidos_from_store (fecha status : option string) (d : db)
    (pl : pedido * list linea) :
  pl ∈ get_pedidos fecha status d ->
  fst pl ∈ pedidos d /\ snd pl = lineas_of d (p_id (fst pl)).
Proof.
  unfold get_pedidos. intros (p & -> & Hp)%list_elem_of_fmap. simpl.
  apply elem_of_sort_by, elem_of_lfilter in Hp as [Hp _]. done.
Qed.

Lemma order_exists_false (d : db) (k : string) :
  order_exists d k = false <-> forall p, p ∈ pedidos d -> p_order_number p <> k.
Proof.
  unfold order_exists. rewrite existsb_false_elem.
  split; intros H p Hp; specialize (H p Hp); by apply eqb_false.
Qed.

(** C1 (as amended). When an upload of [rows] has succeeded, uploading
    the same rows again succeeds, leaves the store as it is, accepts
    nothing, and rejects for lack of a date exactly as many orders as
    the first pass did; every other candidate is a duplicate, so
    duplicate = total - rejected_no_date, which is the number the first
    pass accepted or found stored. It is duplicate = total when every
    candidate order has a delivery date. *)
Theorem reingest_accepts_nothing (clock1 clock2 : Z -> string) (filename : string)
    (rows : list Row) (d d1 : db) (r1 : upload_result) :
  upload_csv clock1 filename rows d = Ok (d1, r1) ->
  exists r2,
    upload_csv clock2 filename rows d1 = Ok (d1, r2) /\
    r_nuevos r2 = 0 /\
    r_total r2 = r_total r1 /\
    r_sin_fecha r2 = r_sin_fecha r1 /\
    r_duplicados r2 = r_total r2 - r_sin_fecha r2 /\
    r_duplicados r2 = r_nuevos r1 + r_duplicados r1 /\
    (forall orders, parse_shopify_csv rows = Ok orders ->
       forallb dated orders = true -> r_duplicados r2 = r_total r2).
Proof.
  unfold upload_csv. destruct (endswith filename ".csv"); simpl; [|done].
  destruct (parse_shopify_csv rows) as [orders|] eqn:Hparse; simpl; [|done].
  destruct (ingest clock1 d orders) as [[d1' n1]|] eqn:Hpass1; simpl; [|done].
  intros [= <- <-]. unfold ingest in *. apply ingest_from_ok in Hpass1.
  pose proof (parse_numbers_NoDup _ _ Hparse) as Hnd.
  destruct (ingest_counts _ _ _ _ _ _ Hnd Hpass1) as (Hsf & Hacc & Hsf').
  assert (Hsat : forall o, o ∈ orders -> dated o = true -> stored d1' o = true).
  { intros o Ho Hd. unfold stored.
    rewrite (ingest_known _ _ _ _ _ _ (o_order_number o) Hpass1).
    apply orb_true_iff. right. apply existsb_elem. exists o.
    split; [done|]. by rewrite String.eqb_refl. }
  rewrite ingest_from_total.
  2:{ intros o Ho. simpl. destruct (dated o) eqn:Hd; [left; by apply Hsat|by right; left]. }
  rewrite ingest_saturated by exact Hsat.
  pose proof (count_if_split (stored d1') orders) as Hsplit.
  eexists. split; [done|]. simpl in *.
  split_and!; try lia.
  intros ? [= <-] Hall. rewrite Hsf' in Hsf.
  assert (count_if (fun o => negb (dated o) && negb (stored d o)) orders = 0) as H0.
  { unfold count_if. rewrite lfilter_none; [done|].
    apply Forall_forall. intros o Ho%list_elem_of_In.
    rewrite forallb_forall in Hall. by rewrite (Hall o Ho). }
  lia.
Qed.

(** A pass that ends has bound every candidate it had to insert. *)
Lemma ingest_from_binds (clock : Z -> string) (orders : list order)
    (st st' : db * counts) (o : order) :
  NoDup (map o_order_number orders) ->
  ingest_from clock orders st = Ok st' ->
  o ∈ orders -> dated o = true -> stored (fst st) o = false -> binds o = true.
Proof.
  revert st. induction orders as [|x orders IH]; intros st Hnd Hloop Ho Hd Hst;
    [by apply elem_of_nil in Ho|].
  cbn [ingest_from] in Hloop. rewrite ingest_step_eq in Hloop.
  apply NoDup_cons in Hnd as [Hx Hnd].
  apply elem_of_cons in Ho as [->|Ho].
  - rewrite Hst, Hd in Hloop. simpl in Hloop. by destruct (binds x).
  - destruct (_ || _); simpl in Hloop; [|done].
    apply (IH _ Hnd Hloop Ho Hd).
    destruct st as [d n]. unfold ingest_step_rows, stored in *. simpl in *.
    destruct (order_exists d (o_order_number x)); [done|].
    destruct (negb _); [done|]. simpl. rewrite order_exists_insert, Hst. simpl.
    apply eqb_false. intros Heq. apply Hx. rewrite Heq. apply list_elem_of_fmap. eauto.
Qed.

(** C4 (as amended). A candidate without a delivery date is never
    persisted. Of the candidates of the file, the upload counts as
    duplicates those whose number the store holds, dateless or not; as
    rejected_no_date the dateless ones whose number it does not hold;
    and it accepts the others. The store it leaves is the one that
    ingesting only the dated candidates leaves, so that no shopping list
    and no picking manifest, for any date, differs from what it would be
    without the dateless orders. If the number of a dateless candidate
    was not stored before, no stored order carries it afterwards, and no
    order query returns one. *)
Theorem undated_orders_are_dropped (clock : Z -> string) (filename : string)
    (rows : list Row) (d d' : db) (r : upload_result) :
  upload_csv clock filename rows d = Ok (d', r) ->
  exists orders,
    parse_shopify_csv rows = Ok orders /\
    r_duplicados r = count_if (stored d) orders /\
    r_sin_fecha r = count_if (fun o => negb (dated o) && negb (stored d o)) orders /\
    r_nuevos r = count_if (fun o => dated o && negb (stored d o)) orders /\
    (exists n, ingest clock d (List.filter dated orders) = Ok (d', n)) /\
    (forall d2 n2, ingest clock d (List.filter dated orders) = Ok (d2, n2) ->
       forall fecha,
         get_lista_compras fecha d' = get_lista_compras fecha d2 /\
         picking_manifest fecha d' = picking_manifest fecha d2) /\
    (forall o, o ∈ orders -> dated o = false -> stored d o = false ->
       stored d' o = false /\
       (forall fecha status pl,
          pl ∈ get_pedidos fecha status d' ->
          p_order_number (fst pl) <> o_order_number o)).
Proof.
  unfold upload_csv. destruct (endswith filename ".csv"); simpl; [|done].
  destruct (parse_shopify_csv rows) as [orders|] eqn:Hparse; simpl; [|done].
  destruct (ingest clock d orders) as [[d1 n1]|] eqn:Hpass; simpl; [|done].
  intros [= <- <-]. exists orders. unfold ingest in *.
  pose proof Hpass as Hloop. apply ingest_from_ok in Hpass.
  pose proof (parse_numbers_NoDup _ _ Hparse) as Hnd.
  destruct (ingest_tally _ _ _ _ _ _ Hnd Hpass) as (Hnu & Hdu & Hsf).
  set (n0 := {| nuevos := 0; duplicados := 0; sin_fecha := 0 |}) in *.
  assert (Hsame : d1 = fst (fold_left (ingest_step_rows clock) (List.filter dated orders)
                              (d, n0))).
  { rewrite <- (ingest_dated_only clock orders d n0). by rewrite Hpass. }
  assert (Hdated : ingest_from clock (List.filter dated orders) (d, n0)
                   = Ok (fold_left (ingest_step_rows clock) (List.filter dated orders)
                           (d, n0))).
  { apply ingest_from_total. intros o [Ho Hd]%elem_of_lfilter. simpl.
    destruct (stored d o) eqn:Hst; [by left|]. right. right.
    by apply (ingest_from_binds clock orders (d, n0) (d1, n1)). }
  split_and!; [done|simpl in *; lia|simpl in *; lia|simpl in *; lia| | |].
  { rewrite Hdated. destruct (fold_left _ (List.filter dated orders) _) as [d2 n2].
    simpl in Hsame. rewrite Hsame. by exists n2. }
  { intros d2 n2. rewrite Hdated. intros [= H]. rewrite H in Hsame. simpl in Hsame.
    by rewrite Hsame. }
  intros o Ho Hd Hst.
  assert (Hgone : stored d1 o = false).
  { unfold stored in *. rewrite (ingest_known _ _ _ _ _ _ (o_order_number o) Hpass), Hst.
    simpl. apply existsb_false_elem. intros o' Ho'.
    destruct (String.eqb (o_order_number o') (o_order_number o)) eqn:E; [|done].
    apply eqb_true in E. simpl.
    assert (o' = o) as ->; [|done].
    clear -Hnd Ho Ho' E. induction orders as [|x orders IH]; [by apply elem_of_nil in Ho|].
    simpl in Hnd. apply NoDup_cons in Hnd as [Hx Hnd].
    apply elem_of_cons in Ho as [->|Ho]; apply elem_of_cons in Ho' as [->|Ho'];
      [done| | |by apply IH].
    - exfalso. apply Hx. rewrite <- E. apply list_elem_of_fmap. eauto.
    - exfalso. apply Hx. rewrite E. apply list_elem_of_fmap. eauto. }
  split; [done|]. intros fecha status pl [Hpl _]%get_pedidos_from_store.
  unfold stored in Hgone. rewrite order_exists_false in Hgone. by apply Hgone.
Qed.

End Gate.

Section Store.
Context {PT : PyTypes} {RT : PyRuntime}.

(** ** The schema constraints hold throughout *)

Lemma max_list_ge (l : list Z) (x : Z) : x ∈ l -> x <= max_list l.
Proof.
  induction l as [|y l IH]; [by intros ?%elem_of_nil|].
  intros [->|Hx]%elem_of_cons; simpl; [lia|]. specialize (IH Hx). lia.
Qed.

Lemma next_rowid_fresh (seq : Z) (ids : list Z) : next_rowid seq ids ∉ ids.
Proof.
  intros H%max_list_ge. unfold next_rowid in H. lia.
Qed.

Lemma NoDup_snoc {A} (l : list A) (x : A) : NoDup l -> x ∉ l -> NoDup (l ++ [x]).
Proof.
  intros Hl Hx. apply NoDup_app. split_and!; [done| |apply NoDup_singleton].
  intros y Hy ->%list_elem_of_singleton. done.
Qed.

(** *** The handlers that bind an id *)

Lemma asignar_categoria_eq (producto : string) (categoria_id : Z) (d : db) :
  asignar_categoria producto categoria_id d
  = if in_int64 categoria_id
    then Ok (replace_producto_categoria producto categoria_id d)
    else Raise OverflowError.
Proof. unfold asignar_categoria, bind_int. by destruct (in_int64 _). Qed.

Lemma completar_pedido_eq (pedido_id : Z) (d : db) :
  completar_pedido pedido_id d
  = if in_int64 pedido_id
    then Ok (update_completado pedido_id d, true)
    else Raise OverflowError.
Proof. unfold completar_pedido, bind_int. by destruct (in_int64 _). Qed.

Lemma eliminar_pedido_eq (pedido_id : Z) (d : db) :
  eliminar_pedido pedido_id d
  = if in_int64 pedido_id
    then Ok (delete_pedido pedido_id (delete_lineas pedido_id d), true)
    else Raise OverflowError.
Proof. unfold eliminar_pedido, bind_int. by destruct (in_int64 _). Qed.

Lemma asignar_categoria_ok (producto : string) (categoria_id : Z) (d d' : db) :
  asignar_categoria producto categoria_id d = Ok d' ->
  in_int64 categoria_id = true /\
  d' = replace_producto_categoria producto categoria_id d.
Proof. rewrite asignar_categoria_eq. destruct (in_int64 _); [|done]. by intros [= <-]. Qed.

Lemma completar_pedido_ok (pedido_id : Z) (d d' : db) (r : bool) :
  completar_pedido pedido_id d = Ok (d', r) ->
  in_int64 pedido_id = true /\ d' = update_completado pedido_id d /\ r = true.
Proof. rewrite completar_pedido_eq. destruct (in_int64 _); [|done]. by intros [= <- <-]. Qed.

Lemma eliminar_pedido_ok (pedido_id : Z) (d d' : db) (r : bool) :
  eliminar_pedido pedido_id d = Ok (d', r) ->
  in_int64 pedido_id = true /\
  d' = delete_pedido pedido_id (delete_lineas pedido_id d) /\ r = true.
Proof. rewrite eliminar_pedido_eq. destruct (in_int64 _); [|done]. by intros [= <- <-]. Qed.

Lemma schema_ok_empty : schema_ok empty_db.
Proof. split; simpl; constructor. Qed.

Lemma schema_ok_insert_or_ignore (d : db) (no : string * Z) :
  schema_ok d -> schema_ok (insert_or_ignore_categoria d no).
Proof.
  intros [H1 H2 H3 H4 H5]. unfold insert_or_ignore_categoria.
  split; simpl; try done; destruct (existsb _ _) eqn:E; try done;
    rewrite map_app; simpl; apply NoDup_snoc; try done.
  - apply next_rowid_fresh.
  - intros (c & Hc & Hin)%list_elem_of_fmap.
    rewrite existsb_false_elem in E. specialize (E c Hin).
    apply eqb_false in E. congruence.
Qed.

Lemma schema_ok_init_db (d : db) : schema_ok d -> schema_ok (init_db d).
Proof.
  unfold init_db. generalize categorias_default. intros l. revert d.
  induction l as [|no l IH]; intros d Hd; simpl; [done|].
  apply IH. by apply schema_ok_insert_or_ignore.
Qed.

Lemma schema_ok_create_categoria (nombre : string) (d d' : db) (id : Z) :
  schema_ok d -> create_categoria nombre d = Ok (d', id) -> schema_ok d'.
Proof.
  intros [H1 H2 H3 H4 H5]. unfold create_categoria.
  destruct (existsb _ _) eqn:E; [done|]. intros [= <- <-].
  split; simpl; try done; rewrite map_app; simpl; apply NoDup_snoc; try done.
  - apply next_rowid_fresh.
  - intros (c & Hc & Hin)%list_elem_of_fmap.
    rewrite existsb_false_elem in E. specialize (E c Hin).
    apply eqb_false in E. congruence.
Qed.

Lemma NoDup_map_lfilter {A B} (f : A -> B) (g : A -> bool) (l : list A) :
  NoDup (map f l) -> NoDup (map f (List.filter g l)).
Proof.
  induction l as [|x l IH]; simpl; [done|].
  intros [Hx Hl]%NoDup_cons. destruct (g x); simpl; [|by apply IH].
  apply NoDup_cons. split; [|by apply IH].
  intros (y & Hy & [Hin _]%elem_of_lfilter)%list_elem_of_fmap.
  apply Hx. apply list_elem_of_fmap. eauto.
Qed.

Lemma schema_ok_replace (producto : string) (categoria_id : Z) (d : db) :
  schema_ok d -> schema_ok (replace_producto_categoria producto categoria_id d).
Proof.
  intros [H1 H2 H3 H4 H5]. split; simpl; try done.
  rewrite map_app. simpl. apply NoDup_snoc; [by apply NoDup_map_lfilter|].
  intros (pc & Hpc & [_ Hne]%elem_of_lfilter)%list_elem_of_fmap.
  apply negb_true_iff, eqb_false in Hne. congruence.
Qed.

Lemma schema_ok_insert_order (clock : Z -> string) (d : db) (o : order) :
  order_exists d (o_order_number o) = false ->
  schema_ok d -> schema_ok (insert_order_rows clock d o).
Proof.
  intros Hnew [H1 H2 H3 H4 H5].
  destruct (insert_order_pedidos clock d o) as (p & Hp & Hn & _ & Hid).
  assert (Hrest : categorias (insert_order_rows clock d o) = categorias d /\
                  producto_categoria (insert_order_rows clock d o) = producto_categoria d).
  { done. }
  destruct Hrest as [Hc Hpc].
  split; rewrite ?Hp, ?Hc, ?Hpc; try done; rewrite map_app; simpl; apply NoDup_snoc; try done.
  - rewrite Hid. apply next_rowid_fresh.
  - rewrite Hn. intros (p' & Heq & Hin)%list_elem_of_fmap.
    rewrite order_exists_false in Hnew. by apply (Hnew p' Hin).
Qed.

Lemma schema_ok_ingest (clock : Z -> string) (orders : list order) (d : db) (n : counts) :
  schema_ok d -> schema_ok (fst (fold_left (ingest_step_rows clock) orders (d, n))).
Proof.
  revert d n. induction orders as [|o orders IH]; intros d n Hd; simpl; [done|].
  destruct (order_exists d (o_order_number o)) eqn:Hex; [by apply IH|].
  destruct (negb _); [by apply IH|].
  apply IH. by apply schema_ok_insert_order.
Qed.

Lemma schema_ok_upload_csv (clock : Z -> string) (filename : string)
    (rows : list Row) (d d' : db) (r : upload_result) :
  schema_ok d -> upload_csv clock filename rows d = Ok (d', r) -> schema_ok d'.
Proof.
  intros Hd. unfold upload_csv. destruct (endswith _ _); simpl; [|done].
  destruct (parse_shopify_csv rows) as [orders|]; simpl; [|done].
  destruct (ingest clock d orders) as [[d1 n1]|] eqn:E; simpl; [|done].
  intros [= <- <-]. apply ingest_from_ok in E.
  replace d1 with (fst (fold_left (ingest_step_rows clock) orders
                          (d, {| nuevos := 0; duplicados := 0; sin_fecha := 0 |})))
    by by rewrite E.
  by apply schema_ok_ingest.
Qed.

Lemma map_set_status {B} (f : pedido -> B) (g : pedido -> bool) (s : string)
    (l : list pedido) :
  (forall p, f (set_status s p) = f p) ->
  map f (map (fun p => if g p then set_status s p else p) l) = map f l.
Proof.
  intros Hf. rewrite map_map. apply map_ext. intros p. by destruct (g p).
Qed.

Lemma schema_ok_completar (pedido_id : Z) (d : db) :
  schema_ok d -> schema_ok (update_completado pedido_id d).
Proof.
  intros [H1 H2 H3 H4 H5]. split; simpl; try done; by rewrite map_set_status.
Qed.

Lemma schema_ok_eliminar (pedido_id : Z) (d : db) :
  schema_ok d -> schema_ok (delete_pedido pedido_id (delete_lineas pedido_id d)).
Proof.
  intros [H1 H2 H3 H4 H5]. split; simpl; try done; by apply NoDup_map_lfilter.
Qed.

End Store.

Section Aggregation.
Context {PT : PyTypes} {RT : PyRuntime}.

(** ** The shopping list adds up *)

Lemma lfilter_unique {A K} (key : A -> K) (f : A -> bool) (l : list A) :
  NoDup (map key l) ->
  (forall x y, f x = true -> f y = true -> key x = key y) ->
  List.filter f l = match List.find f l with Some x => [x] | None => [] end.
Proof.
  intros Hnd Hf. induction l as [|x l IH]; simpl; [done|].
  simpl in Hnd. apply NoDup_cons in Hnd as [Hx Hnd].
  destruct (f x) eqn:E; [|by apply IH].
  f_equal. apply lfilter_none, Forall_forall. intros y Hy.
  destruct (f y) eqn:E'; [|done]. exfalso. apply Hx.
  rewrite (Hf x y E E'). apply list_elem_of_fmap. eauto.
Qed.

Lemma left_join_unique {A K} (key : A -> K) (f : A -> bool) (l : list A) :
  NoDup (map key l) ->
  (forall x y, f x = true -> f y = true -> key x = key y) ->
  left_join (List.filter f l) = [List.find f l].
Proof.
  intros Hnd Hf. rewrite (lfilter_unique key) by done. by destruct (List.find f l).
Qed.

Lemma from_clause_ok (d : db) :
  schema_ok d -> from_clause d = flat_map (join_line d) (lineas_pedido d).
Proof.
  intros [H1 _ H3 _ H5]. unfold from_clause. apply flat_map_ext. intros lp.
  rewrite (lfilter_unique p_id) by (done || intros x y ?%Z.eqb_eq ?%Z.eqb_eq; congruence).
  unfold join_line, parent. destruct (List.find _ (pedidos d)) as [p|]; simpl; [|done].
  rewrite app_nil_r.
  rewrite (left_join_unique pc_producto)
    by (done || intros x y ?%eqb_true ?%eqb_true; congruence).
  simpl. rewrite app_nil_r. unfold cat_of, mapping_of.
  destruct (List.find _ (producto_categoria d)) as [pc|]; simpl; [|done].
  rewrite (left_join_unique c_id) by (done || intros x y ?%Z.eqb_eq ?%Z.eqb_eq; congruence).
  done.
Qed.

(** The WHERE clause lets through the orders that are pending and due. *)
Lemma where_due (fecha : string) (p : pedido) :
  sql_eq_opt (p_fecha_entrega p) fecha && String.eqb (p_status p) pendiente
  = bool_decide (due fecha p).
Proof.
  unfold pendiente. destruct (bool_decide (due fecha p)) eqn:E.
  - apply bool_decide_eq_true_1 in E as [-> ->]. simpl. by rewrite !String.eqb_refl.
  - apply bool_decide_eq_false_1 in E. apply andb_false_iff.
    destruct (p_fecha_entrega p) as [f|] eqn:Ef; simpl; [|by left].
    destruct (String.eqb f fecha) eqn:E1; [|by left]. right.
    apply eqb_true in E1 as ->. apply eqb_false. intros H. by apply E.
Qed.

Lemma where_join_line (d : db) (fecha : string) (lp : linea) :
  List.filter (where_clause fecha) (join_line d lp)
  = if parent_pending d fecha lp then join_line d lp else [].
Proof.
  unfold join_line, parent_pending. destruct (parent d lp) as [p|]; simpl; [|done].
  unfold where_clause. simpl. rewrite where_due. by destruct (bool_decide _).
Qed.

Lemma qty_query (d : db) (fecha producto : string) :
  schema_ok d ->
  qty producto (List.filter (where_clause fecha) (from_clause d))
  = demand d fecha producto.
Proof.
  intros Hok. rewrite from_clause_ok by done. unfold qty, demand.
  induction (lineas_pedido d) as [|lp l IH]; simpl; [done|].
  rewrite !lfilter_app, map_app, IH, where_join_line.
  destruct (parent_pending d fecha lp) eqn:E; simpl.
  - unfold join_line. unfold parent_pending in E.
    destruct (parent d lp) as [p|]; [|done]. simpl. rewrite andb_true_r.
    by destruct (String.eqb (l_producto lp) producto).
  - by rewrite andb_false_r.
Qed.


Lemma sumZ_snoc (qs : list Z) (c : Z) : sumZ (qs ++ [c]) = sumZ qs + c.
Proof. induction qs as [|q qs IH]; simpl; lia. Qed.

Lemma summary_snoc (qs : list Z) (c : Z) :
  summary (qs ++ [c])
  = match summary qs with
    | [] => [c]
    | t :: rest => (t + c) :: rest
    end.
Proof.
  destruct qs as [|q qs]; simpl; [f_equal; lia|].
  f_equal. rewrite sumZ_snoc. lia.
Qed.

Lemma total_of_group_add (q : string) (j : joined) (gs : list grupo) :
  total_of q (group_add j gs)
  = if String.eqb (l_producto (j_lp j)) q then
      match total_of q gs with
      | [] => [l_cantidad (j_lp j)]
      | t :: rest => (t + l_cantidad (j_lp j)) :: rest
      end
    else total_of q gs.
Proof.
  unfold total_of. induction gs as [|g gs IH]; simpl.
  - by destruct (String.eqb _ q).
  - destruct (String.eqb (g_producto g) (l_producto (j_lp j))) eqn:E; simpl.
    + apply eqb_true in E. rewrite <- E.
      by destruct (String.eqb (g_producto g) q).
    + destruct (String.eqb (g_producto g) q) eqn:E'; simpl.
      * apply eqb_true in E'. subst q. rewrite IH.
        rewrite String.eqb_sym, E. done.
      * apply IH.
Qed.

Lemma fold_left_snoc {A B} (f : A -> B -> A) (l : list B) (x : B) (a : A) :
  fold_left f (l ++ [x]) a = f (fold_left f l a) x.
Proof. by rewrite fold_left_app. Qed.

Lemma total_of_group_by (q : string) (js : list joined) :
  total_of q (group_by_producto js) = summary (qty q js).
Proof.
  unfold group_by_producto. induction js as [|j js IH] using rev_ind; [done|].
  rewrite fold_left_snoc, total_of_group_add, IH. unfold qty.
  rewrite lfilter_app, map_app. simpl.
  destruct (String.eqb (l_producto (j_lp j)) q); simpl.
  - by rewrite summary_snoc.
  - by rewrite app_nil_r.
Qed.

Lemma lfilter_perm {A} (f : A -> bool) (l l' : list A) :
  Permutation l l' -> Permutation (List.filter f l) (List.filter f l').
Proof.
  induction 1 as [|x l l' _ IH|x y l|l l' l'' _ IH1 _ IH2]; simpl.
  - done.
  - destruct (f x); [by constructor|done].
  - destruct (f x), (f y); try done. apply perm_swap.
  - by etrans.
Qed.

Lemma cat_append_entries (cat : string) (e : entrada) (pc : list (string * list entrada)) :
  Permutation (flat_map snd (cat_append cat e pc)) (flat_map snd pc ++ [e]).
Proof.
  induction pc as [|[k v] pc IH]; simpl; [done|].
  destruct (String.eqb k cat); simpl.
  - rewrite <- !app_assoc. apply Permutation_app_head. apply Permutation_app_comm.
  - rewrite IH. by rewrite app_assoc.
Qed.

Lemma por_categoria_entries (gs : list grupo) :
  Permutation
    (flat_map snd
       (fold_left (fun pc g => cat_append (g_categoria g) (entrada_of g) pc) gs []))
    (map entrada_of gs).
Proof.
  induction gs as [|g gs IH] using rev_ind; [done|].
  rewrite fold_left_snoc, cat_append_entries, IH, map_app. done.
Qed.

Lemma perm_short {A} (l l' : list A) :
  Permutation l l' -> (length l' <= 1)%nat -> l = l'.
Proof.
  intros Hp Hl. destruct l' as [|x [|y l']]; simpl in Hl; [| |lia].
  - by apply Permutation_nil_r in Hp.
  - symmetry in Hp. by apply Permutation_singleton_l in Hp.
Qed.

Lemma reported_groups (fecha producto : string) (d : db) :
  Permutation (reported (lista_de fecha d) producto)
              (total_of producto (lista_rows fecha d)).
Proof.
  unfold reported, lista_de, por_categoria, total_of.
  change (fun por_categoria g =>
            cat_append (g_categoria g)
              {| e_producto := g_producto g; e_cantidad := g_cantidad_total g |}
              por_categoria)
    with (fun pc g => cat_append (g_categoria g) (entrada_of g) pc).
  rewrite (lfilter_perm _ _ _ (por_categoria_entries _)).
  induction (lista_rows fecha d) as [|g gs IH]; simpl; [done|].
  destruct (String.eqb (g_producto g) producto); simpl; [by constructor|done].
Qed.

(** The shopping list shows a product once, with the sum of the
    quantities asked of it, and leaves out a product nobody asked for. *)
Lemma lista_compras_totals (d : db) (fecha producto : string) :
  schema_ok d ->
  reported (lista_de fecha d) producto = summary (demand d fecha producto).
Proof.
  intros Hok. apply perm_short.
  - rewrite reported_groups. unfold lista_rows, grupos, total_of.
    rewrite (lfilter_perm _ _ _ (sort_by_perm _ _)).
    fold (total_of producto
            (group_by_producto (List.filter (where_clause fecha) (from_clause d)))).
    by rewrite total_of_group_by, qty_query.
  - unfold summary. destruct (demand d fecha producto); simpl; lia.
Qed.

(** *** When the sums fit *)





(** What [get_lista_compras] returns, when it returns. *)
Lemma get_lista_compras_ok (fecha : string) (d : db)
    (lista : list (string * list entrada)) :
  get_lista_compras fecha d = Ok lista -> lista = lista_de fecha d.
Proof.
  unfold get_lista_compras, lista_query, lista_de, lista_rows.
  destruct (existsb _ _); simpl; [done|]. by intros [= <-].
Qed.

Lemma get_lista_compras_raise (fecha : string) (d : db) (e : exn) :
  get_lista_compras fecha d = Raise e ->
  e = OperationalError /\ existsb g_overflow (grupos fecha d) = true.
Proof.
  unfold get_lista_compras, lista_query.
  destruct (existsb _ _); simpl; [|done]. by intros [= <-].
Qed.



(** ** Lifecycle operations *)

Lemma find_lfilter {A} (f g : A -> bool) (l : list A) :
  (forall x, f x = true -> g x = true) ->
  List.find f (List.filter g l) = List.find f l.
Proof.
  intros Hfg. induction l as [|x l IH]; simpl; [done|].
  destruct (g x) eqn:Eg; simpl.
  - by destruct (f x).
  - destruct (f x) eqn:Ef; [|done]. rewrite (Hfg x Ef) in Eg. done.
Qed.

Lemma parent_eliminar (pedido_id : Z) (d : db) (l : linea) :
  l_pedido_id l <> pedido_id ->
  parent (delete_pedido pedido_id (delete_lineas pedido_id d)) l = parent d l.
Proof.
  intros Hne. unfold parent. simpl. apply find_lfilter.
  intros p Hp%Z.eqb_eq. apply negb_true_iff, Z.eqb_neq. congruence.
Qed.

Lemma lfilter_lfilter {A} (f g : A -> bool) (l : list A) :
  List.filter f (List.filter g l) = List.filter (fun x => f x && g x) l.
Proof.
  induction l as [|x l IH]; simpl; [done|].
  destruct (g x); simpl; rewrite ?andb_false_r, ?andb_true_r; [|done].
  destruct (f x); by rewrite IH.
Qed.

Lemma lfilter_ext_in {A} (f g : A -> bool) (l : list A) :
  (forall x, x ∈ l -> f x = g x) -> List.filter f l = List.filter g l.
Proof.
  intros H. apply List.filter_ext_in. intros x Hx. apply H. by apply list_elem_of_In.
Qed.

Lemma demand_eliminar (pedido_id : Z) (d : db) (fecha producto : string) :
  demand (delete_pedido pedido_id (delete_lineas pedido_id d)) fecha producto
  = map l_cantidad
      (List.filter
         (fun l => String.eqb (l_producto l) producto
                   && parent_pending d fecha l
                   && negb (l_pedido_id l =? pedido_id))
         (lineas_pedido d)).
Proof.
  unfold demand. f_equal.
  change (lineas_pedido (delete_pedido pedido_id (delete_lineas pedido_id d)))
    with (List.filter (fun l => negb (l_pedido_id l =? pedido_id)) (lineas_pedido d)).
  rewrite lfilter_lfilter. apply lfilter_ext_in. intros l _.
  destruct (l_pedido_id l =? pedido_id) eqn:E; simpl; [by rewrite !andb_false_r|].
  rewrite !andb_true_r. unfold parent_pending.
  apply Z.eqb_neq in E. by rewrite (parent_eliminar pedido_id d l E).
Qed.

(** C8. Deleting an order (its id, as every id the store gives out, in
    the 64-bit range) answers success and leaves no line and no order
    row with its id: no order query returns the order or a line of it,
    and every shopping list that is returned afterwards (so also the one
    of the order's former date) shows for a product the sum over the
    lines of the other pending orders of that date only. *)
Theorem eliminar_removes_order_and_lines (pedido_id : Z) (d : db) :
  in_int64 pedido_id = true ->
  exists d',
    eliminar_pedido pedido_id d = Ok (d', true) /\
    (forall l, l ∈ lineas_pedido d' -> l_pedido_id l <> pedido_id) /\
    (forall p, p ∈ pedidos d' -> p_id p <> pedido_id) /\
    (forall fecha status pl,
       pl ∈ get_pedidos fecha status d' ->
       p_id (fst pl) <> pedido_id /\
       forall l, l ∈ snd pl -> l_pedido_id l <> pedido_id) /\
    (schema_ok d ->
     forall fecha lista,
       get_lista_compras fecha d' = Ok lista ->
       forall producto,
         reported lista producto
         = summary
             (map l_cantidad
                (List.filter
                   (fun l => String.eqb (l_producto l) producto
                             && parent_pending d fecha l
                             && negb (l_pedido_id l =? pedido_id))
                   (lineas_pedido d)))).
Proof.
  intros Hid. exists (delete_pedido pedido_id (delete_lineas pedido_id d)).
  rewrite eliminar_pedido_eq, Hid.
  assert (Hl : forall l, l ∈ lineas_pedido (delete_pedido pedido_id (delete_lineas pedido_id d)) ->
                         l_pedido_id l <> pedido_id).
  { simpl. intros l [_ Hne]%elem_of_lfilter. by apply negb_true_iff, Z.eqb_neq in Hne. }
  assert (Hp : forall p, p ∈ pedidos (delete_pedido pedido_id (delete_lineas pedido_id d)) ->
                         p_id p <> pedido_id).
  { simpl. intros p [_ Hne]%elem_of_lfilter. by apply negb_true_iff, Z.eqb_neq in Hne. }
  split_and!; [done|done|done| |].
  - intros fecha status pl [Hin Hits]%get_pedidos_from_store. split; [by apply Hp|].
    intros l. rewrite Hits. unfold lineas_of. intros [Hl' _]%elem_of_lfilter. by apply Hl.
  - intros Hok fecha lista ->%get_lista_compras_ok producto.
    rewrite lista_compras_totals by by apply schema_ok_eliminar.
    by rewrite demand_eliminar.
Qed.

Lemma set_status_same (s : string) (p : pedido) : same_but_status p (set_status s p).
Proof. by repeat split. Qed.

Lemma map_id_if {A} (g : A -> bool) (f : A -> A) (l : list A) :
  (forall x, x ∈ l -> g x = false) -> map (fun x => if g x then f x else x) l = l.
Proof.
  induction l as [|x l IH]; intros H; simpl; [done|].
  rewrite (H x) by apply list_elem_of_here. f_equal. apply IH.
  intros y Hy. apply H. by apply list_elem_of_further.
Qed.

(** C10 (as amended). Completing an order answers success for every id
    in the 64-bit range, whether an order has it or not. Row by row, the
    orders table afterwards differs from the one before in the status
    column only: the status of a row with the given id is [completado],
    a row with another id is the row it was. The lines, the categories,
    the product mapping and the id counters are as before, and the
    store as a whole is when no order has the id. An id outside the
    range is refused with [OverflowError]. *)
Theorem completar_changes_only_status (pedido_id : Z) (d : db) :
  (in_int64 pedido_id = true ->
   exists d',
     completar_pedido pedido_id d = Ok (d', true) /\
     Forall2
       (fun p p' =>
          same_but_status p p' /\
          p_status p' = (if bool_decide (p_id p = pedido_id) then "completado"
                         else p_status p) /\
          (p_id p <> pedido_id -> p' = p))
       (pedidos d) (pedidos d') /\
     lineas_pedido d' = lineas_pedido d /\
     categorias d' = categorias d /\
     producto_categoria d' = producto_categoria d /\
     seq_pedidos d' = seq_pedidos d /\
     seq_lineas_pedido d' = seq_lineas_pedido d /\
     seq_categorias d' = seq_categorias d /\
     seq_producto_categoria d' = seq_producto_categoria d /\
     ((forall p, p ∈ pedidos d -> p_id p <> pedido_id) -> d' = d)) /\
  (in_int64 pedido_id = false ->
   completar_pedido pedido_id d = Raise OverflowError).
Proof.
  rewrite completar_pedido_eq. split; intros ->; [|done].
  exists (update_completado pedido_id d). split_and!; try done.
  - simpl. induction (pedidos d) as [|p l IH]; simpl; constructor; [|done].
    destruct (p_id p =? pedido_id) eqn:E.
    + apply Z.eqb_eq in E. rewrite bool_decide_eq_true_2 by done.
      split_and!; [apply set_status_same|done|done].
    + apply Z.eqb_neq in E. rewrite bool_decide_eq_false_2 by done. by repeat split.
  - intros Hnone. destruct d. unfold update_completado. simpl in *. f_equal.
    apply map_id_if. intros p Hp. apply Z.eqb_neq. by apply Hnone.
Qed.

End Aggregation.

Section Ordering.
Context {PT : PyTypes} {RT : PyRuntime}.

(** ** The order of the shopping list *)

Lemma get_lista_compras_agrupar (fecha : string) (d : db) :
  lista_de fecha d = agrupar (lista_rows fecha d).
Proof. done. Qed.

Lemma NoDup_of_short_filters {A} (f : A -> string) (l : list A) :
  (forall q, (length (List.filter (fun x => String.eqb (f x) q) l) <= 1)%nat) ->
  NoDup (map f l).
Proof.
  induction l as [|x l IH]; intros H; simpl; [constructor|].
  apply NoDup_cons. split.
  - intros (y & Hy & Hin)%list_elem_of_fmap.
    specialize (H (f x)). simpl in H. rewrite String.eqb_refl in H. simpl in H.
    assert (y ∈ List.filter (fun x0 => String.eqb (f x0) (f x)) l) as Hy'.
    { apply elem_of_lfilter. split; [done|]. by apply eqb_true. }
    destruct (List.filter _ l); [by apply elem_of_nil in Hy'|simpl in H; lia].
  - apply IH. intros q. specialize (H q). simpl in H.
    destruct (String.eqb (f x) q); simpl in H; lia.
Qed.

Lemma group_by_NoDup (js : list joined) :
  NoDup (map g_producto (group_by_producto js)).
Proof.
  apply NoDup_of_short_filters. intros q.
  pose proof (total_of_group_by q js) as H. unfold total_of in H.
  apply (f_equal length) in H. rewrite length_map in H. rewrite H.
  unfold summary. destruct (qty q js); simpl; lia.
Qed.

Lemma group_add_source (j : joined) (gs : list grupo) (g : grupo) :
  g ∈ group_add j gs ->
  (exists g0, g0 ∈ gs /\ g_producto g = g_producto g0 /\ g_c g = g_c g0) \/
  (g_producto g = l_producto (j_lp j) /\ g_c g = j_c j).
Proof.
  induction gs as [|g1 gs IH]; simpl.
  - intros ->%list_elem_of_singleton. by right.
  - destruct (String.eqb _ _).
    + intros [->|Hg]%elem_of_cons; left.
      * exists g1. split; [apply list_elem_of_here|done].
      * exists g. split; [by apply list_elem_of_further|done].
    + intros [->|Hg]%elem_of_cons.
      * left. exists g1. split; [apply list_elem_of_here|done].
      * destruct (IH Hg) as [(g0 & Hin & Heq)|Hnew]; [|by right].
        left. exists g0. split; [by apply list_elem_of_further|done].
Qed.

Lemma group_by_source (js : list joined) (g : grupo) :
  g ∈ group_by_producto js ->
  exists j, j ∈ js /\ g_producto g = l_producto (j_lp j) /\ g_c g = j_c j.
Proof.
  unfold group_by_producto. revert g.
  induction js as [|j js IH] using rev_ind; intros g; simpl.
  - by intros ?%elem_of_nil.
  - rewrite fold_left_snoc. intros [(g0 & Hin & Hp & Hc)|[Hp Hc]]%group_add_source.
    + destruct (IH g0 Hin) as (j0 & Hj0 & Hp0 & Hc0).
      exists j0. split; [apply elem_of_app; by left|]. split; congruence.
    + exists j. split; [|done]. apply elem_of_app. right. apply list_elem_of_here.
Qed.

Lemma from_clause_cat (d : db) (j : joined) :
  schema_ok d -> j ∈ from_clause d -> j_c j = cat_of d (l_producto (j_lp j)).
Proof.
  intros Hok. rewrite from_clause_ok by done.
  rewrite list_elem_of_In, in_flat_map. intros (lp & _ & Hj).
  unfold join_line in Hj. destruct (parent d lp); [|done].
  destruct Hj as [<-|[]]. done.
Qed.

Lemma lista_query_cat (fecha : string) (d : db) (g : grupo) :
  schema_ok d -> g ∈ lista_rows fecha d -> g_c g = cat_of d (g_producto g).
Proof.
  intros Hok. unfold lista_rows. rewrite elem_of_sort_by.
  intros (j & [Hj _]%elem_of_lfilter & Hp & Hc)%group_by_source.
  rewrite Hc, Hp. by apply from_clause_cat.
Qed.

Lemma lista_query_NoDup (fecha : string) (d : db) :
  NoDup (map g_producto (lista_rows fecha d)).
Proof.
  unfold lista_rows.
  rewrite (Permutation_map g_producto (sort_by_perm grupo_leb _)).
  apply group_by_NoDup.
Qed.

Lemma lista_query_sorted (fecha : string) (d : db) :
  StronglySorted (fun a b => grupo_leb a b = true) (lista_rows fecha d).
Proof.
  unfold lista_rows. apply (sort_by_sorted grupo_compare proper_grupo_compare).
Qed.

(** *** Category names and their ranks *)

Lemma find_by_key {A} (key : A -> string) (l : list A) (x : A) :
  NoDup (map key l) -> x ∈ l ->
  List.find (fun y => String.eqb (key y) (key x)) l = Some x.
Proof.
  induction l as [|y l IH]; simpl; [by intros _ ?%elem_of_nil|].
  intros [Hy Hnd]%NoDup_cons [->|Hx]%elem_of_cons.
  - by rewrite String.eqb_refl.
  - destruct (String.eqb (key y) (key x)) eqn:E; [|by apply IH].
    apply eqb_true in E. exfalso. apply Hy. rewrite E.
    apply list_elem_of_fmap. eauto.
Qed.

Lemma cat_of_in (d : db) (producto : string) (c : categoria) :
  cat_of d producto = Some c -> c ∈ categorias d.
Proof.
  unfold cat_of. destruct (mapping_of d producto); [|done].
  intros [H _]%find_some. by apply list_elem_of_In.
Qed.

Lemma cat_rank_real (d : db) (c : categoria) :
  schema_ok d -> c ∈ categorias d -> cat_rank d (c_nombre c) = c_orden c.
Proof.
  intros [_ _ _ H4 _] Hc. unfold cat_rank. by rewrite (find_by_key c_nombre).
Qed.

Lemma cat_rank_other (d : db) (name : string) :
  (forall c, c ∈ categorias d -> c_nombre c <> name) -> cat_rank d name = 999.
Proof.
  intros H. unfold cat_rank.
  destruct (List.find _ _) as [c|] eqn:E; [|done].
  apply find_some in E as [Hc%list_elem_of_In Hn%eqb_true]. by destruct (H c Hc).
Qed.

Lemma cat_rank_sin (d : db) :
  categorias_below_sentinel d -> cat_rank d sin_categoria = 999.
Proof. intros H. apply cat_rank_other. intros c Hc. by apply H. Qed.

Lemma cat_rank_le (d : db) (name : string) :
  categorias_below_sentinel d -> cat_rank d name <= 999.
Proof.
  intros H. unfold cat_rank.
  destruct (List.find _ _) as [c|] eqn:E; [|done].
  apply find_some in E as [Hc%list_elem_of_In _]. destruct (H c Hc). lia.
Qed.

Lemma str_lt_irrefl (s : string) : ~ str_lt s s.
Proof. unfold str_lt. by rewrite string_compare_refl. Qed.

Lemma cat_lt_irrefl (d : db) (n : string) : ~ cat_lt d n n.
Proof. intros [H|[_ H]]; [lia|by apply str_lt_irrefl in H]. Qed.

(** What ORDER BY guarantees of two rows of the query, in terms of the
    category names the list shows. *)
Lemma grupo_leb_before (d : db) (g1 g2 : grupo) :
  schema_ok d -> categorias_below_sentinel d ->
  g_c g1 = cat_of d (g_producto g1) -> g_c g2 = cat_of d (g_producto g2) ->
  g_producto g1 <> g_producto g2 ->
  grupo_leb g1 g2 = true -> grupo_before d g1 g2.
Proof.
  intros Hok Hbelow H1 H2 Hne. unfold grupo_leb, grupo_compare, grupo_before, cat_lt.
  unfold g_categoria, g_categoria_orden, lex.
  assert (Hprod : not_gt (String.compare (g_producto g1) (g_producto g2)) = true ->
                  str_lt (g_producto g1) (g_producto g2)).
  { unfold str_lt. destruct (String.compare _ _) eqn:E; [|done..].
    by apply String.compare_eq_iff in E. }
  destruct (g_c g1) as [c1|] eqn:E1, (g_c g2) as [c2|] eqn:E2;
    cbn -[Z.compare String.compare].
  - symmetry in H1, H2. apply cat_of_in in H1, H2.
    rewrite !cat_rank_real by done.
    destruct (Z.compare_spec (c_orden c1) (c_orden c2)) as [Heq|Hlt|Hgt];
      [|intros _; by do 2 left|done].
    destruct (String.compare (c_nombre c1) (c_nombre c2)) eqn:E; [| |done].
    + intros Hp. right. split; [by apply String.compare_eq_iff|by apply Hprod].
    + intros _. left. right. done.
  - symmetry in H1. apply cat_of_in in H1. destruct (Hbelow c1 H1) as [Hlt _].
    rewrite cat_rank_real, cat_rank_sin by done. intros _. by do 2 left.
  - symmetry in H2. apply cat_of_in in H2. destruct (Hbelow c2 H2) as [Hlt _].
    destruct (Z.compare_spec 999 (c_orden c2)); [lia|lia|done].
  - intros Hp. right. split; [done|by apply Hprod].
Qed.

Lemma StronglySorted_refine {A} (R S : A -> A -> Prop) (P : A -> Prop) (f : A -> string)
    (l : list A) :
  (forall x y, P x -> P y -> f x <> f y -> R x y -> S x y) ->
  Forall P l -> NoDup (map f l) -> StronglySorted R l -> StronglySorted S l.
Proof.
  intros HRS HP Hnd Hs. induction Hs as [|x l Hs IH Hx]; [constructor|].
  apply Forall_cons in HP as [Px HP]. simpl in Hnd. apply NoDup_cons in Hnd as [Hfx Hnd].
  constructor; [by apply IH|].
  rewrite Forall_forall in Hx, HP. apply Forall_forall. intros y Hy.
  apply HRS; [done|by apply HP| |by apply Hx].
  intros Heq. apply Hfx. rewrite Heq. apply list_elem_of_fmap. eauto.
Qed.

Lemma lista_query_before (fecha : string) (d : db) :
  schema_ok d -> categorias_below_sentinel d ->
  StronglySorted (grupo_before d) (lista_rows fecha d).
Proof.
  intros Hok Hbelow.
  apply (StronglySorted_refine (fun a b => grupo_leb a b = true) _
           (fun g => g_c g = cat_of d (g_producto g)) g_producto).
  - intros g1 g2 H1 H2 Hne Hle. by apply grupo_leb_before.
  - apply Forall_forall. intros g Hg. by eapply lista_query_cat.
  - apply lista_query_NoDup.
  - apply lista_query_sorted.
Qed.

(** *** Filing the sorted rows *)

Lemma cat_append_new (cat : string) (e : entrada) (pc : list (string * list entrada)) :
  cat ∉ map fst pc -> cat_append cat e pc = pc ++ [(cat, [e])].
Proof.
  induction pc as [|[k v] pc IH]; simpl; [done|].
  intros Hnot. destruct (String.eqb k cat) eqn:E.
  - apply eqb_true in E as ->. exfalso. apply Hnot. apply list_elem_of_here.
  - f_equal. apply IH. intros Hin. apply Hnot. by apply list_elem_of_further.
Qed.

Lemma cat_append_old (cat : string) (e : entrada) (pc : list (string * list entrada)) :
  cat ∈ map fst pc ->
  exists pre es post,
    pc = pre ++ (cat, es) :: post /\
    cat_append cat e pc = pre ++ (cat, es ++ [e]) :: post.
Proof.
  induction pc as [|[k v] pc IH]; simpl; [by intros ?%elem_of_nil|].
  destruct (String.eqb k cat) eqn:E.
  - apply eqb_true in E as ->. intros _. by exists [], v, pc.
  - intros [->|Hin]%elem_of_cons; [by rewrite String.eqb_refl in E|].
    destruct (IH Hin) as (pre & es & post & -> & ->).
    by exists ((k, v) :: pre), es, post.
Qed.

Lemma agrupar_filed (d : db) (gs : list grupo) :
  StronglySorted (grupo_before d) gs -> filed d gs (agrupar gs).
Proof.
  unfold agrupar. induction gs as [|g gs IH] using rev_ind; intros Hs.
  { split; simpl; [constructor|constructor| |]; intros; by apply elem_of_nil in H. }
  apply StronglySorted_app in Hs as (Hlast & Hs & _).
  destruct (IH Hs) as [Hk Hp Hsrc Hksrc]. rewrite fold_left_snoc.
  set (out := fold_left _ gs []) in *.
  assert (Hbefore : forall g', g' ∈ gs -> grupo_before d g' g).
  { intros g' Hg'. apply Hlast; [done|apply list_elem_of_here]. }
  destruct (decide (g_categoria g ∈ map fst out)) as [Hin|Hnot].
  - destruct (cat_append_old _ (entrada_of g) _ Hin) as (pre & es & post & Hout & ->).
    split.
    + rewrite Hout in Hk. by rewrite !map_app in *.
    + rewrite Hout in Hp. apply Forall_app in Hp as [Hpre Hp].
      apply Forall_cons in Hp as [Hes Hpost].
      apply Forall_app. split; [done|]. constructor; [|done]. simpl in *.
      rewrite map_app. apply StronglySorted_app. split_and!; [|done|repeat constructor].
      intros x1 x2 (e' & -> & He')%list_elem_of_fmap ->%list_elem_of_singleton.
      destruct (Hsrc (g_categoria g) es e') as (g' & Hg' & Hcat & ->); [|done|].
      { rewrite Hout. apply elem_of_app. right. apply list_elem_of_here. }
      destruct (Hbefore g' Hg') as [Hlt|[_ Hlt]]; [|done].
      rewrite <- Hcat in Hlt. by apply cat_lt_irrefl in Hlt.
    + intros cat es' e [Hc|[Hc|Hc]%elem_of_cons]%elem_of_app He.
      * destruct (Hsrc cat es' e) as (g' & Hg' & Heq); [|done|].
        { rewrite Hout. apply elem_of_app. by left. }
        exists g'. split; [apply elem_of_app; by left|done].
      * injection Hc as -> ->. apply elem_of_app in He as [He| ->%list_elem_of_singleton].
        -- destruct (Hsrc (g_categoria g) es e) as (g' & Hg' & Heq); [|done|].
           { rewrite Hout. apply elem_of_app. right. apply list_elem_of_here. }
           exists g'. split; [apply elem_of_app; by left|done].
        -- exists g. split; [|done]. apply elem_of_app. right. apply list_elem_of_here.
      * destruct (Hsrc cat es' e) as (g' & Hg' & Heq); [|done|].
        { rewrite Hout. apply elem_of_app. right. by apply list_elem_of_further. }
        exists g'. split; [apply elem_of_app; by left|done].
    + intros k Hkin.
      assert (k ∈ map fst out) as Hkin'.
      { rewrite Hout. by rewrite !map_app in *. }
      destruct (Hksrc k Hkin') as (g' & Hg' & Heq).
      exists g'. split; [apply elem_of_app; by left|done].
  - rewrite (cat_append_new _ _ _ Hnot). split.
    + rewrite map_app. apply StronglySorted_app. split_and!; [|done|repeat constructor].
      intros k1 k2 Hk1 ->%list_elem_of_singleton. simpl.
      destruct (Hksrc k1 Hk1) as (g' & Hg' & <-).
      destruct (Hbefore g' Hg') as [Hlt|[Heq _]]; [done|].
      rewrite Heq in Hk1. done.
    + apply Forall_app. split; [done|]. repeat constructor.
    + intros cat es e [Hc|[= -> ->]%list_elem_of_singleton]%elem_of_app He.
      * destruct (Hsrc cat es e Hc He) as (g' & Hg' & Heq).
        exists g'. split; [apply elem_of_app; by left|done].
      * apply list_elem_of_singleton in He as ->.
        exists g. split; [|done]. apply elem_of_app. right. apply list_elem_of_here.
    + rewrite map_app. intros k [Hkin| ->%list_elem_of_singleton]%elem_of_app.
      * destruct (Hksrc k Hkin) as (g' & Hg' & Heq).
        exists g'. split; [apply elem_of_app; by left|done].
      * exists g. split; [|done]. apply elem_of_app. right. apply list_elem_of_here.
Qed.

Lemma lista_compras_filed (fecha : string) (d : db) :
  schema_ok d -> categorias_below_sentinel d ->
  filed d (lista_rows fecha d) (lista_de fecha d).
Proof.
  intros Hok Hbelow. rewrite get_lista_compras_agrupar.
  by apply agrupar_filed, lista_query_before.
Qed.

Lemma g_categoria_de (fecha : string) (d : db) (g : grupo) :
  schema_ok d -> g ∈ lista_rows fecha d ->
  g_categoria g = categoria_de d (g_producto g).
Proof.
  intros Hok Hg. unfold g_categoria, categoria_de.
  by rewrite (lista_query_cat fecha d g Hok Hg).
Qed.

(** *** The list does not depend on the order of the rows *)

Lemma NoDup_map_inj {A} (f : A -> string) (l : list A) (x y : A) :
  NoDup (map f l) -> x ∈ l -> y ∈ l -> f x = f y -> x = y.
Proof.
  induction l as [|z l IH]; simpl; [by intros _ ?%elem_of_nil|].
  intros [Hz Hnd]%NoDup_cons [->|Hx]%elem_of_cons [->|Hy]%elem_of_cons Heq.
  - done.
  - exfalso. apply Hz. rewrite Heq. apply list_elem_of_fmap. eauto.
  - exfalso. apply Hz. rewrite <- Heq. apply list_elem_of_fmap. eauto.
  - by apply IH.
Qed.

Lemma lfilter_by_key {A} (f : A -> string) (l : list A) (x : A) :
  NoDup (map f l) -> x ∈ l ->
  List.filter (fun y => String.eqb (f y) (f x)) l = [x].
Proof.
  intros Hnd Hx.
  rewrite (lfilter_unique f) by (done || intros a b ?%eqb_true ?%eqb_true; congruence).
  by rewrite find_by_key.
Qed.

Lemma find_perm_unique {A K} (key : A -> K) (f : A -> bool) (l l2 : list A) :
  Permutation l l2 -> NoDup (map key l) ->
  (forall x y, f x = true -> f y = true -> key x = key y) ->
  List.find f l2 = List.find f l.
Proof.
  intros Hperm Hnd Hf.
  assert (Hnd2 : NoDup (map key l2)) by by rewrite <- Hperm.
  pose proof (lfilter_perm f _ _ Hperm) as Hfp.
  rewrite (lfilter_unique key f l), (lfilter_unique key f l2) in Hfp by done.
  destruct (List.find f l) as [x|], (List.find f l2) as [y|]; try done.
  - by apply Permutation_singleton_inj in Hfp as ->.
  - by apply Permutation_nil_r in Hfp.
  - by apply Permutation_nil in Hfp.
Qed.

Lemma sumZ_perm (qs qs2 : list Z) : Permutation qs qs2 -> sumZ qs = sumZ qs2.
Proof. induction 1; simpl; lia. Qed.

Lemma summary_perm (qs qs2 : list Z) : Permutation qs qs2 -> summary qs = summary qs2.
Proof.
  intros H. pose proof (sumZ_perm _ _ H) as Hs.
  destruct qs as [|q qs], qs2 as [|q2 qs2]; try done.
  - by apply Permutation_nil in H.
  - by apply Permutation_nil_r in H.
  - unfold summary. by rewrite Hs.
Qed.

Lemma parent_same_rows (d d2 : db) (l : linea) :
  schema_ok d -> same_rows d d2 -> parent d2 l = parent d l.
Proof.
  intros [H1 _ _ _ _] (_ & _ & Hp & _). unfold parent.
  apply (find_perm_unique p_id); [done|done|].
  intros x y ?%Z.eqb_eq ?%Z.eqb_eq. congruence.
Qed.

Lemma cat_of_same_rows (d d2 : db) (producto : string) :
  schema_ok d -> same_rows d d2 -> cat_of d2 producto = cat_of d producto.
Proof.
  intros [_ _ H3 _ H5] (Hc & Hpc & _ & _). unfold cat_of, mapping_of.
  rewrite (find_perm_unique pc_producto _ (producto_categoria d) (producto_categoria d2));
    [|done|done|intros x y ?%eqb_true ?%eqb_true; congruence].
  destruct (List.find _ (producto_categoria d)) as [pc|]; [|done].
  apply (find_perm_unique c_id); [done|done|].
  intros x y ?%Z.eqb_eq ?%Z.eqb_eq. congruence.
Qed.

Lemma demand_same_rows (d d2 : db) (fecha producto : string) :
  schema_ok d -> same_rows d d2 ->
  Permutation (demand d2 fecha producto) (demand d fecha producto).
Proof.
  intros Hok Hsame. unfold demand. apply Permutation_map.
  rewrite (lfilter_ext_in _
             (fun l => String.eqb (l_producto l) producto && parent_pending d fecha l)).
  - apply lfilter_perm. symmetry. apply Hsame.
  - intros l _. unfold parent_pending. by rewrite (parent_same_rows d d2).
Qed.

(** The groups of the query, read off the store; their overflow marks
    apart, which depend on the order of the rows. *)
Lemma group_by_member (fecha : string) (d : db) (g : grupo) :
  schema_ok d ->
  g ∈ map unmark (grupos fecha d) <->
  summary (demand d fecha (g_producto g)) = [g_cantidad_total g] /\
  g_c g = cat_of d (g_producto g) /\
  g_overflow g = false.
Proof.
  intros Hok. unfold grupos.
  set (G := group_by_producto (List.filter (where_clause fecha) (from_clause d))).
  assert (Htot : forall q, total_of q G = summary (demand d fecha q)).
  { intros q. unfold G. by rewrite total_of_group_by, qty_query. }
  assert (Hcat : forall g', g' ∈ G -> g_c g' = cat_of d (g_producto g')).
  { intros g' (j & [Hj _]%elem_of_lfilter & Hp & Hc)%group_by_source.
    rewrite Hc, Hp. by apply from_clause_cat. }
  assert (Hone : forall g', g' ∈ G -> total_of (g_producto g') G = [g_cantidad_total g']).
  { intros g' Hg'. unfold total_of.
    by rewrite (lfilter_by_key g_producto G g' (group_by_NoDup _) Hg'). }
  split.
  - intros (g0 & -> & Hg)%list_elem_of_fmap. simpl.
    split_and!; [|by apply Hcat|done]. rewrite <- Htot. by apply Hone.
  - intros (Hsum & Hc & Hov). rewrite <- Htot in Hsum. unfold total_of in Hsum.
    destruct (List.filter _ G) as [|g' rest] eqn:E; [done|].
    assert (Hg' : g' ∈ List.filter (fun g0 => String.eqb (g_producto g0) (g_producto g)) G).
    { rewrite E. apply list_elem_of_here. }
    apply elem_of_lfilter in Hg' as [Hg' Hp%eqb_true].
    simpl in Hsum. injection Hsum as Ht _.
    pose proof (Hcat g' Hg') as Hc'. rewrite Hp, <- Hc in Hc'.
    apply list_elem_of_fmap. exists g'. split; [|done].
    destruct g, g'; unfold unmark; simpl in *. congruence.
Qed.

Lemma map_producto_unmark (gs : list grupo) :
  map g_producto (map unmark gs) = map g_producto gs.
Proof. rewrite map_map. by apply map_ext. Qed.

Lemma agrupar_unmark (gs : list grupo) : agrupar (map unmark gs) = agrupar gs.
Proof.
  unfold agrupar. generalize (@nil (string * list entrada)).
  induction gs as [|g gs IH]; intros acc; simpl; [done|]. apply IH.
Qed.

Lemma lista_query_same_rows (fecha : string) (d d2 : db) :
  schema_ok d -> schema_ok d2 -> same_rows d d2 ->
  map unmark (lista_rows fecha d2) = map unmark (lista_rows fecha d).
Proof.
  intros Hok Hok2 Hsame.
  assert (Hnd : forall d0, NoDup (map unmark (lista_rows fecha d0))).
  { intros d0. apply (NoDup_fmap_1 g_producto).
    change (NoDup (map g_producto (map unmark (lista_rows fecha d0)))).
    rewrite map_producto_unmark. apply lista_query_NoDup. }
  assert (Hperm : Permutation (map unmark (lista_rows fecha d2))
                              (map unmark (lista_rows fecha d))).
  { apply NoDup_Permutation; [apply Hnd|apply Hnd|].
    intros g. unfold lista_rows.
    rewrite !(Permutation_map unmark (sort_by_perm grupo_leb _)).
    rewrite !group_by_member by done.
    rewrite (cat_of_same_rows d d2) by done.
    by rewrite (summary_perm _ _ (demand_same_rows d d2 fecha (g_producto g) Hok Hsame)). }
  assert (Hsorted : forall d0, StronglySorted (fun a b => grupo_leb a b = true)
                                 (map unmark (lista_rows fecha d0))).
  { intros d0.
    apply (StronglySorted_fmap unmark (fun a b => grupo_leb a b = true));
      [done|apply lista_query_sorted]. }
  apply (StronglySorted_unique_strong (fun a b => grupo_leb a b = true));
    [|apply Hsorted|apply Hsorted|done].
  intros g1 g2 Hg1 Hg2 H12 H21. rewrite <- Hperm in Hg2.
  apply (NoDup_map_inj g_producto (map unmark (lista_rows fecha d2)));
    [rewrite map_producto_unmark; apply lista_query_NoDup|done..|].
  unfold grupo_leb in *. destruct proper_grupo_compare as [O _ _].
  rewrite (O g1 g2) in H21. unfold grupo_compare, lex in *.
  destruct (Z.compare _ _); [|done..].
  destruct (compare_opt_string _ _); [|done..].
  destruct (String.compare (g_producto g1) (g_producto g2)) eqn:E; [|done..].
  by apply String.compare_eq_iff.
Qed.

Lemma get_lista_compras_same_rows (fecha : string) (d d2 : db) :
  schema_ok d -> schema_ok d2 -> same_rows d d2 ->
  lista_de fecha d2 = lista_de fecha d.
Proof.
  intros Hok Hok2 Hsame. rewrite !get_lista_compras_agrupar.
  rewrite <- (agrupar_unmark (lista_rows fecha d2)), <- (agrupar_unmark (lista_rows fecha d)).
  by rewrite (lista_query_same_rows fecha d d2).
Qed.

(** C6 (as amended). In a store that meets its schema, where every
    configured category has a display order below 999 and none is named
    "Sin Categoría": the categories of a shopping list appear in
    ascending display order, ties broken by name; the products of each
    category are in ascending byte-wise order of name; every product is
    filed under the category its mapping gives it, and under
    "Sin Categoría" when it has none; "Sin Categoría" has sort key 999,
    every configured category comes before it, and it is the last
    category of any list it appears in. The list is the same whatever
    the order in which the rows sit in the tables, whenever it is
    returned for that order too. *)
Theorem shopping_list_is_ordered_by_category (fecha : string) (d : db)
    (lista : list (string * list entrada)) :
  schema_ok d ->
  categorias_below_sentinel d ->
  get_lista_compras fecha d = Ok lista ->
  StronglySorted (cat_lt d) (map fst lista) /\
  Forall (fun kv => StronglySorted str_lt (map e_producto (snd kv))) lista /\
  (forall cat es e,
     (cat, es) ∈ lista -> e ∈ es ->
     cat = categoria_de d (e_producto e)) /\
  (forall producto,
     mapping_of d producto = None -> categoria_de d producto = sin_categoria) /\
  cat_rank d sin_categoria = 999 /\
  (forall c, c ∈ categorias d -> cat_lt d (c_nombre c) sin_categoria) /\
  (forall pre es post,
     lista = pre ++ (sin_categoria, es) :: post -> post = []) /\
  (forall d2 lista2,
     schema_ok d2 -> same_rows d d2 ->
     get_lista_compras fecha d2 = Ok lista2 -> lista2 = lista).
Proof.
  intros Hok Hbelow ->%get_lista_compras_ok.
  destruct (lista_compras_filed fecha d Hok Hbelow) as [Hk Hp Hsrc Hksrc].
  assert (Hreal : forall c, c ∈ categorias d -> cat_lt d (c_nombre c) sin_categoria).
  { intros c Hc. left. rewrite cat_rank_real, cat_rank_sin by done.
    by destruct (Hbelow c Hc). }
  split_and!; [done|done| | |by apply cat_rank_sin|done| |].
  4:{ intros d2 lista2 Hok2 Hsame ->%get_lista_compras_ok.
      by apply get_lista_compras_same_rows. }
  - intros cat es e Hin He. destruct (Hsrc cat es e Hin He) as (g & Hg & -> & ->).
    by apply (g_categoria_de fecha).
  - intros producto Hnone. unfold categoria_de, cat_of. by rewrite Hnone.
  - intros pre es post Hout. destruct post as [|[k v] post]; [done|]. exfalso.
    rewrite Hout, map_app in Hk. simpl in Hk.
    apply StronglySorted_app in Hk as (_ & _ & Hk).
    apply StronglySorted_cons in Hk as [Hk _]. apply Forall_cons in Hk as [Hk _].
    destruct (Hksrc k) as (g & Hg & Hgk).
    { rewrite Hout, map_app. apply elem_of_app. right. simpl.
      apply list_elem_of_further, list_elem_of_here. }
    rewrite <- Hgk in Hk. unfold g_categoria in Hk.
    rewrite (lista_query_cat fecha d g Hok Hg) in Hk.
    destruct (cat_of d (g_producto g)) as [c|] eqn:Ec.
    + apply cat_of_in in Ec. pose proof (Hreal c Ec) as Hc.
      destruct Hk as [Hk|[Hk1 Hk2]], Hc as [Hc|[Hc1 Hc2]]; try lia.
      unfold str_lt in *. rewrite String.compare_antisym, Hk2 in Hc2. done.
    + by apply cat_lt_irrefl in Hk.
Qed.

End Ordering.


Section GrouperMore.
Context {PT : PyTypes} {RT : PyRuntime}.

(** ** More on the order grouper *)

Lemma elem_of_distinct (l : list string) (x : string) : x ∈ distinct l <-> x ∈ l.
Proof.
  induction l as [|y l IH]; simpl; [done|].
  rewrite !elem_of_cons, elem_of_lfilter, IH. split.
  - intros [->|[Hx _]]; auto.
  - intros [->|Hx]; [by left|].
    destruct (decide (x = y)) as [->|Hne]; [by left|].
    right. split; [done|]. apply negb_true_iff, eqb_false. congruence.
Qed.

Lemma NoDup_lfilter {A} (f : A -> bool) (l : list A) : NoDup l -> NoDup (List.filter f l).
Proof.
  induction 1 as [|x l Hx Hl IH]; simpl; [constructor|].
  destruct (f x); [|done]. constructor; [|done].
  intros [Hin _]%elem_of_lfilter. done.
Qed.

Lemma NoDup_distinct (l : list string) : NoDup (distinct l).
Proof.
  induction l as [|y l IH]; simpl; constructor.
  - intros [_ Hne]%elem_of_lfilter. by rewrite String.eqb_refl in Hne.
  - by apply NoDup_lfilter.
Qed.

(** Keys as the dict gains them, one row after the other. *)
Lemma distinct_from (acc l : list string) :
  fold_left (fun a k => if existsb (String.eqb k) a then a else a ++ [k]) l acc
  = acc ++ List.filter (fun k => negb (existsb (String.eqb k) acc)) (distinct l).
Proof.
  revert acc. induction l as [|x l IH]; intros acc; simpl; [by rewrite app_nil_r|].
  destruct (existsb (String.eqb x) acc) eqn:E; simpl.
  - rewrite IH. f_equal. rewrite lfilter_lfilter. apply lfilter_ext_in.
    intros y _. destruct (existsb (String.eqb y) acc) eqn:Ey; simpl;
      [by rewrite ?andb_false_r|].
    rewrite ?andb_true_r. symmetry.
    apply negb_true_iff, eqb_false. intros ->. congruence.
  - rewrite IH, <- app_assoc. simpl. do 2 f_equal.
    rewrite lfilter_lfilter. apply lfilter_ext_in. intros y _.
    rewrite existsb_app. simpl. rewrite orb_false_r, negb_orb.
    rewrite (String.eqb_sym y x).
    by destruct (existsb (String.eqb y) acc), (String.eqb x y).
Qed.

Lemma process_row_keys (orders orders' : odict) (row : Row) :
  process_row orders row = Ok orders' ->
  map fst orders'
  = fold_left (fun a k => if existsb (String.eqb k) a then a else a ++ [k])
      (row_number row) (map fst orders).
Proof.
  unfold process_row, row_number. fold (row_key row).
  destruct (row_key row) as [|number|z]; simpl;
    [by intros [= <-]| |destruct (z =? 0); by intros [= <-]].
  destruct (String.eqb number "") eqn:E; simpl; [by intros [= <-]|].
  assert (Hc : dict_contains number orders = existsb (String.eqb number) (map fst orders)).
  { unfold dict_contains. induction orders as [|kv orders IH]; simpl; [done|].
    by rewrite IH, (String.eqb_sym (fst kv)). }
  rewrite <- Hc. destruct (dict_contains number orders); simpl.
  - destruct (truthy _); [|by intros [= <-]].
    destruct (row_get row "Lineitem name" PyNone); [done| |done].
    destruct (new_item _ _); simpl; [|done]. intros [= <-].
    apply dict_append_item_keys.
  - destruct (new_order number row) as [o|]; simpl; [|done].
    destruct (truthy _).
    + destruct (row_get row "Lineitem name" PyNone); [done| |done].
      destruct (new_item _ _); simpl; [|done]. intros [= <-].
      rewrite dict_append_item_keys, map_app. done.
    + intros [= <-]. by rewrite map_app.
Qed.

Lemma process_rows_keys (rows : list Row) (orders res : odict) :
  process_rows orders rows = Ok res ->
  map fst res
  = fold_left (fun a k => if existsb (String.eqb k) a then a else a ++ [k])
      (numbers_of rows) (map fst orders).
Proof.
  revert orders. induction rows as [|row rows IH]; intros orders; simpl.
  - by intros [= <-].
  - destruct (process_row orders row) as [orders'|] eqn:E; simpl; [|done].
    intros Hrest. unfold numbers_of. simpl. rewrite fold_left_app.
    rewrite <- (process_row_keys _ _ _ E). by apply IH.
Qed.

(** X1. The grouper returns one order per distinct order number, in the
    order in which the numbers first appear in the rows. *)
Theorem parse_keeps_first_seen_order (rows : list Row) (orders : list order) :
  parse_shopify_csv rows = Ok orders ->
  map o_order_number orders = distinct (numbers_of rows).
Proof.
  intros Hparse. destruct (parse_grouped _ _ Hparse) as (d & -> & _ & Hall & _).
  unfold parse_shopify_csv in Hparse.
  destruct (process_rows [] rows) as [d'|] eqn:E; simpl in Hparse; [|done].
  injection Hparse as Hd.
  assert (Hkeys : map fst d = map o_order_number (map snd d)).
  { rewrite map_map. apply map_ext_in. intros kv Hkv%list_elem_of_In.
    rewrite Forall_forall in Hall. symmetry. apply (Hall kv Hkv). }
  rewrite <- Hkeys.
  assert (map fst d = map fst d') as ->.
  { clear -Hd Hall E. pose proof (process_rows_inv rows [] [] d') as Hinv.
    destruct Hinv as (_ & Hall' & _); [|done|].
    { split_and!; [constructor|constructor|]. intros r k Hr. by apply elem_of_nil in Hr. }
    simpl in Hall'. rewrite Forall_forall in Hall, Hall'.
    transitivity (map o_order_number (map snd d)).
    - rewrite map_map. apply map_ext_in. intros kv Hkv%list_elem_of_In.
      symmetry. apply (Hall kv Hkv).
    - rewrite <- Hd, map_map. apply map_ext_in. intros kv Hkv%list_elem_of_In.
      apply (Hall' kv Hkv). }
  rewrite (process_rows_keys _ _ _ E), distinct_from. simpl. clear.
  induction (distinct (numbers_of rows)) as [|x l IH]; simpl; [done|]. by rewrite IH.
Qed.

Lemma cell_or_raise {A} (row : Row) (key : string) (default : A)
    (conv : string -> option A) (e : exn) :
  cell_or row key default (fun s => of_option ValueError (conv s)) = Raise e ->
  e = ValueError /\ bad_cell conv row key.
Proof.
  unfold cell_or, bad_cell. destruct (row !! key) as [[s|]|]; [|done..].
  destruct (String.eqb s "") eqn:E; [done|]. apply eqb_false in E.
  destruct (conv s) eqn:Ec; simpl; [done|]. intros [= <-]. eauto.
Qed.

Lemma bad_cell_raise {A} (row : Row) (key : string) (default : A)
    (conv : string -> option A) :
  bad_cell conv row key ->
  cell_or row key default (fun s => of_option ValueError (conv s)) = Raise ValueError.
Proof.
  intros (s & Hs & Hne%eqb_false & Hc). unfold cell_or. by rewrite Hs, Hne, Hc.
Qed.

Lemma blank_default {A} (row : Row) (key : string) (default : A)
    (conv : string -> exc A) :
  blank row key -> cell_or row key default conv = Ok default.
Proof. unfold cell_or. by intros [->|[->| ->]]. Qed.

Lemma note_attributes_ok (row : Row) :
  exists na, parse_note_attributes (row_get row "Note Attributes" (PyStr "")) = Ok na.
Proof.
  unfold parse_note_attributes, row_get.
  destruct (row !! "Note Attributes") as [[s|]|]; simpl; eauto;
    destruct (String.eqb s ""); simpl; eauto.
Qed.

Lemma new_order_raise (number : string) (row : Row) (e : exn) :
  new_order number row = Raise e ->
  e = ValueError /\ bad_cell float_of_str row "Total".
Proof.
  unfold new_order. rewrite parse_created_at_cell, row_total_cell.
  destruct (note_attributes_ok row) as [na ->].
  simpl. destruct (cell_or _ _ _ _) eqn:E; simpl; [done|].
  intros [= <-]. by apply cell_or_raise in E.
Qed.

Lemma new_order_bad_total (number : string) (row : Row) :
  bad_cell float_of_str row "Total" -> new_order number row = Raise ValueError.
Proof.
  intros Hbad. unfold new_order. rewrite parse_created_at_cell, row_total_cell.
  destruct (note_attributes_ok row) as [na ->]. simpl.
  by rewrite (bad_cell_raise _ _ _ _ Hbad).
Qed.

Lemma new_item_raise (producto : string) (row : Row) (e : exn) :
  new_item producto row = Raise e ->
  e = ValueError /\
  (bad_cell int_of_str row "Lineitem quantity" \/
   bad_cell float_of_str row "Lineitem price").
Proof.
  unfold new_item. rewrite row_cantidad_cell, row_precio_cell.
  destruct (cell_or row "Lineitem quantity" _ _) eqn:E1; simpl.
  - destruct (cell_or row "Lineitem price" _ _) eqn:E2; simpl; [done|].
    intros [= <-]. apply cell_or_raise in E2 as [-> Hbad]. split; [done|by right].
  - intros [= <-]. apply cell_or_raise in E1 as [-> Hbad]. split; [done|by left].
Qed.

Lemma new_item_bad (producto : string) (row : Row) :
  bad_cell int_of_str row "Lineitem quantity" \/
  bad_cell float_of_str row "Lineitem price" ->
  new_item producto row = Raise ValueError.
Proof.
  intros Hbad. unfold new_item. rewrite row_cantidad_cell, row_precio_cell.
  destruct (cell_or row "Lineitem quantity" _ _) as [q|e] eqn:E1; simpl.
  - destruct Hbad as [Hbad|Hbad].
    + by rewrite (bad_cell_raise _ _ _ _ Hbad) in E1.
    + by rewrite (bad_cell_raise _ _ _ _ Hbad).
  - by apply cell_or_raise in E1 as [-> _].
Qed.

(** The keys of the dict are the numbers met so far. *)
Lemma grouping_inv_known (pre : list Row) (orders : odict) (number : string) :
  grouping_inv pre orders -> number <> "" ->
  dict_contains number orders = false <->
  Forall (fun r => has_key number r = false) pre.
Proof.
  intros (_ & Hall & Hcov) Hne. split.
  - intros Hc. apply Forall_forall. intros r Hr.
    destruct (has_key number r) eqn:E; [|done].
    by rewrite (Hcov r number Hr Hne E) in Hc.
  - intros Hpre. destruct (dict_contains number orders) eqn:Hc; [|done]. exfalso.
    apply dict_contains_elem, list_elem_of_fmap in Hc as (kv & -> & Hkv).
    rewrite Forall_forall in Hall.
    destruct (Hall kv Hkv) as (_ & _ & (r & (pre1 & post1 & -> & _ & Hr) & _) & _).
    rewrite Forall_forall in Hpre. rewrite Hpre in Hr; [done|].
    apply elem_of_app. right. apply list_elem_of_here.
Qed.

Lemma grouping_inv_nil : grouping_inv [] [].
Proof.
  split_and!; [constructor|constructor|]. intros r k Hr. by apply elem_of_nil in Hr.
Qed.

(** A turn of the loop fails exactly on a faulty row, with ValueError. *)
Lemma process_row_raise (pre : list Row) (orders : odict) (row : Row) (e : exn) :
  grouping_inv pre orders ->
  process_row orders row = Raise e -> e = ValueError /\ faulty pre row.
Proof.
  intros Hinv. unfold process_row, faulty. fold (row_key row).
  destruct (row_key row) as [|number|z] eqn:Hname; simpl; [done| |].
  2:{ by apply row_get_str_not_int in Hname. }
  destruct (String.eqb number "") eqn:Hne; simpl; [done|]. apply eqb_false in Hne.
  assert (Hitem : forall orders1 : odict,
            (let lineitem := row_get row "Lineitem name" PyNone in
             if truthy lineitem then
               match lineitem with
               | PyStr producto =>
                   exc_bind (new_item producto row)
                     (fun it => Ok (dict_append_item number it orders1))
               | _ => Raise TypeError
               end
             else Ok orders1) = Raise e ->
            e = ValueError /\
            has_lineitem row = true /\
            (bad_cell int_of_str row "Lineitem quantity" \/
             bad_cell float_of_str row "Lineitem price")).
  { intros orders1. simpl. unfold has_lineitem.
    destruct (row_get row "Lineitem name" PyNone) as [|producto|z] eqn:Hprod; simpl; [done| |].
    2:{ by apply row_get_none_not_int in Hprod. }
    destruct (String.eqb producto ""); simpl; [done|].
    destruct (new_item producto row) eqn:E; simpl; [done|].
    intros [= <-]. by apply new_item_raise in E as [-> ?]. }
  destruct (dict_contains number orders) eqn:Hc; simpl.
  - intros (-> & Hl & Hbad)%Hitem. split; [done|]. exists number. eauto.
  - destruct (new_order number row) eqn:E; simpl.
    + intros (-> & Hl & Hbad)%Hitem. split; [done|]. exists number. eauto.
    + intros [= <-]. apply new_order_raise in E as [-> Hbad]. split; [done|].
      exists number. split_and!; [done..|]. left. split; [|done].
      by apply (grouping_inv_known pre orders).
Qed.

Lemma process_row_faulty (pre : list Row) (orders : odict) (row : Row) :
  grouping_inv pre orders -> faulty pre row ->
  process_row orders row = Raise ValueError.
Proof.
  intros Hinv (number & Hkey & Hne & Hbad). unfold process_row. fold (row_key row).
  rewrite Hkey. simpl. apply eqb_false in Hne as Hne'. rewrite Hne'. simpl.
  destruct Hbad as [[Hfirst Hbad]|[Hl Hbad]].
  - apply (grouping_inv_known pre orders number Hinv Hne) in Hfirst. rewrite Hfirst.
    by rewrite (new_order_bad_total _ _ Hbad).
  - assert (Hitem : forall orders1 : odict,
              (let lineitem := row_get row "Lineitem name" PyNone in
               if truthy lineitem then
                 match lineitem with
                 | PyStr producto =>
                     exc_bind (new_item producto row)
                       (fun it => Ok (dict_append_item number it orders1))
                 | _ => Raise TypeError
                 end
               else Ok orders1) = Raise ValueError).
    { intros orders1. simpl. unfold has_lineitem in Hl. rewrite Hl.
      destruct (row_get row "Lineitem name" PyNone) as [|producto|z] eqn:Hprod; [done| |].
      2:{ by apply row_get_none_not_int in Hprod. }
      by rewrite (new_item_bad _ _ Hbad). }
    destruct (dict_contains number orders); simpl; [apply Hitem|].
    destruct (new_order number row) eqn:E; simpl; [apply Hitem|].
    by apply new_order_raise in E as [-> _].
Qed.

Lemma process_rows_raise (rows pre : list Row) (orders : odict) (e : exn) :
  grouping_inv pre orders ->
  process_rows orders rows = Raise e ->
  e = ValueError /\
  exists rows1 r rows2, rows = rows1 ++ r :: rows2 /\ faulty (pre ++ rows1) r.
Proof.
  revert pre orders. induction rows as [|row rows IH]; intros pre orders Hinv; simpl; [done|].
  destruct (process_row orders row) as [orders'|e'] eqn:E; simpl.
  - intros Hrest. apply (process_row_inv pre) in E; [|done].
    destruct (IH _ _ E Hrest) as (-> & rows1 & r & rows2 & -> & Hf). split; [done|].
    exists (row :: rows1), r, rows2. split; [done|].
    by rewrite (cons_middle row), app_assoc.
  - intros [= <-]. apply (process_row_raise pre) in E as [-> Hf]; [|done]. split; [done|].
    exists [], row, rows. split; [done|]. by rewrite app_nil_r.
Qed.

Lemma process_rows_faulty (rows1 rows2 pre : list Row) (r : Row) (orders : odict) :
  grouping_inv pre orders -> faulty (pre ++ rows1) r ->
  process_rows orders (rows1 ++ r :: rows2) = Raise ValueError.
Proof.
  revert pre orders. induction rows1 as [|row rows1 IH]; intros pre orders Hinv Hf; simpl.
  - rewrite app_nil_r in Hf. by rewrite (process_row_faulty pre).
  - destruct (process_row orders row) as [orders'|e'] eqn:E; simpl.
    + apply (process_row_inv pre) in E; [|done]. apply (IH _ _ E).
      by rewrite <- app_assoc.
    + by apply (process_row_raise pre) in E as [-> _].
Qed.

Lemma parse_faulty (rows1 rows2 : list Row) (r : Row) :
  faulty rows1 r -> parse_shopify_csv (rows1 ++ r :: rows2) = Raise ValueError.
Proof.
  intros Hf. unfold parse_shopify_csv.
  by rewrite (process_rows_faulty rows1 rows2 [] r [] grouping_inv_nil Hf).
Qed.

(** X2. The grouper fails in two ways only. Over the rows the reader
    yields to the end, it fails with ValueError and nothing else, and it
    fails exactly when some row is faulty where it stands: it has an
    order number and either is the first row of that number and holds in
    its total a non-empty text that is no number, or names a product and
    holds such a text in its quantity or price. Missing cells, rows
    without number, odd timestamps and odd annotations never make it
    fail, nor does the total of a later row of an order. When the reader
    stops with its own error after these rows, the grouper fails with
    ValueError if a row before is faulty, and with the error of the
    reader otherwise. *)
Theorem parse_raises_only_on_bad_number (rows : list Row) :
  (forall e, parse_shopify_csv rows = Raise e -> e = ValueError) /\
  ((exists e, parse_shopify_csv rows = Raise e) <->
   (exists rows1 r rows2, rows = rows1 ++ r :: rows2 /\ faulty rows1 r)) /\
  parse_reader rows EndOfFile = parse_shopify_csv rows /\
  ((exists rows1 r rows2, rows = rows1 ++ r :: rows2 /\ faulty rows1 r) ->
   parse_reader rows ReaderError = Raise ValueError) /\
  (~ (exists rows1 r rows2, rows = rows1 ++ r :: rows2 /\ faulty rows1 r) ->
   parse_reader rows ReaderError = Raise CsvError).
Proof.
  assert (H : forall e, process_rows [] rows = Raise e ->
                e = ValueError /\
                exists rows1 r rows2, rows = rows1 ++ r :: rows2 /\ faulty rows1 r).
  { intros e E. by apply (process_rows_raise rows []) in E; [|apply grouping_inv_nil]. }
  assert (Hf : (exists rows1 r rows2, rows = rows1 ++ r :: rows2 /\ faulty rows1 r) ->
               process_rows [] rows = Raise ValueError).
  { intros (rows1 & r & rows2 & -> & Hf).
    by apply (process_rows_faulty rows1 rows2 [] r [] grouping_inv_nil). }
  unfold parse_shopify_csv, parse_reader. split_and!.
  - intros e. destruct (process_rows [] rows) as [orders|e0]; simpl; [done|].
    intros [= <-]. by destruct (H e0 eq_refl) as [-> _].
  - split.
    + intros [e He]. destruct (process_rows [] rows) as [orders|e0]; simpl in He; [done|].
      by destruct (H e0 eq_refl) as [_ ?].
    + intros Hex. exists ValueError. by rewrite (Hf Hex).
  - done.
  - intros Hex. by rewrite (Hf Hex).
  - intros Hnone. destruct (process_rows [] rows) as [orders|e0]; simpl; [done|].
    destruct Hnone. by destruct (H e0 eq_refl) as [_ ?].
Qed.

(** X3. Rows without an order number (no Name cell, a [None] or an
    empty one) are skipped: the grouper returns what it returns for the
    other rows alone, and fails when and as it fails for them. *)
Theorem parse_skips_rows_without_number (rows : list Row) :
  parse_shopify_csv rows
  = parse_shopify_csv (List.filter (fun r => truthy (row_key r)) rows).
Proof.
  unfold parse_shopify_csv. f_equal. generalize (@nil (string * order)).
  induction rows as [|row rows IH]; intros orders; simpl; [done|].
  destruct (truthy (row_key row)) eqn:E; simpl.
  - destruct (process_row orders row); simpl; [apply IH|done].
  - unfold process_row at 1. fold (row_key row). rewrite E. simpl. apply IH.
Qed.

Lemma row_get_set_total (row : Row) (v : option string) (key : string) (d : pyval) :
  key <> "Total" -> row_get (<["Total" := v]> row) key d = row_get row key d.
Proof.
  intros Hk. unfold row_get. by rewrite lookup_insert_ne.
Qed.

Lemma process_row_later_total (orders : odict) (r : Row) (number : string)
    (v : option string) :
  row_key r = PyStr number -> dict_contains number orders = true ->
  process_row orders (<["Total" := v]> r) = process_row orders r.
Proof.
  intros Hkey Hc. unfold process_row.
  rewrite (row_get_set_total r v "Name") by done. fold (row_key r). rewrite Hkey.
  destruct (negb (truthy (PyStr number))); [done|]. rewrite Hc.
  unfold new_item, row_cantidad, row_precio. by rewrite !row_get_set_total.
Qed.

Lemma process_rows_later_total (rows1 rows2 pre : list Row) (orders : odict) (r : Row)
    (number : string) (v : option string) :
  grouping_inv pre orders -> row_key r = PyStr number -> number <> "" ->
  Exists (fun r' => has_key number r' = true) (pre ++ rows1) ->
  process_rows orders (rows1 ++ <["Total" := v]> r :: rows2)
  = process_rows orders (rows1 ++ r :: rows2).
Proof.
  intros Hinv Hkey Hne. revert pre orders Hinv.
  induction rows1 as [|row rows1 IH]; intros pre orders Hinv Hex; simpl.
  - rewrite app_nil_r in Hex.
    rewrite (process_row_later_total orders r number v); [done..|].
    destruct (dict_contains number orders) eqn:Hc; [done|].
    apply (grouping_inv_known pre orders number Hinv Hne) in Hc.
    apply Exists_exists in Hex as (r' & Hr' & Hk).
    rewrite Forall_forall in Hc. by rewrite (Hc r' Hr') in Hk.
  - destruct (process_row orders row) as [orders'|] eqn:E; simpl; [|done].
    apply (IH (pre ++ [row])); [by apply (process_row_inv pre orders)|].
    by rewrite <- app_assoc.
Qed.

(** C3. The conversions of the three numeric cells. The code meets the
    claim where the cell is missing, [None] or empty: the total is then
    0, the quantity 1, the price 0; and a cell that holds a number gives
    that number, the total of a grouped order being the one of the
    first row of its order number, the quantity and price of an item
    those of its own row. It does not meet it where the total is a
    non-empty text that is no number: the order does not get the total
    0, the grouping of the whole file raises ValueError. The total of a
    later row of an order number is not read: whatever that cell holds,
    or with the cell absent, the grouping is the same. *)
Theorem numeric_fields_default_when_missing_or_empty :
  (forall row : Row,
     (blank row "Total" -> row_total row = Ok (float_of_Z 0)) /\
     (blank row "Lineitem quantity" -> row_cantidad row = Ok 1) /\
     (blank row "Lineitem price" -> row_precio row = Ok (float_of_Z 0))) /\
  (forall (row : Row) (s : string),
     s <> "" ->
     (row !! "Total" = Some (Some s) ->
      row_total row = of_option ValueError (float_of_str s)) /\
     (row !! "Lineitem quantity" = Some (Some s) ->
      row_cantidad row = of_option ValueError (int_of_str s)) /\
     (row !! "Lineitem price" = Some (Some s) ->
      row_precio row = of_option ValueError (float_of_str s))) /\
  (forall (rows : list Row) (orders : list order) (o : order),
     parse_shopify_csv rows = Ok orders ->
     o ∈ orders ->
     (exists r, first_row (o_order_number o) rows r /\
                row_total r = Ok (o_total o)) /\
     Forall2 (fun r it => row_cantidad r = Ok (it_cantidad it) /\
                          row_precio r = Ok (it_precio it))
       (List.filter (contributes (o_order_number o)) rows) (o_items o)) /\
  (forall (rows1 rows2 : list Row) (r : Row) (number s : string),
     row_key r = PyStr number -> number <> "" ->
     Forall (fun r' => has_key number r' = false) rows1 ->
     r !! "Total" = Some (Some s) -> s <> "" -> float_of_str s = None ->
     parse_shopify_csv (rows1 ++ r :: rows2) = Raise ValueError) /\
  (forall (rows1 rows2 : list Row) (r : Row) (number : string),
     row_key r = PyStr number -> number <> "" ->
     Exists (fun r' => has_key number r' = true) rows1 ->
     (forall v : option string,
        parse_shopify_csv (rows1 ++ <["Total" := v]> r :: rows2)
        = parse_shopify_csv (rows1 ++ r :: rows2)) /\
     parse_shopify_csv (rows1 ++ delete "Total" r :: rows2)
     = parse_shopify_csv (rows1 ++ r :: rows2)).
Proof.
  split_and!.
  - intros row. rewrite row_total_cell, row_cantidad_cell, row_precio_cell.
    split_and!; apply blank_default.
  - intros row s Hs%eqb_false.
    rewrite row_total_cell, row_cantidad_cell, row_precio_cell. unfold cell_or.
    split_and!; intros ->; by rewrite Hs.
  - intros rows orders o Hparse Ho.
    destruct (parse_order_grouped _ _ _ Hparse Ho)
      as (_ & _ & (r & Hfirst & Hnew) & Hitems).
    simpl in *. split.
    + exists r. split; [done|]. by apply new_order_total in Hnew.
    + eapply Forall2_impl; [exact Hitems|].
      intros r' it (producto & _ & Hit). by apply new_item_numbers in Hit as (_ & ? & ?).
  - intros rows1 rows2 r number s Hkey Hne Hfirst Hcell Hs Hbad.
    apply parse_faulty. exists number. split_and!; [done..|]. left. split; [done|].
    by exists s.
  - intros rows1 rows2 r number Hkey Hne Hex.
    assert (Hset : forall (r' : Row) (v : option string),
              row_key r' = PyStr number ->
              parse_shopify_csv (rows1 ++ <["Total" := v]> r' :: rows2)
              = parse_shopify_csv (rows1 ++ r' :: rows2)).
    { intros r' v Hkey'. unfold parse_shopify_csv.
      by rewrite (process_rows_later_total rows1 rows2 [] [] r' number v
                    grouping_inv_nil Hkey' Hne Hex). }
    split; [intros v; by apply Hset|].
    destruct (r !! "Total") as [v|] eqn:Hv; [|by rewrite delete_id].
    rewrite <- (Hset (delete "Total" r) v).
    + by rewrite insert_delete_eq, insert_id.
    + rewrite <- Hkey. unfold row_key, row_get. by rewrite lookup_delete_ne.
Qed.

End GrouperMore.

Section Categories.
Context {PT : PyTypes}.

(** ** Categories and the product mapping *)

Lemma insert_or_ignore_cats (d : db) (no : string * Z) :
  (exists added, categorias (insert_or_ignore_categoria d no) = categorias d ++ added) /\
  fst no ∈ nombres (insert_or_ignore_categoria d no) /\
  producto_categoria (insert_or_ignore_categoria d no) = producto_categoria d /\
  pedidos (insert_or_ignore_categoria d no) = pedidos d /\
  lineas_pedido (insert_or_ignore_categoria d no) = lineas_pedido d /\
  seq_producto_categoria (insert_or_ignore_categoria d no) = seq_producto_categoria d /\
  seq_pedidos (insert_or_ignore_categoria d no) = seq_pedidos d /\
  seq_lineas_pedido (insert_or_ignore_categoria d no) = seq_lineas_pedido d.
Proof.
  unfold insert_or_ignore_categoria, nombres. simpl.
  destruct (existsb _ _) eqn:E; simpl.
  - split_and!; try done; [exists []; by rewrite app_nil_r|].
    apply existsb_elem in E as (c & Hc & Hn%eqb_true).
    apply list_elem_of_fmap. eauto.
  - split_and!; try done; [eauto|].
    rewrite map_app. apply elem_of_app. right. apply list_elem_of_here.
Qed.

Lemma max_list_snoc (l : list Z) (x : Z) :
  max_list (l ++ [x]) = Z.max (max_list l) (Z.max x 0).
Proof. induction l as [|y l IH]; simpl; [lia|]. rewrite IH. lia. Qed.

Lemma insert_or_ignore_ahead (d : db) (no : string * Z) :
  counter_ahead (insert_or_ignore_categoria d no).
Proof.
  unfold counter_ahead, insert_or_ignore_categoria, next_rowid.
  cbn [categorias seq_categorias].
  destruct (existsb _ _); [lia|]. rewrite map_app. cbn [map c_id].
  rewrite max_list_snoc.
  assert (0 <= max_list (map c_id (categorias d))).
  { clear. induction (categorias d) as [|c l IH]; simpl; lia. }
  lia.
Qed.

(** An ignored insert leaves the tables alone and uses up one id. *)
Lemma insert_or_ignore_present (d : db) (no : string * Z) :
  fst no ∈ nombres d -> counter_ahead d ->
  categorias (insert_or_ignore_categoria d no) = categorias d /\
  seq_categorias (insert_or_ignore_categoria d no) = seq_categorias d + 1.
Proof.
  intros (c & Hc & Hin)%list_elem_of_fmap Hahead.
  unfold insert_or_ignore_categoria, next_rowid. simpl.
  assert (existsb (fun c => String.eqb (c_nombre c) (fst no)) (categorias d) = true) as ->.
  { apply existsb_elem. exists c. split; [done|]. by apply eqb_true. }
  unfold counter_ahead in Hahead. split; [done|lia].
Qed.

Lemma init_fold_cats (l : list (string * Z)) (d : db) :
  (exists added,
     categorias (fold_left insert_or_ignore_categoria l d) = categorias d ++ added) /\
  (forall no, no ∈ l -> fst no ∈ nombres (fold_left insert_or_ignore_categoria l d)) /\
  producto_categoria (fold_left insert_or_ignore_categoria l d) = producto_categoria d /\
  pedidos (fold_left insert_or_ignore_categoria l d) = pedidos d /\
  lineas_pedido (fold_left insert_or_ignore_categoria l d) = lineas_pedido d /\
  seq_producto_categoria (fold_left insert_or_ignore_categoria l d)
  = seq_producto_categoria d /\
  seq_pedidos (fold_left insert_or_ignore_categoria l d) = seq_pedidos d /\
  seq_lineas_pedido (fold_left insert_or_ignore_categoria l d) = seq_lineas_pedido d.
Proof.
  revert d. induction l as [|no l IH]; intros d; simpl.
  - split_and!; try done; [exists []; by rewrite app_nil_r|].
    intros no Hno. by apply elem_of_nil in Hno.
  - destruct (insert_or_ignore_cats d no)
      as ((a1 & H1) & Hn & H2 & H3 & H4 & H5 & H6 & H7).
    destruct (IH (insert_or_ignore_categoria d no))
      as ((a2 & G1) & Gn & G2 & G3 & G4 & G5 & G6 & G7).
    split_and!; try congruence.
    + exists (a1 ++ a2). by rewrite G1, H1, app_assoc.
    + intros no' [->|Hno']%elem_of_cons; [|by apply Gn].
      unfold nombres in *. rewrite G1, map_app. apply elem_of_app. by left.
Qed.

Lemma init_fold_ahead (l : list (string * Z)) (d : db) :
  l <> [] -> counter_ahead (fold_left insert_or_ignore_categoria l d).
Proof.
  induction l as [|no l IH] using rev_ind; [done|]. intros _.
  rewrite fold_left_app. simpl. apply insert_or_ignore_ahead.
Qed.

(** A pass over names the table holds leaves it alone and uses up one
    id for each. *)
Lemma init_fold_present (l : list (string * Z)) (d : db) :
  (forall no, no ∈ l -> fst no ∈ nombres d) -> counter_ahead d ->
  categorias (fold_left insert_or_ignore_categoria l d) = categorias d /\
  seq_categorias (fold_left insert_or_ignore_categoria l d)
  = seq_categorias d + Z.of_nat (length l).
Proof.
  revert d. induction l as [|no l IH]; intros d H Hahead; simpl fold_left.
  - simpl. split; [done|lia].
  - destruct (insert_or_ignore_present d no) as [Hc Hs];
      [apply H, list_elem_of_here|done|].
    destruct (IH (insert_or_ignore_categoria d no)) as [Gc Gs].
    + intros no' Hno'. unfold nombres. rewrite Hc. apply H. by apply list_elem_of_further.
    + apply insert_or_ignore_ahead.
    + rewrite Gc, Gs, Hc, Hs. split; [done|]. simpl length. lia.
Qed.

Lemma init_fold_twice (l : list (string * Z)) (d : db) :
  l <> [] ->
  let d1 := fold_left insert_or_ignore_categoria l d in
  let d2 := fold_left insert_or_ignore_categoria l d1 in
  categorias d2 = categorias d1 /\
  seq_categorias d2 = seq_categorias d1 + Z.of_nat (length l) /\
  (forall nombre d1' id1 d2' id2,
     create_categoria nombre d1 = Ok (d1', id1) ->
     create_categoria nombre d2 = Ok (d2', id2) ->
     id2 = id1 + Z.of_nat (length l)).
Proof.
  intros Hl d1 d2. subst d2.
  destruct (init_fold_cats l d) as (_ & Hn & _).
  assert (Hahead : counter_ahead d1) by by apply init_fold_ahead.
  destruct (init_fold_present l d1 Hn Hahead) as [Hc Hs].
  split_and!; [exact Hc|exact Hs|].
  intros nombre d1' id1 d2' id2. unfold create_categoria. rewrite Hc.
  destruct (existsb _ _); [done|]. intros [= <- <-] [= <- <-].
  rewrite Hs. unfold next_rowid, counter_ahead in *. lia.
Qed.

(** X4. Initialising the store again changes no table but uses up
    seven category ids. [init_db] only ever appends categories, leaving
    the rows that exist (also one that bears a default name), the other
    tables and their counters as they are; after it every default
    category name is present; a second [init_db] adds no row and moves
    the counter of [categorias] by seven, one for each insert it
    ignores, so that a category created after it gets an id seven above
    the id it would have got before. *)
Theorem init_db_again_moves_only_the_counter (d : db) :
  categorias (init_db (init_db d)) = categorias (init_db d) /\
  seq_categorias (init_db (init_db d)) = seq_categorias (init_db d) + 7 /\
  (forall nombre d1 id1 d2 id2,
     create_categoria nombre (init_db d) = Ok (d1, id1) ->
     create_categoria nombre (init_db (init_db d)) = Ok (d2, id2) ->
     id2 = id1 + 7) /\
  (exists added, categorias (init_db d) = categorias d ++ added) /\
  Forall (fun no => fst no ∈ nombres (init_db d)) categorias_default /\
  producto_categoria (init_db d) = producto_categoria d /\
  pedidos (init_db d) = pedidos d /\
  lineas_pedido (init_db d) = lineas_pedido d /\
  seq_producto_categoria (init_db d) = seq_producto_categoria d /\
  seq_pedidos (init_db d) = seq_pedidos d /\
  seq_lineas_pedido (init_db d) = seq_lineas_pedido d.
Proof.
  unfold init_db.
  destruct (init_fold_cats categorias_default d)
    as (Ha & Hn & H2 & H3 & H4 & H5 & H6 & H7).
  destruct (init_fold_twice categorias_default d) as (Hc & Hs & Hid); [done|].
  split_and!; [exact Hc|exact Hs|exact Hid|exact Ha|by apply Forall_forall
              |exact H2|exact H3|exact H4|exact H5|exact H6|exact H7].
Qed.

Lemma max_orden_ge (cats : list categoria) (m : Z) (c : categoria) :
  max_orden cats = Some m -> c ∈ cats -> c_orden c <= m.
Proof.
  destruct cats as [|c0 cats]; simpl; [done|]. intros [= <-].
  assert (H : forall l a x, (x = a \/ x ∈ l) -> x <= fold_left Z.max l a).
  { clear. induction l as [|y l IH]; intros a x; simpl.
    - intros [->|?%elem_of_nil]; [lia|done].
    - intros [->|[->|Hx]%elem_of_cons].
      + etrans; [|apply IH; by left]. lia.
      + etrans; [|apply IH; by left]. lia.
      + apply IH. by right. }
  intros [->|Hc]%elem_of_cons; apply H; [by left|right].
  apply list_elem_of_fmap. eauto.
Qed.

Lemma insert_sorted_snoc {A} (leb : A -> A -> bool) (x c : A) (m : list A) :
  leb x c = true ->
  insert_sorted leb x (m ++ [c]) = insert_sorted leb x m ++ [c].
Proof.
  intros Hx. induction m as [|y m IH]; simpl; [by rewrite Hx|].
  destruct (leb x y); [done|]. by rewrite IH.
Qed.

Lemma sort_by_snoc {A} (leb : A -> A -> bool) (l : list A) (c : A) :
  (forall x, x ∈ l -> leb x c = true) ->
  sort_by leb (l ++ [c]) = sort_by leb l ++ [c].
Proof.
  unfold sort_by. induction l as [|x l IH]; intros H; simpl; [done|].
  rewrite IH by (intros y Hy; apply H; by apply list_elem_of_further).
  apply insert_sorted_snoc, H, list_elem_of_here.
Qed.

(** X5. [create_categoria] refuses a name that exists, with HTTP 400,
    and otherwise appends one category under a fresh id whose display
    order is above that of every category there is, so that
    [get_categorias] lists the categories as before and the new one
    last; no other table changes. *)
Theorem create_categoria_appends_last (nombre : string) (d : db) :
  match create_categoria nombre d with
  | Raise e => e = HTTPException 400 /\ nombre ∈ nombres d
  | Ok (d', id) =>
      (nombre ∉ nombres d) /\
      exists c,
        c_id c = id /\ c_nombre c = nombre /\
        categorias d' = categorias d ++ [c] /\
        (forall c', c' ∈ categorias d -> c_orden c' < c_orden c /\ c_id c' <> id) /\
        get_categorias d' = get_categorias d ++ [c] /\
        producto_categoria d' = producto_categoria d /\
        pedidos d' = pedidos d /\
        lineas_pedido d' = lineas_pedido d
  end.
Proof.
  unfold create_categoria.
  destruct (existsb _ _) eqn:E.
  - split; [done|]. apply existsb_elem in E as (c & Hc & Hn%eqb_true).
    apply list_elem_of_fmap. eauto.
  - split.
    { intros (c & Hc & Hin)%list_elem_of_fmap.
      rewrite existsb_false_elem in E. specialize (E c Hin).
      apply eqb_false in E. congruence. }
    assert (Hlt : forall c', c' ∈ categorias d ->
              c_orden c' < (match max_orden (categorias d) with
                            | Some m => if m =? 0 then 0 else m
                            | None => 0
                            end) + 1).
    { intros c' Hc'. destruct (max_orden (categorias d)) as [m|] eqn:Em.
      - pose proof (max_orden_ge _ _ _ Em Hc'). destruct (m =? 0) eqn:E0; [|lia].
        apply Z.eqb_eq in E0. lia.
      - destruct (categorias d); [by apply elem_of_nil in Hc'|done]. }
    exists {| c_id := next_rowid (seq_categorias d) (map c_id (categorias d));
              c_nombre := nombre;
              c_orden := (match max_orden (categorias d) with
                          | Some m => if m =? 0 then 0 else m
                          | None => 0
                          end) + 1 |}.
    split_and!; try done.
    + intros c' Hc'. split; [by apply Hlt|]. simpl.
      intros Heq. apply (next_rowid_fresh (seq_categorias d) (map c_id (categorias d))).
      rewrite <- Heq. apply list_elem_of_fmap. eauto.
    + unfold get_categorias. simpl. apply sort_by_snoc.
      intros c' Hc'. unfold categoria_leb. simpl.
      pose proof (Hlt c' Hc') as H. apply Z.compare_lt_iff in H. by rewrite H.
Qed.

Lemma find_app_none {A} (f : A -> bool) (l1 l2 : list A) :
  List.find f (l1 ++ l2)
  = match List.find f l1 with
    | Some x => Some x
    | None => List.find f l2
    end.
Proof. induction l1 as [|x l1 IH]; simpl; [done|]. by destruct (f x). Qed.

Lemma find_none_lfilter {A} (f g : A -> bool) (l : list A) :
  (forall x, f x = true -> g x = false) -> List.find f (List.filter g l) = None.
Proof.
  intros H. induction l as [|x l IH]; simpl; [done|].
  destruct (g x) eqn:Eg; simpl; [|done].
  destruct (f x) eqn:Ef; [|done]. rewrite (H x Ef) in Eg. done.
Qed.

Lemma mapping_of_asignar (producto : string) (categoria_id : Z) (d : db) (q : string) :
  mapping_of (replace_producto_categoria producto categoria_id d) q
  = if String.eqb q producto then
      Some {| pc_id := next_rowid (seq_producto_categoria d)
                         (map pc_id (producto_categoria d));
              pc_producto := producto;
              pc_categoria_id := categoria_id |}
    else mapping_of d q.
Proof.
  unfold mapping_of. simpl. rewrite find_app_none. simpl.
  destruct (String.eqb q producto) eqn:E.
  - apply eqb_true in E as ->. rewrite find_none_lfilter; [done|].
    intros pc ->%eqb_true. by rewrite String.eqb_refl.
  - rewrite find_lfilter.
    + by destruct (List.find _ _).
    + intros pc <-%eqb_true. by rewrite E.
Qed.

(** X6. [asignar_categoria], for a category id in the 64-bit range,
    makes the product's mapping the category given, whatever it was
    mapped to before (the latest assignment wins), and leaves every
    other product's mapping, the categories, the orders and the lines
    alone: the product is then filed under the category with that id,
    or under none when no category has it. A category id outside the
    range is refused with [OverflowError]. *)
Theorem asignar_categoria_latest_wins (producto : string) (categoria_id : Z) (d : db) :
  (in_int64 categoria_id = true ->
   exists d',
     asignar_categoria producto categoria_id d = Ok d' /\
     (pc_categoria_id <$> mapping_of d' producto) = Some categoria_id /\
     cat_of d' producto = List.find (fun c => categoria_id =? c_id c) (categorias d) /\
     (forall q, q <> producto ->
        mapping_of d' q = mapping_of d q /\ cat_of d' q = cat_of d q) /\
     categorias d' = categorias d /\
     pedidos d' = pedidos d /\
     lineas_pedido d' = lineas_pedido d) /\
  (in_int64 categoria_id = false ->
   asignar_categoria producto categoria_id d = Raise OverflowError).
Proof.
  rewrite asignar_categoria_eq. split; intros ->; [|done].
  exists (replace_producto_categoria producto categoria_id d).
  split_and!; try done.
  - by rewrite mapping_of_asignar, String.eqb_refl.
  - unfold cat_of. by rewrite mapping_of_asignar, String.eqb_refl.
  - intros q Hq. apply eqb_false in Hq. unfold cat_of.
    by rewrite !mapping_of_asignar, Hq.
Qed.

Lemma elem_of_flat_map {A B} (f : A -> list B) (l : list A) (y : B) :
  y ∈ flat_map f l <-> exists x, x ∈ l /\ y ∈ f x.
Proof.
  rewrite list_elem_of_In, in_flat_map. split; intros (x & Hx & Hy); exists x;
    by rewrite ?list_elem_of_In in *.
Qed.

Lemma productos_sin_mapeo_spec (d : db) (p : string) :
  p ∈ productos_sin_mapeo d <-> pedido_alguna_vez d p /\ mapping_of d p = None.
Proof.
  unfold productos_sin_mapeo, pedido_alguna_vez, mapping_of.
  rewrite elem_of_flat_map. split.
  - intros (lp & Hlp & Hp). apply elem_of_flat_map in Hp as (pc & Hpc & Hp).
    destruct pc as [pc|]; [by apply elem_of_nil in Hp|].
    apply list_elem_of_singleton in Hp as ->.
    split; [eauto|].
    destruct (List.filter _ _) as [|pc rest] eqn:E.
    + destruct (List.find _ _) as [pc|] eqn:Ef; [|done].
      apply find_some in Ef as [Hin%list_elem_of_In Hm].
      assert (pc ∈ List.filter (fun pc => String.eqb (l_producto lp) (pc_producto pc))
                     (producto_categoria d)) as Hpc'
        by by apply elem_of_lfilter.
      rewrite E in Hpc'. by apply elem_of_nil in Hpc'.
    + simpl in Hpc. exfalso.
      apply elem_of_cons in Hpc as [Hpc|Hpc]; [done|].
      by apply list_elem_of_fmap in Hpc as (? & ? & _).
  - intros [(lp & Hlp & <-) Hnone]. exists lp. split; [done|].
    apply elem_of_flat_map. exists None. split; [|apply list_elem_of_here].
    destruct (List.filter _ _) as [|pc rest] eqn:E; [apply list_elem_of_here|].
    assert (pc ∈ List.filter (fun pc => String.eqb (l_producto lp) (pc_producto pc))
                   (producto_categoria d)) as [Hin Hm]%elem_of_lfilter
      by (rewrite E; apply list_elem_of_here).
    apply list_elem_of_In in Hin.
    pose proof (find_none _ _ Hnone pc Hin) as Hf. simpl in Hf. congruence.
Qed.

Lemma get_productos_sin_categoria_spec (d : db) (p : string) :
  p ∈ get_productos_sin_categoria d <-> pedido_alguna_vez d p /\ mapping_of d p = None.
Proof.
  unfold get_productos_sin_categoria.
  by rewrite elem_of_sort_by, elem_of_distinct, productos_sin_mapeo_spec.
Qed.

(** X7. [get_productos_sin_categoria] lists, once each and in ascending
    order, exactly the products that some line asks for and that have no
    row in the product mapping. An assignment that is carried through
    takes its product off the list and changes nothing else of the
    list. *)
Theorem productos_sin_categoria_are_the_unmapped (d : db) :
  (forall p, p ∈ get_productos_sin_categoria d <->
             pedido_alguna_vez d p /\ mapping_of d p = None) /\
  StronglySorted str_lt (get_productos_sin_categoria d) /\
  (forall producto categoria_id d',
     asignar_categoria producto categoria_id d = Ok d' ->
     forall q,
       q ∈ get_productos_sin_categoria d' <->
       q ∈ get_productos_sin_categoria d /\ q <> producto).
Proof.
  split_and!.
  - apply get_productos_sin_categoria_spec.
  - unfold get_productos_sin_categoria.
    apply (StronglySorted_refine (fun a b => String.leb a b = true) _
             (fun _ => True) (fun x => x)).
    + intros x y _ _ Hne. unfold String.leb, str_lt.
      destruct (String.compare x y) eqn:E; [|done..].
      by apply String.compare_eq_iff in E.
    + by apply Forall_forall.
    + rewrite map_id, sort_by_perm. apply NoDup_distinct.
    + apply (sort_by_sorted String.compare proper_string_compare).
  - intros producto categoria_id d' [_ ->]%asignar_categoria_ok q.
    rewrite !get_productos_sin_categoria_spec.
    rewrite mapping_of_asignar. unfold pedido_alguna_vez. simpl.
    destruct (String.eqb q producto) eqn:E.
    + apply eqb_true in E. split; [by intros [_ ?]|by intros [_ ?]].
    + apply eqb_false in E. tauto.
Qed.

End Categories.

Section GateMore.
Context {PT : PyTypes} {RT : PyRuntime}.

(** ** More on the gate *)

Lemma insert_lineas_spec (pedido_id : Z) (items : list item) (seq : Z)
    (lineas : list linea) :
  exists newl,
    snd (insert_lineas_rows pedido_id items seq lineas) = lineas ++ newl /\
    Forall2 stored_line items newl /\
    Forall (fun l => l_pedido_id l = pedido_id) newl.
Proof.
  revert seq lineas. induction items as [|it items IH]; intros seq lineas; simpl.
  - exists []. by rewrite app_nil_r.
  - destruct (IH (next_rowid seq (map l_id lineas))
                (lineas ++ [linea_of_item (next_rowid seq (map l_id lineas)) pedido_id it]))
      as (newl & H1 & H2 & H3).
    exists (linea_of_item (next_rowid seq (map l_id lineas)) pedido_id it :: newl).
    split_and!.
    + by rewrite H1, <- app_assoc.
    + by constructor.
    + by constructor.
Qed.

Lemma insert_order_spec (clock : Z -> string) (d : db) (o : order) :
  exists p newl,
    pedidos (insert_order_rows clock d o) = pedidos d ++ [p] /\
    lineas_pedido (insert_order_rows clock d o) = lineas_pedido d ++ newl /\
    stored_as o p /\
    (p_id p ∉ map p_id (pedidos d)) /\
    Forall2 stored_line (o_items o) newl /\
    Forall (fun l => l_pedido_id l = p_id p) newl /\
    categorias (insert_order_rows clock d o) = categorias d /\
    producto_categoria (insert_order_rows clock d o) = producto_categoria d.
Proof.
  unfold insert_order_rows.
  destruct (insert_lineas_spec (next_rowid (seq_pedidos d) (map p_id (pedidos d)))
              (o_items o) (seq_lineas_pedido d) (lineas_pedido d))
    as (newl & H1 & H2 & H3).
  eexists _, newl. simpl. split_and!; try done.
  apply next_rowid_fresh.
Qed.

Lemma lineas_of_app (d : db) (id : Z) (l1 l2 : list linea) :
  lineas_pedido d = l1 ++ l2 ->
  lineas_of d id
  = List.filter (fun l => l_pedido_id l =? id) l1
    ++ List.filter (fun l => l_pedido_id l =? id) l2.
Proof. unfold lineas_of. intros ->. apply lfilter_app. Qed.

Lemma lfilter_all {A} (f : A -> bool) (l : list A) :
  Forall (fun x => f x = true) l -> List.filter f l = l.
Proof. induction 1 as [|x l Hx _ IH]; simpl; [done|]. by rewrite Hx, IH. Qed.

Lemma store_inv_insert_order (clock : Z -> string) (d : db) (o : order) :
  dated o = true -> store_inv d -> store_inv (insert_order_rows clock d o).
Proof.
  intros Hd [H1 H2 H3].
  destruct (insert_order_spec clock d o)
    as (p & newl & Hp & Hl & Hso & Hfresh & Hitems & Hpid & _ & _).
  split; rewrite ?Hp, ?Hl.
  - intros p' [Hp'| ->%list_elem_of_singleton]%elem_of_app; [by apply H1|].
    destruct Hso as (_ & _ & _ & -> & _). done.
  - intros p' [Hp'| ->%list_elem_of_singleton]%elem_of_app; [by apply H2|].
    left. apply Hso.
  - intros l [Hl'|Hl']%elem_of_app; rewrite map_app; apply elem_of_app.
    + left. by apply H3.
    + right. rewrite Forall_forall in Hpid. rewrite (Hpid l Hl'). apply list_elem_of_here.
Qed.

Lemma holds_insert_new (clock : Z -> string) (d : db) (o : order) :
  store_inv d ->
  exists p, holds (insert_order_rows clock d o) o p.
Proof.
  intros [_ _ H3].
  destruct (insert_order_spec clock d o)
    as (p & newl & Hp & Hl & Hso & Hfresh & Hitems & Hpid & _ & _).
  exists p. split_and!; [|done|].
  - rewrite Hp. apply elem_of_app. right. apply list_elem_of_here.
  - rewrite (lineas_of_app _ _ _ _ Hl), lfilter_none, lfilter_all; [done| |].
    + eapply Forall_impl; [exact Hpid|]. intros l ->. apply Z.eqb_refl.
    + apply Forall_forall. intros l Hl'. apply Z.eqb_neq. intros Heq.
      apply Hfresh. rewrite <- Heq. by apply H3.
Qed.

Lemma holds_insert_old (clock : Z -> string) (d : db) (o o' : order) (p : pedido) :
  holds d o p -> holds (insert_order_rows clock d o') o p.
Proof.
  intros (Hin & Hso & Hitems).
  destruct (insert_order_spec clock d o')
    as (p' & newl & Hp & Hl & _ & Hfresh & _ & Hpid & _ & _).
  split_and!; [|done|].
  - rewrite Hp. apply elem_of_app. by left.
  - rewrite (lineas_of_app _ _ _ _ Hl). fold (lineas_of d (p_id p)).
    rewrite lfilter_none; [by rewrite app_nil_r|].
    eapply Forall_impl; [exact Hpid|]. intros l Hl'. simpl in Hl'. rewrite Hl'.
    apply Z.eqb_neq. intros Heq. apply Hfresh. rewrite Heq.
    apply list_elem_of_fmap. eauto.
Qed.

Lemma ingest_step_cases (clock : Z -> string) (d : db) (n : counts) (o : order) :
  ingest_step_rows clock (d, n) o
  = if stored d o then
      (d, {| nuevos := nuevos n; duplicados := duplicados n + 1; sin_fecha := sin_fecha n |})
    else if dated o then
      (insert_order_rows clock d o,
       {| nuevos := nuevos n + 1; duplicados := duplicados n; sin_fecha := sin_fecha n |})
    else
      (d, {| nuevos := nuevos n; duplicados := duplicados n; sin_fecha := sin_fecha n + 1 |}).
Proof.
  unfold ingest_step_rows, stored, dated.
  destruct (order_exists d (o_order_number o)); [done|].
  by destruct (truthy_opt (o_fecha_entrega o)).
Qed.

Lemma ingest_store_inv (clock : Z -> string) (orders : list order) (d : db) (n : counts) :
  store_inv d -> store_inv (fst (fold_left (ingest_step_rows clock) orders (d, n))).
Proof.
  revert d n. induction orders as [|o orders IH]; intros d n Hd; [done|].
  cbn [fold_left]. rewrite ingest_step_cases.
  destruct (stored d o); [by apply IH|].
  destruct (dated o) eqn:Ho; [|by apply IH].
  apply IH. by apply store_inv_insert_order.
Qed.

Lemma ingest_holds_old (clock : Z -> string) (orders : list order) (d : db) (n : counts)
    (o : order) (p : pedido) :
  holds d o p -> holds (fst (fold_left (ingest_step_rows clock) orders (d, n))) o p.
Proof.
  revert d n. induction orders as [|o' orders IH]; intros d n Hh; [done|].
  cbn [fold_left]. rewrite ingest_step_cases.
  destruct (stored d o'); [by apply IH|].
  destruct (dated o'); [|by apply IH].
  apply IH. by apply holds_insert_old.
Qed.

Lemma ingest_holds_new (clock : Z -> string) (orders : list order) (d : db) (n : counts)
    (o : order) :
  NoDup (map o_order_number orders) -> store_inv d ->
  o ∈ orders -> dated o = true -> stored d o = false ->
  exists p, holds (fst (fold_left (ingest_step_rows clock) orders (d, n))) o p.
Proof.
  revert d n. induction orders as [|o' orders IH]; intros d n Hnd Hinv Ho Hd Hst.
  { by apply elem_of_nil in Ho. }
  simpl in Hnd. apply NoDup_cons in Hnd as [Hfresh Hnd].
  cbn [fold_left]. rewrite ingest_step_cases.
  apply elem_of_cons in Ho as [->|Ho].
  - rewrite Hst, Hd.
    destruct (holds_insert_new clock d o' Hinv) as (p & Hp).
    exists p. by apply ingest_holds_old.
  - assert (Hne : o_order_number o' <> o_order_number o).
    { intros Heq. apply Hfresh. rewrite Heq. apply list_elem_of_fmap. eauto. }
    destruct (stored d o'); [by apply IH|].
    destruct (dated o') eqn:Hd'; [|by apply IH].
    apply IH; try done.
    + by apply store_inv_insert_order.
    + unfold stored in *. rewrite order_exists_insert, Hst. simpl. by apply eqb_false.
Qed.

(** Appending only: what a pass adds to the two tables. *)
Lemma ingest_appends (clock : Z -> string) (orders : list order) (d : db) (n : counts) :
  exists newp newl,
    pedidos (fst (fold_left (ingest_step_rows clock) orders (d, n))) = pedidos d ++ newp /\
    lineas_pedido (fst (fold_left (ingest_step_rows clock) orders (d, n)))
    = lineas_pedido d ++ newl /\
    categorias (fst (fold_left (ingest_step_rows clock) orders (d, n))) = categorias d /\
    producto_categoria (fst (fold_left (ingest_step_rows clock) orders (d, n)))
    = producto_categoria d /\
    nuevos (snd (fold_left (ingest_step_rows clock) orders (d, n)))
    = nuevos n + Z.of_nat (length newp) /\
    0 <= duplicados (snd (fold_left (ingest_step_rows clock) orders (d, n))) - duplicados n /\
    0 <= sin_fecha (snd (fold_left (ingest_step_rows clock) orders (d, n))) - sin_fecha n /\
    nuevos (snd (fold_left (ingest_step_rows clock) orders (d, n)))
    + duplicados (snd (fold_left (ingest_step_rows clock) orders (d, n)))
    + sin_fecha (snd (fold_left (ingest_step_rows clock) orders (d, n)))
    = nuevos n + duplicados n + sin_fecha n + Z.of_nat (length orders) /\
    Forall (fun p => p_status p = pendiente /\ (p_id p ∉ map p_id (pedidos d))) newp.
Proof.
  revert d n. induction orders as [|o orders IH]; intros d n.
  { exists [], []. simpl. rewrite !app_nil_r. split_and!; try done; lia. }
  cbn [fold_left]. rewrite ingest_step_cases.
  destruct (stored d o).
  { destruct (IH d {| nuevos := nuevos n; duplicados := duplicados n + 1;
                      sin_fecha := sin_fecha n |})
      as (newp & newl & H1 & H2 & H3 & H4 & H5 & H6 & H7 & H8 & H9).
    exists newp, newl. simpl in *. split_and!; try done; lia. }
  destruct (dated o).
  2:{ destruct (IH d {| nuevos := nuevos n; duplicados := duplicados n;
                        sin_fecha := sin_fecha n + 1 |})
        as (newp & newl & H1 & H2 & H3 & H4 & H5 & H6 & H7 & H8 & H9).
      exists newp, newl. simpl in *. split_and!; try done; lia. }
  destruct (insert_order_spec clock d o)
    as (p & newl0 & Hp & Hl & Hso & Hfresh & _ & _ & Hc & Hpc).
  destruct (IH (insert_order_rows clock d o)
              {| nuevos := nuevos n + 1; duplicados := duplicados n;
                 sin_fecha := sin_fecha n |})
    as (newp & newl & H1 & H2 & H3 & H4 & H5 & H6 & H7 & H8 & H9).
  exists (p :: newp), (newl0 ++ newl). simpl in *.
  split_and!; try congruence; try lia.
  - by rewrite H1, Hp, <- app_assoc.
  - by rewrite H2, Hl, <- app_assoc.
  - constructor; [split; [apply Hso|done]|].
    eapply Forall_impl; [exact H9|]. intros p' [Hs Hn]. split; [done|].
    intros Hin. apply Hn. rewrite Hp, map_app. apply elem_of_app. by left.
Qed.

(** X8. A successful upload only appends: the orders and lines that
    were stored stay as they were and where they were, the categories
    and the product mapping are untouched, the new order rows are as
    many as the answer's [nuevos], all pending and under ids no stored
    order has, and the three counters add up to [total]. *)
Theorem upload_csv_only_appends (clock : Z -> string) (filename : string)
    (rows : list Row) (d d' : db) (r : upload_result) :
  upload_csv clock filename rows d = Ok (d', r) ->
  r_success r = true /\
  r_nuevos r + r_duplicados r + r_sin_fecha r = r_total r /\
  0 <= r_nuevos r /\ 0 <= r_duplicados r /\ 0 <= r_sin_fecha r /\
  categorias d' = categorias d /\
  producto_categoria d' = producto_categoria d /\
  exists newp newl,
    pedidos d' = pedidos d ++ newp /\
    lineas_pedido d' = lineas_pedido d ++ newl /\
    Z.of_nat (length newp) = r_nuevos r /\
    Forall (fun p => p_status p = pendiente /\ (p_id p ∉ map p_id (pedidos d))) newp.
Proof.
  unfold upload_csv. destruct (endswith _ _); simpl; [|done].
  destruct (parse_shopify_csv rows) as [orders|]; simpl; [|done].
  unfold ingest.
  destruct (ingest_appends clock orders d {| nuevos := 0; duplicados := 0; sin_fecha := 0 |})
    as (newp & newl & H1 & H2 & H3 & H4 & H5 & H6 & H7 & H8 & H9).
  destruct (ingest_from _ _ _) as [[d1 n1]|] eqn:E; simpl; [|done].
  apply ingest_from_ok in E. rewrite E in *.
  intros [= <- <-]. simpl in *.
  split_and!; try done; try lia.
  exists newp, newl. split_and!; (done || lia).
Qed.

(** X9. Round trip of the upload: in a store that keeps its invariant,
    every candidate order of the file that has a delivery date and
    whose number was not stored is afterwards stored as a pending order
    with its scalar fields and, as its lines, its items, one line each
    and in order; its total and the prices of its items are what a REAL
    column keeps of them (NULL for a NaN). The picking manifest of its
    date returns it with exactly these lines. *)
Theorem accepted_order_is_stored (clock : Z -> string) (filename : string)
    (rows : list Row) (d d' : db) (r : upload_result) (orders : list order)
    (o : order) (fecha : string) :
  store_inv d ->
  upload_csv clock filename rows d = Ok (d', r) ->
  parse_shopify_csv rows = Ok orders ->
  o ∈ orders -> o_fecha_entrega o = Some fecha -> fecha <> "" -> stored d o = false ->
  exists p,
    holds d' o p /\
    (p, lineas_of d' (p_id p)) ∈ picking_manifest fecha d'.
Proof.
  intros Hinv Hup Hparse Ho Hfecha Hne Hst.
  assert (Hd : dated o = true).
  { unfold dated. rewrite Hfecha. simpl. by apply negb_true_iff, eqb_false. }
  unfold upload_csv in Hup. destruct (endswith _ _); simpl in Hup; [|done].
  rewrite Hparse in Hup. simpl in Hup. unfold ingest in Hup.
  destruct (ingest_holds_new clock orders d {| nuevos := 0; duplicados := 0; sin_fecha := 0 |}
              o (parse_numbers_NoDup _ _ Hparse) Hinv Ho Hd Hst) as (p & Hp).
  destruct (ingest_from _ _ _) as [[d1 n1]|] eqn:E; simpl in Hup; [|done].
  apply ingest_from_ok in E. rewrite E in Hp.
  injection Hup as <- <-. simpl in Hp.
  exists p. split; [done|]. destruct Hp as (Hin & Hso & _).
  unfold picking_manifest, get_pedidos.
  apply list_elem_of_fmap. exists p. split; [done|].
  apply elem_of_sort_by, elem_of_lfilter. split; [done|].
  destruct Hso as (_ & _ & _ & Hf & _ & _ & _ & _ & _ & Hs).
  cbn. rewrite Hf, Hfecha, Hs. cbn.
  assert (String.eqb fecha "" = false) as -> by by apply eqb_false.
  cbn. by rewrite !String.eqb_refl.
Qed.

End GateMore.

Section Lifecycle.
Context {PT : PyTypes} {RT : PyRuntime}.

(** ** What every operation keeps *)

Lemma store_inv_same_orders (d d' : db) :
  pedidos d' = pedidos d -> lineas_pedido d' = lineas_pedido d ->
  store_inv d -> store_inv d'.
Proof. intros Hp Hl [H1 H2 H3]. split; rewrite ?Hp, ?Hl; done. Qed.

Lemma store_inv_completar (pedido_id : Z) (d : db) :
  store_inv d -> store_inv (update_completado pedido_id d).
Proof.
  intros [H1 H2 H3]. split; simpl.
  - intros p (p0 & -> & Hp0)%list_elem_of_fmap.
    destruct (p_id p0 =? pedido_id); simpl; by apply H1.
  - intros p (p0 & -> & Hp0)%list_elem_of_fmap.
    destruct (p_id p0 =? pedido_id); simpl; [by right|by apply H2].
  - intros l Hl. rewrite map_set_status by done. by apply H3.
Qed.

Lemma store_inv_eliminar (pedido_id : Z) (d : db) :
  store_inv d -> store_inv (delete_pedido pedido_id (delete_lineas pedido_id d)).
Proof.
  intros [H1 H2 H3]. split; simpl.
  - intros p [Hp _]%elem_of_lfilter. by apply H1.
  - intros p [Hp _]%elem_of_lfilter. by apply H2.
  - intros l [Hl Hne]%elem_of_lfilter.
    destruct (proj1 (list_elem_of_fmap _ _ _) (H3 l Hl)) as (p & Hid & Hp).
    apply list_elem_of_fmap. exists p. split; [done|].
    apply elem_of_lfilter. split; [done|]. by rewrite <- Hid.
Qed.

Lemma init_db_orders (d : db) :
  pedidos (init_db d) = pedidos d /\ lineas_pedido (init_db d) = lineas_pedido d.
Proof.
  unfold init_db. by destruct (init_fold_cats categorias_default d) as (_ & _ & _ & ? & ?).
Qed.

Lemma create_categoria_orders (nombre : string) (d d' : db) (id : Z) :
  create_categoria nombre d = Ok (d', id) ->
  pedidos d' = pedidos d /\ lineas_pedido d' = lineas_pedido d.
Proof.
  unfold create_categoria. destruct (existsb _ _); [done|]. by intros [= <- <-].
Qed.

Lemma upload_csv_new_orders (clock : Z -> string) (filename : string)
    (rows : list Row) (d d' : db) (r : upload_result) :
  upload_csv clock filename rows d = Ok (d', r) ->
  exists newp,
    pedidos d' = pedidos d ++ newp /\
    Forall (fun p => p_id p ∉ map p_id (pedidos d)) newp.
Proof.
  unfold upload_csv. destruct (endswith _ _); simpl; [|done].
  destruct (parse_shopify_csv rows) as [orders|]; simpl; [|done].
  unfold ingest.
  destruct (ingest_appends clock orders d {| nuevos := 0; duplicados := 0; sin_fecha := 0 |})
    as (newp & newl & H1 & _ & _ & _ & _ & _ & _ & _ & H9).
  destruct (ingest_from _ _ _) as [[d1 n1]|] eqn:E; simpl; [|done].
  apply ingest_from_ok in E. rewrite E in *.
  intros [= <- <-]. simpl in *.
  exists newp. split; [done|]. eapply Forall_impl; [exact H9|]. by intros p [_ ?].
Qed.

Lemma store_inv_step (d d' : db) : step d d' -> store_inv d -> store_inv d'.
Proof.
  intros Hstep Hinv.
  destruct Hstep as [d|clock f rows d d' r Hup|n d d' id Hc|p c d d' Ha
                    |id d d' r Hc|id d d' r He].
  - destruct (init_db_orders d) as [Hp Hl].
    by apply (store_inv_same_orders d).
  - unfold upload_csv in Hup. destruct (endswith _ _); simpl in Hup; [|done].
    destruct (parse_shopify_csv rows) as [orders|]; simpl in Hup; [|done].
    destruct (ingest clock d orders) as [[d1 n1]|] eqn:E; simpl in Hup; [|done].
    injection Hup as <- <-. apply ingest_from_ok in E.
    replace d1 with (fst (fold_left (ingest_step_rows clock) orders
                            (d, {| nuevos := 0; duplicados := 0; sin_fecha := 0 |})))
      by by rewrite E.
    by apply ingest_store_inv.
  - destruct (create_categoria_orders _ _ _ _ Hc) as [Hp Hl].
    by apply (store_inv_same_orders d).
  - apply asignar_categoria_ok in Ha as [_ ->]. by apply (store_inv_same_orders d).
  - apply completar_pedido_ok in Hc as (_ & -> & _). by apply store_inv_completar.
  - apply eliminar_pedido_ok in He as (_ & -> & _). by apply store_inv_eliminar.
Qed.

Lemma schema_ok_step (d d' : db) : step d d' -> schema_ok d -> schema_ok d'.
Proof.
  intros Hstep Hok.
  destruct Hstep as [d|clock f rows d d' r Hup|n d d' id Hc|p c d d' Ha
                    |id d d' r Hc|id d d' r He].
  - by apply schema_ok_init_db.
  - by eapply schema_ok_upload_csv.
  - by eapply schema_ok_create_categoria.
  - apply asignar_categoria_ok in Ha as [_ ->]. by apply schema_ok_replace.
  - apply completar_pedido_ok in Hc as (_ & -> & _). by apply schema_ok_completar.
  - apply eliminar_pedido_ok in He as (_ & -> & _). by apply schema_ok_eliminar.
Qed.

(** *** The row ids of the lines and of the product mapping *)

Lemma insert_lineas_ids (pedido_id : Z) (items : list item) (seq : Z)
    (lineas : list linea) :
  NoDup (map l_id lineas) ->
  NoDup (map l_id (snd (insert_lineas_rows pedido_id items seq lineas))).
Proof.
  revert seq lineas. induction items as [|it items IH]; intros seq lineas Hnd; simpl;
    [done|].
  apply IH. rewrite map_app. simpl. apply NoDup_snoc; [done|]. apply next_rowid_fresh.
Qed.

Lemma ingest_ids (clock : Z -> string) (orders : list order) (d : db) (n : counts) :
  NoDup (map l_id (lineas_pedido d)) ->
  NoDup (map l_id (lineas_pedido (fst (fold_left (ingest_step_rows clock) orders (d, n))))).
Proof.
  revert d n. induction orders as [|o orders IH]; intros d n Hnd; [done|].
  cbn [fold_left]. rewrite ingest_step_cases.
  destruct (stored d o); [by apply IH|].
  destruct (dated o); [|by apply IH].
  apply IH. simpl. by apply insert_lineas_ids.
Qed.

Lemma rowids_step (d d' : db) :
  step d d' ->
  NoDup (map pc_id (producto_categoria d)) /\ NoDup (map l_id (lineas_pedido d)) ->
  NoDup (map pc_id (producto_categoria d')) /\ NoDup (map l_id (lineas_pedido d')).
Proof.
  intros Hstep [Hpc Hl].
  destruct Hstep as [d|clock f rows d d' r Hup|n d d' id Hc|p c d d' Ha
                    |id d d' r Hc|id d d' r He].
  - unfold init_db.
    destruct (init_fold_cats categorias_default d) as (_ & _ & -> & _ & -> & _). done.
  - unfold upload_csv in Hup. destruct (endswith _ _); simpl in Hup; [|done].
    destruct (parse_shopify_csv rows) as [orders|]; simpl in Hup; [|done].
    destruct (ingest clock d orders) as [[d1 n1]|] eqn:E; simpl in Hup; [|done].
    injection Hup as <- <-. apply ingest_from_ok in E.
    set (n0 := {| nuevos := 0; duplicados := 0; sin_fecha := 0 |}) in *.
    destruct (ingest_appends clock orders d n0) as (_ & _ & _ & _ & _ & H4 & _).
    pose proof (ingest_ids clock orders d n0 Hl) as Hl'.
    rewrite E in H4, Hl'. simpl in *. by rewrite H4.
  - unfold create_categoria in Hc. destruct (existsb _ _); [done|].
    by injection Hc as <- <-.
  - apply asignar_categoria_ok in Ha as [_ ->]. split; [|done]. simpl.
    rewrite map_app. simpl. apply NoDup_snoc; [by apply NoDup_map_lfilter|].
    intros (pc & Hid & [Hin _]%elem_of_lfilter)%list_elem_of_fmap.
    apply (next_rowid_fresh (seq_producto_categoria d) (map pc_id (producto_categoria d))).
    rewrite Hid. apply list_elem_of_fmap. eauto.
  - by apply completar_pedido_ok in Hc as (_ & -> & _).
  - apply eliminar_pedido_ok in He as (_ & -> & _). split; [done|]. simpl.
    by apply NoDup_map_lfilter.
Qed.

(** X10. Every store the program can bring an empty database to, by
    any sequence of initialisations, uploads, category creations,
    product assignments, completions and deletions, meets the schema's
    key and uniqueness constraints: the row ids of each of the four
    tables are distinct, and so are the names of the categories, the
    products of the mapping and the order numbers. No operation ever
    attempts an insert the store would refuse. *)
Theorem reachable_stores_meet_the_schema (d : db) :
  reachable d ->
  schema_ok d /\
  NoDup (map pc_id (producto_categoria d)) /\
  NoDup (map l_id (lineas_pedido d)).
Proof.
  induction 1 as [|d d' _ [IH1 IH2] Hstep].
  - split; [apply schema_ok_empty|]. split; constructor.
  - split; [by apply (schema_ok_step d)|by apply (rowids_step d)].
Qed.

(** X11. In every store the program can reach, each order has a
    non-empty delivery date and is pending or completed, and each line
    belongs to an order that is stored: no order is stored without a
    date, and no line outlives or precedes its order. *)
Theorem reachable_stores_keep_the_invariant (d : db) : reachable d -> store_inv d.
Proof.
  induction 1 as [|d d' _ IH Hstep].
  - split; simpl; intros x Hx; by apply elem_of_nil in Hx.
  - by apply (store_inv_step d).
Qed.

Lemma set_status_same_status (p : pedido) :
  set_status (p_status p) p = p.
Proof. by destruct p. Qed.

(** X12. A completed order is never changed again: after any operation
    on a store that meets its schema, the order row under the id of a
    completed order, if there still is one, is that order, completed as
    before. Completion has no way back; only deletion removes it. *)
Theorem completed_order_is_final (d d' : db) (p p' : pedido) :
  step d d' -> schema_ok d ->
  p ∈ pedidos d -> p_status p = completado ->
  p' ∈ pedidos d' -> p_id p' = p_id p ->
  p' = p.
Proof.
  intros Hstep Hok Hp Hs Hp' Hid.
  assert (Hsame : forall q, q ∈ pedidos d -> p_id q = p_id p -> q = p).
  { intros q Hq Hqid. destruct Hok as [H1 _ _ _ _].
    clear -H1 Hp Hq Hqid. induction (pedidos d) as [|x l IH]; [by apply elem_of_nil in Hp|].
    simpl in H1. apply NoDup_cons in H1 as [Hx Hnd].
    apply elem_of_cons in Hp as [->|Hp]; apply elem_of_cons in Hq as [->|Hq];
      [done| | |by apply IH].
    - exfalso. apply Hx. rewrite <- Hqid. apply list_elem_of_fmap. eauto.
    - exfalso. apply Hx. rewrite Hqid. apply list_elem_of_fmap. eauto. }
  destruct Hstep as [d|clock f rows d d' r Hup|n d d' id Hc|q c d d' Ha
                    |id d d' r Hc|id d d' r He].
  - destruct (init_db_orders d) as [Hpd _].
    rewrite Hpd in Hp'. by apply Hsame.
  - destruct (upload_csv_new_orders _ _ _ _ _ _ Hup) as (newp & Hpd & Hnew).
    rewrite Hpd in Hp'. apply elem_of_app in Hp' as [Hp'|Hp']; [by apply Hsame|].
    rewrite Forall_forall in Hnew. exfalso. apply (Hnew p' Hp').
    rewrite Hid. apply list_elem_of_fmap. eauto.
  - destruct (create_categoria_orders _ _ _ _ Hc) as [Hpd _].
    rewrite Hpd in Hp'. by apply Hsame.
  - apply asignar_categoria_ok in Ha as [_ ->]. by apply Hsame.
  - apply completar_pedido_ok in Hc as (_ & -> & _).
    simpl in Hp'. apply list_elem_of_fmap in Hp' as (q & -> & Hq).
    destruct (p_id q =? id) eqn:E.
    + simpl in Hid. rewrite (Hsame q Hq Hid). rewrite <- Hs. apply set_status_same_status.
    + by apply Hsame.
  - apply eliminar_pedido_ok in He as (_ & -> & _).
    simpl in Hp'. apply elem_of_lfilter in Hp' as [Hq _]. by apply Hsame.
Qed.

(** ** Completing and deleting *)

Lemma find_map_same {A} (g : A -> bool) (f : A -> A) (l : list A) :
  (forall x, g (f x) = g x) -> List.find g (map f l) = f <$> List.find g l.
Proof.
  intros H. induction l as [|x l IH]; simpl; [done|].
  rewrite H. by destruct (g x).
Qed.

Lemma parent_pending_completar (pedido_id : Z) (d : db) (fecha : string) (l : linea) :
  parent_pending (update_completado pedido_id d) fecha l
  = parent_pending d fecha l && negb (l_pedido_id l =? pedido_id).
Proof.
  unfold parent_pending, parent. simpl.
  rewrite (find_map_same _ (fun p => if p_id p =? pedido_id
                                     then set_status completado p else p)).
  2:{ intros p. by destruct (p_id p =? pedido_id). }
  destruct (List.find _ (pedidos d)) as [p|] eqn:E; simpl; [|done].
  apply find_some in E as [_ Hid%Z.eqb_eq]. rewrite Hid.
  destruct (p_id p =? pedido_id); simpl.
  - rewrite andb_false_r. apply bool_decide_eq_false_2. by intros [_ ?].
  - by rewrite andb_true_r.
Qed.

(** X13. Completing an order (its id in the 64-bit range) takes it out
    of the work still to do: it is in no picking manifest afterwards,
    and every shopping list that is returned afterwards shows for a
    product the sum over the lines of the other pending orders of that
    date. Completing twice is completing once, and deleting a completed
    order leaves what deleting it at once leaves. *)
Theorem completar_takes_order_off_the_lists (pedido_id : Z) (d : db) :
  in_int64 pedido_id = true ->
  exists d',
    completar_pedido pedido_id d = Ok (d', true) /\
    completar_pedido pedido_id d' = Ok (d', true) /\
    eliminar_pedido pedido_id d' = eliminar_pedido pedido_id d /\
    (forall fecha pl,
       pl ∈ picking_manifest fecha d' -> p_id (fst pl) <> pedido_id) /\
    (schema_ok d ->
     forall fecha lista,
       get_lista_compras fecha d' = Ok lista ->
       forall producto,
         reported lista producto
         = summary
             (map l_cantidad
                (List.filter
                   (fun l => String.eqb (l_producto l) producto
                             && parent_pending d fecha l
                             && negb (l_pedido_id l =? pedido_id))
                   (lineas_pedido d)))).
Proof.
  intros Hid. exists (update_completado pedido_id d).
  rewrite !completar_pedido_eq, !eliminar_pedido_eq, Hid.
  split_and!; [done| | | |].
  - do 2 f_equal. unfold update_completado. simpl. f_equal.
    rewrite map_map. apply map_ext.
    intros p. destruct (p_id p =? pedido_id) eqn:E; simpl; by rewrite E.
  - do 2 f_equal. unfold delete_pedido, delete_lineas, update_completado. simpl. f_equal.
    induction (pedidos d) as [|p l IH]; simpl; [done|].
    destruct (p_id p =? pedido_id) eqn:E; simpl; rewrite E; simpl; by rewrite IH.
  - intros fecha pl. unfold picking_manifest, get_pedidos.
    intros (p & -> & Hp)%list_elem_of_fmap. simpl.
    apply elem_of_sort_by, elem_of_lfilter in Hp as [Hp Hsel]. simpl in Hp.
    apply list_elem_of_fmap in Hp as (q & -> & Hq).
    destruct (p_id q =? pedido_id) eqn:E; simpl in *; [|by apply Z.eqb_neq].
    cbn in Hsel. rewrite andb_false_r in Hsel. done.
  - intros Hok fecha lista ->%get_lista_compras_ok producto.
    rewrite lista_compras_totals by by apply schema_ok_completar.
    f_equal. unfold demand.
    change (lineas_pedido (update_completado pedido_id d)) with (lineas_pedido d).
    f_equal. apply lfilter_ext_in. intros l _.
    rewrite parent_pending_completar. by rewrite andb_assoc.
Qed.

Lemma StronglySorted_lfilter {A} (R : A -> A -> Prop) (f : A -> bool) (l : list A) :
  StronglySorted R l -> StronglySorted R (List.filter f l).
Proof.
  induction 1 as [|x l Hl IH Hx]; simpl; [constructor|].
  destruct (f x); [|done]. constructor; [done|].
  rewrite Forall_forall in *. intros y [Hy _]%elem_of_lfilter. by apply Hx.
Qed.

Lemma get_pedidos_sorted (fecha status : option string) (d : db) :
  StronglySorted (fun a b => pedido_leb a b = true)
                 (map fst (get_pedidos fecha status d)).
Proof.
  unfold get_pedidos. rewrite map_map. simpl. rewrite map_id.
  apply (sort_by_sorted pedido_compare proper_pedido_compare).
Qed.

Lemma pedido_leb_antisym (d : db) (p q : pedido) :
  schema_ok d -> p ∈ pedidos d -> q ∈ pedidos d ->
  pedido_leb p q = true -> pedido_leb q p = true -> p = q.
Proof.
  intros [_ H2 _ _ _] Hp Hq Hpq Hqp.
  assert (Hn : p_order_number p = p_order_number q).
  { unfold pedido_leb in *. destruct proper_pedido_compare as [O _ _].
    rewrite (O p q) in Hqp. unfold pedido_compare, lex in *.
    destruct (compare_opt_string _ _); [|done..].
    destruct (String.compare (p_order_number p) (p_order_number q)) eqn:E; [|done..].
    by apply String.compare_eq_iff. }
  clear Hpq Hqp. induction (pedidos d) as [|x l IH]; [by apply elem_of_nil in Hp|].
  simpl in H2. apply NoDup_cons in H2 as [Hx Hnd].
  apply elem_of_cons in Hp as [->|Hp]; apply elem_of_cons in Hq as [->|Hq];
    [done| | |by apply IH].
  - exfalso. apply Hx. rewrite Hn. apply list_elem_of_fmap. eauto.
  - exfalso. apply Hx. rewrite <- Hn. apply list_elem_of_fmap. eauto.
Qed.

Lemma lineas_of_eliminar (pedido_id id : Z) (d : db) :
  id <> pedido_id ->
  lineas_of (delete_pedido pedido_id (delete_lineas pedido_id d)) id = lineas_of d id.
Proof.
  intros Hne. unfold lineas_of. simpl. rewrite lfilter_lfilter.
  apply lfilter_ext_in. intros l _.
  destruct (l_pedido_id l =? id) eqn:E; [|done].
  apply Z.eqb_eq in E. simpl. apply negb_true_iff, Z.eqb_neq. congruence.
Qed.

(** X14. Deleting an order (its id in the 64-bit range) leaves every
    other order as it was: in a store that meets its schema, each
    order query returns afterwards what it returned before without the
    deleted order, the other orders in the same sequence and with the
    same lines. Deleting twice is deleting once, and deleting an id
    that no order and no line has changes nothing. An id outside the
    range is refused with [OverflowError]. *)
Theorem eliminar_leaves_the_other_orders (pedido_id : Z) (d : db) :
  (in_int64 pedido_id = true ->
   exists d',
     eliminar_pedido pedido_id d = Ok (d', true) /\
     (schema_ok d ->
      forall fecha status,
        get_pedidos fecha status d'
        = List.filter (fun pl => negb (p_id (fst pl) =? pedido_id))
                      (get_pedidos fecha status d)) /\
     eliminar_pedido pedido_id d' = Ok (d', true) /\
     ((forall p, p ∈ pedidos d -> p_id p <> pedido_id) ->
      (forall l, l ∈ lineas_pedido d -> l_pedido_id l <> pedido_id) ->
      d' = d)) /\
  (in_int64 pedido_id = false ->
   eliminar_pedido pedido_id d = Raise OverflowError).
Proof.
  rewrite eliminar_pedido_eq. split; intros Hid; rewrite Hid; [|done].
  exists (delete_pedido pedido_id (delete_lineas pedido_id d)).
  rewrite eliminar_pedido_eq, Hid.
  split_and!; [done| | |].
  - intros Hok fecha status.
    set (d' := delete_pedido pedido_id (delete_lineas pedido_id d)).
    assert (Hfst : map fst (get_pedidos fecha status d')
                   = List.filter (fun p => negb (p_id p =? pedido_id))
                                 (map fst (get_pedidos fecha status d))).
    { apply (StronglySorted_unique_strong (fun a b => pedido_leb a b = true)).
      - intros p q Hp Hq. apply (pedido_leb_antisym d p q Hok).
        + apply list_elem_of_fmap in Hp as (pl & -> & Hpl).
          apply get_pedidos_from_store in Hpl as [Hpl _]. simpl in Hpl.
          by apply elem_of_lfilter in Hpl as [? _].
        + apply elem_of_lfilter in Hq as [Hq _].
          apply list_elem_of_fmap in Hq as (pl & -> & Hpl).
          by apply get_pedidos_from_store in Hpl as [Hpl _].
      - apply get_pedidos_sorted.
      - apply StronglySorted_lfilter, get_pedidos_sorted.
      - unfold get_pedidos. rewrite !map_map. simpl. rewrite !map_id.
        rewrite (lfilter_perm _ _ _ (sort_by_perm _ _)), sort_by_perm.
        subst d'. simpl. rewrite !lfilter_lfilter.
        erewrite lfilter_ext_in; [done|]. intros p _. simpl. apply andb_comm. }
    assert (Hshape : forall dd, get_pedidos fecha status dd
                       = map (fun p => (p, lineas_of dd (p_id p)))
                             (map fst (get_pedidos fecha status dd))).
    { intros dd. unfold get_pedidos. by rewrite !map_map. }
    rewrite (Hshape d'), Hfst. rewrite (Hshape d) at 2.
    generalize (map fst (get_pedidos fecha status d)). intros l.
    induction l as [|p l IH]; simpl; [done|].
    destruct (p_id p =? pedido_id) eqn:E; simpl; [done|].
    rewrite IH. f_equal. f_equal. subst d'. apply lineas_of_eliminar. by apply Z.eqb_neq.
  - do 2 f_equal. unfold delete_pedido, delete_lineas. simpl. f_equal.
    + rewrite lfilter_lfilter. apply lfilter_ext_in. intros p _. by destruct (negb _).
    + rewrite lfilter_lfilter. apply lfilter_ext_in. intros l _. by destruct (negb _).
  - intros Hp Hl. destruct d. unfold delete_pedido, delete_lineas. simpl in *. f_equal.
    + apply lfilter_all, Forall_forall. intros p Hin.
      apply negb_true_iff, Z.eqb_neq. by apply Hp.
    + apply lfilter_all, Forall_forall. intros l Hin.
      apply negb_true_iff, Z.eqb_neq. by apply Hl.
Qed.

End Lifecycle.

Section Listings.
Context {PT : PyTypes} {RT : PyRuntime}.

(** ** Order queries and the picking manifest *)

Lemma get_pedidos_selected (fecha status : option string) (d : db) :
  map fst (get_pedidos fecha status d)
  = sort_by pedido_leb (List.filter (selected fecha status) (pedidos d)).
Proof.
  unfold get_pedidos. rewrite map_map. simpl. rewrite map_id. f_equal.
  apply lfilter_ext_in. intros p _. unfold selected, passes.
  destruct fecha as [f|], status as [st|]; simpl;
    try destruct (String.eqb f ""); try destruct (String.eqb st ""); done.
Qed.

(** X15. [get_pedidos] returns every stored order that passes its
    filters exactly once, by delivery date and then order number, each
    with exactly the lines that carry its id, in line order; a filter
    that is absent or the empty text lets every order through. *)
Theorem get_pedidos_lists_the_selected_orders (fecha status : option string) (d : db) :
  Permutation (map fst (get_pedidos fecha status d))
              (List.filter (selected fecha status) (pedidos d)) /\
  StronglySorted (fun a b => pedido_leb a b = true)
                 (map fst (get_pedidos fecha status d)) /\
  Forall (fun pl => snd pl
                    = List.filter (fun l => l_pedido_id l =? p_id (fst pl))
                                  (lineas_pedido d))
         (get_pedidos fecha status d) /\
  get_pedidos (Some "") status d = get_pedidos None status d /\
  get_pedidos fecha (Some "") d = get_pedidos fecha None d.
Proof.
  split_and!.
  - rewrite get_pedidos_selected. apply sort_by_perm.
  - apply get_pedidos_sorted.
  - apply Forall_forall. intros pl [_ Hpl]%get_pedidos_from_store. by rewrite Hpl.
  - done.
  - done.
Qed.

Lemma lfilter_or_disjoint {A} (f g : A -> bool) (l : list A) :
  (forall x, f x = true -> g x = false) ->
  Permutation (List.filter (fun x => f x || g x) l)
              (List.filter f l ++ List.filter g l).
Proof.
  intros H. induction l as [|x l IH]; simpl; [done|].
  destruct (f x) eqn:Ef; simpl.
  - rewrite (H x Ef). by constructor.
  - destruct (g x); [|done]. rewrite IH. apply Permutation_middle.
Qed.

(** The lines of a set of orders with distinct ids, collected order by
    order, are the lines whose order is in the set. *)
Lemma lines_of_orders (ps : list pedido) (ls : list linea) :
  NoDup (map p_id ps) ->
  Permutation
    (flat_map (fun p => List.filter (fun l => l_pedido_id l =? p_id p) ls) ps)
    (List.filter (fun l => existsb (fun p => l_pedido_id l =? p_id p) ps) ls).
Proof.
  induction ps as [|p ps IH]; simpl; intros Hnd.
  - rewrite lfilter_none; [done|]. by apply Forall_forall.
  - apply NoDup_cons in Hnd as [Hp Hnd]. rewrite IH by done.
    rewrite lfilter_or_disjoint; [done|].
    intros l Hl%Z.eqb_eq. apply existsb_false_elem. intros q Hq.
    apply Z.eqb_neq. intros Heq. apply Hp. rewrite <- Hl, Heq.
    apply list_elem_of_fmap. eauto.
Qed.

Lemma existsb_selected_parent (d : db) (fecha : string) (l : linea) :
  schema_ok d -> fecha <> "" ->
  existsb (fun p => l_pedido_id l =? p_id p)
          (List.filter (selected (Some fecha) (Some pendiente)) (pedidos d))
  = parent_pending d fecha l.
Proof.
  intros [H1 _ _ _ _] Hne%eqb_false. unfold parent_pending, parent.
  assert (Hsel : forall p, selected (Some fecha) (Some pendiente) p
                           = bool_decide (due fecha p)).
  { intros p. rewrite <- where_due. unfold selected, passes. by rewrite Hne. }
  induction (pedidos d) as [|p ps IH]; simpl; [done|].
  simpl in H1. apply NoDup_cons in H1 as [Hp Hnd].
  destruct (l_pedido_id l =? p_id p) eqn:E.
  - rewrite <- Hsel. destruct (selected _ _ p) eqn:Es; simpl; [by rewrite E|].
    apply existsb_false_elem. intros q [Hq _]%elem_of_lfilter.
    apply Z.eqb_neq. intros Heq. apply Hp. apply Z.eqb_eq in E. rewrite <- E, Heq.
    apply list_elem_of_fmap. eauto.
  - destruct (selected _ _ p); simpl; rewrite ?E; by apply IH.
Qed.

(** X16. What is bought is what is picked: in a store that meets its
    schema, for every date whose shopping list is returned and every
    product, the quantity the shopping list shows is the sum of the
    quantities the picking manifest of that date lists for the product
    over all its orders, and the product is absent from the one exactly
    when it is absent from the other. *)
Theorem shopping_list_matches_picking_manifest (d : db) (fecha : string)
    (lista : list (string * list entrada)) :
  schema_ok d -> fecha <> "" ->
  get_lista_compras fecha d = Ok lista ->
  forall producto,
    reported lista producto = summary (manifest_qty d fecha producto).
Proof.
  intros Hok Hne ->%get_lista_compras_ok producto.
  rewrite lista_compras_totals by done. apply summary_perm.
  unfold demand, manifest_qty. apply Permutation_map.
  assert (Hflat : flat_map snd (picking_manifest fecha d)
                  = flat_map (fun p => List.filter (fun l => l_pedido_id l =? p_id p)
                                                   (lineas_pedido d))
                      (map fst (picking_manifest fecha d))).
  { assert (H : forall pl, pl ∈ picking_manifest fecha d ->
                           snd pl = lineas_of d (p_id (fst pl))).
    { intros pl Hpl. by apply get_pedidos_from_store in Hpl as [_ ?]. }
    induction (picking_manifest fecha d) as [|pl l IH]; simpl; [done|].
    rewrite IH by (intros x Hx; apply H; by apply list_elem_of_further).
    by rewrite (H pl) by apply list_elem_of_here. }
  rewrite Hflat. unfold picking_manifest. rewrite get_pedidos_selected.
  assert (Hperm : Permutation
            (flat_map (fun p => List.filter (fun l => l_pedido_id l =? p_id p)
                                            (lineas_pedido d))
               (sort_by pedido_leb
                  (List.filter (selected (Some fecha) (Some pendiente)) (pedidos d))))
            (List.filter (parent_pending d fecha) (lineas_pedido d))).
  { etrans.
    - apply Permutation_flat_map, sort_by_perm.
    - rewrite lines_of_orders.
      + erewrite lfilter_ext_in; [done|]. intros l _.
        by apply existsb_selected_parent.
      + apply NoDup_map_lfilter. apply Hok. }
  rewrite (lfilter_perm _ _ _ Hperm), lfilter_lfilter.
  erewrite lfilter_ext_in; [done|]. intros l _. simpl. done.
Qed.

(** ** Pending dates and the home page figures *)

Lemma opt_eqb_true (a b : option string) : opt_eqb a b = true <-> a = b.
Proof.
  destruct a as [x|], b as [y|]; simpl; try done.
  rewrite eqb_true. split; congruence.
Qed.

Lemma opt_eqb_refl (a : option string) : opt_eqb a a = true.
Proof. by apply opt_eqb_true. Qed.

Lemma count_of_count_add (q k : option string) (gs : list (option string * Z)) :
  count_of q (count_add k gs)
  = if opt_eqb k q then
      match count_of q gs with
      | [] => [1]
      | t :: rest => (t + 1) :: rest
      end
    else count_of q gs.
Proof.
  unfold count_of. induction gs as [|[k' n] gs IH]; simpl.
  - by destruct (opt_eqb k q).
  - destruct (opt_eqb k' k) eqn:E; simpl.
    + apply opt_eqb_true in E as ->. by destruct (opt_eqb k q).
    + destruct (opt_eqb k' q) eqn:E'; simpl.
      * apply opt_eqb_true in E' as ->. rewrite IH.
        destruct (opt_eqb k q) eqn:E''; [|done].
        apply opt_eqb_true in E'' as ->. by rewrite opt_eqb_refl in E.
      * apply IH.
Qed.

Lemma count_of_groups (q : option string) (ps : list pedido) :
  count_of q (fold_left (fun gs p => count_add (p_fecha_entrega p) gs) ps [])
  = nz (length (List.filter (fun p => opt_eqb (p_fecha_entrega p) q) ps)).
Proof.
  induction ps as [|p ps IH] using rev_ind; [done|].
  rewrite fold_left_snoc, count_of_count_add, IH, lfilter_app, length_app. simpl.
  destruct (opt_eqb (p_fecha_entrega p) q); simpl.
  - rewrite Nat.add_1_r.
    destruct (length _) as [|n]; simpl; [done|]. f_equal. lia.
  - by rewrite Nat.add_0_r.
Qed.

Lemma sum_count_add (k : option string) (gs : list (option string * Z)) :
  sumZ (map snd (count_add k gs)) = sumZ (map snd gs) + 1.
Proof.
  induction gs as [|[k' n] gs IH]; simpl; [done|].
  destruct (opt_eqb k' k); simpl; lia.
Qed.

Lemma sum_groups (ps : list pedido) :
  sumZ (map snd (fold_left (fun gs p => count_add (p_fecha_entrega p) gs) ps []))
  = Z.of_nat (length ps).
Proof.
  induction ps as [|p ps IH] using rev_ind; [done|].
  rewrite fold_left_snoc, sum_count_add, IH, length_app. simpl. lia.
Qed.

Lemma NoDup_keys_of_short_filters {A} (l : list (option string * A)) :
  (forall q, (length (List.filter (fun g => opt_eqb (fst g) q) l) <= 1)%nat) ->
  NoDup (map fst l).
Proof.
  induction l as [|x l IH]; intros H; simpl; [constructor|].
  apply NoDup_cons. split.
  - intros (y & Hy & Hin)%list_elem_of_fmap.
    specialize (H (fst x)). simpl in H. rewrite opt_eqb_refl in H. simpl in H.
    assert (y ∈ List.filter (fun g => opt_eqb (fst g) (fst x)) l) as Hy'.
    { apply elem_of_lfilter. split; [done|]. by apply opt_eqb_true. }
    destruct (List.filter _ l); [by apply elem_of_nil in Hy'|simpl in H; lia].
  - apply IH. intros q. specialize (H q). simpl in H.
    destruct (opt_eqb (fst x) q); simpl in H; lia.
Qed.

Lemma grupos_fecha_NoDup (ps : list pedido) :
  NoDup (map fst (fold_left (fun gs p => count_add (p_fecha_entrega p) gs) ps [])).
Proof.
  apply NoDup_keys_of_short_filters. intros q.
  pose proof (count_of_groups q ps) as H. unfold count_of in H.
  apply (f_equal length) in H. rewrite length_map in H. rewrite H.
  destruct (length (List.filter _ ps)); simpl; lia.
Qed.

Lemma fechas_pendientes_NoDup (d : db) : NoDup (map fst (get_fechas_pendientes d)).
Proof.
  unfold get_fechas_pendientes.
  rewrite (Permutation_map fst (sort_by_perm fecha_leb _)).
  apply grupos_fecha_NoDup.
Qed.

Lemma pendientes_de_filter (d : db) (k : option string) :
  pendientes_de d k
  = Z.of_nat (length (List.filter (fun p => opt_eqb (p_fecha_entrega p) k)
                                  (List.filter is_pendiente (pedidos d)))).
Proof.
  unfold pendientes_de. rewrite lfilter_lfilter. do 2 f_equal.
  apply lfilter_ext_in. intros p _. apply andb_comm.
Qed.

Lemma fechas_pendientes_member (d : db) (k : option string) (n : Z) :
  (k, n) ∈ get_fechas_pendientes d <-> 0 < n /\ n = pendientes_de d k.
Proof.
  unfold get_fechas_pendientes. rewrite elem_of_sort_by, pendientes_de_filter.
  set (ps := List.filter is_pendiente (pedidos d)).
  set (G := fold_left _ ps []).
  pose proof (count_of_groups k ps) as Hc. fold G in Hc.
  pose proof (grupos_fecha_NoDup ps) as Hnd. fold G in Hnd.
  split.
  - intros Hin.
    assert (count_of k G = [n]) as Hone.
    { unfold count_of.
      rewrite (lfilter_unique fst)
        by (done || intros x y ?%opt_eqb_true ?%opt_eqb_true; congruence).
      assert (List.find (fun g => opt_eqb (fst g) k) G = Some (k, n)) as ->; [|done].
      clear Hc. induction G as [|g G IH]; [by apply elem_of_nil in Hin|].
      simpl in Hnd. apply NoDup_cons in Hnd as [Hg Hnd]. simpl.
      apply elem_of_cons in Hin as [<-|Hin]; [by rewrite opt_eqb_refl|].
      destruct (opt_eqb (fst g) k) eqn:E; [|by apply IH].
      apply opt_eqb_true in E. exfalso. apply Hg. rewrite E.
      apply list_elem_of_fmap. by exists (k, n). }
    rewrite Hone in Hc. destruct (length _) as [|m]; simpl in Hc; [done|].
    injection Hc as ->. split; lia.
  - intros [Hpos ->]. destruct (length _) as [|m] eqn:El; [simpl in Hpos; lia|].
    simpl in Hc. unfold count_of in Hc.
    destruct (List.filter _ G) as [|[k' n'] rest] eqn:E; [done|].
    assert ((k', n') ∈ List.filter (fun g => opt_eqb (fst g) k) G) as Hin
      by (rewrite E; apply list_elem_of_here).
    apply elem_of_lfilter in Hin as [Hin Hk%opt_eqb_true]. simpl in Hk. subst k'.
    simpl in Hc. injection Hc as -> _. done.
Qed.

Lemma StronglySorted_strict_keys {A} (l : list (option string * A)) :
  NoDup (map fst l) ->
  StronglySorted (fun a b => not_gt (compare_opt_string (fst a) (fst b)) = true) l ->
  StronglySorted (fun a b => compare_opt_string (fst a) (fst b) = Lt) l.
Proof.
  intros Hnd Hs. induction Hs as [|x l Hs IH Hx]; [constructor|].
  simpl in Hnd. apply NoDup_cons in Hnd as [Hfx Hnd].
  constructor; [by apply IH|].
  rewrite Forall_forall in *. intros y Hy. specialize (Hx y Hy).
  destruct (compare_opt_string (fst x) (fst y)) eqn:E; [|done..].
  exfalso. apply Hfx.
  assert (fst x = fst y) as ->.
  { destruct (fst x) as [a|], (fst y) as [b|]; simpl in E; try done.
    by apply String.compare_eq_iff in E as ->. }
  apply list_elem_of_fmap. eauto.
Qed.

Lemma picking_manifest_length (d : db) (fecha : string) :
  fecha <> "" ->
  Z.of_nat (length (picking_manifest fecha d)) = pendientes_de d (Some fecha).
Proof.
  intros Hne%eqb_false. unfold pendientes_de, picking_manifest.
  rewrite <- (length_map fst (get_pedidos (Some fecha) (Some pendiente) d)).
  rewrite get_pedidos_selected, (Permutation_length (sort_by_perm _ _)).
  do 2 f_equal. apply lfilter_ext_in. intros p _.
  unfold selected, passes, is_pendiente. rewrite Hne. cbn.
  destruct (p_fecha_entrega p) as [f|]; simpl;
    destruct (String.eqb (p_status p) pendiente); simpl; try done;
    by destruct (String.eqb f fecha).
Qed.

Lemma fechas_pendientes_sum (d : db) :
  sumZ (map snd (get_fechas_pendientes d))
  = Z.of_nat (length (List.filter is_pendiente (pedidos d))).
Proof.
  unfold get_fechas_pendientes.
  rewrite (sumZ_perm _ _ (Permutation_map snd (sort_by_perm fecha_leb _))).
  apply sum_groups.
Qed.

(** X17. [get_fechas_pendientes] lists each delivery date that has
    pending orders once, in ascending order, with the number of pending
    orders of that date, which is the number of orders the picking
    manifest of the date returns; the numbers add up to the count of
    pending orders. *)
Theorem fechas_pendientes_count_the_pending (d : db) :
  StronglySorted (fun a b => compare_opt_string (fst a) (fst b) = Lt)
                 (get_fechas_pendientes d) /\
  (forall k n, (k, n) ∈ get_fechas_pendientes d <-> 0 < n /\ n = pendientes_de d k) /\
  (forall fecha n,
     fecha <> "" -> (Some fecha, n) ∈ get_fechas_pendientes d ->
     n = Z.of_nat (length (picking_manifest fecha d))) /\
  sumZ (map snd (get_fechas_pendientes d))
  = Z.of_nat (length (List.filter is_pendiente (pedidos d))).
Proof.
  split_and!.
  - apply StronglySorted_strict_keys; [apply fechas_pendientes_NoDup|].
    unfold get_fechas_pendientes.
    apply (sort_by_sorted (on fst compare_opt_string)
             (proper_on fst _ proper_compare_opt_string)).
  - apply fechas_pendientes_member.
  - intros fecha n Hne [_ ->]%fechas_pendientes_member.
    by rewrite picking_manifest_length.
  - apply fechas_pendientes_sum.
Qed.

Lemma non_null_elem (l : list (option string)) (s : string) :
  s ∈ non_null l <-> Some s ∈ l.
Proof.
  unfold non_null. rewrite elem_of_flat_map. split.
  - intros ([x|] & Hin & Hs); [|by apply elem_of_nil in Hs].
    by apply list_elem_of_singleton in Hs as ->.
  - intros Hin. exists (Some s). split; [done|apply list_elem_of_here].
Qed.

Lemma non_null_NoDup (l : list (option string)) : NoDup l -> NoDup (non_null l).
Proof.
  induction 1 as [|x l Hx Hl IH]; simpl; [constructor|].
  destruct x as [s|]; simpl; [|done]. constructor; [|done].
  by rewrite non_null_elem.
Qed.

Lemma has_date_length {A} (l : list (option string * A)) :
  length (List.filter (fun g => match fst g with Some _ => true | None => false end) l)
  = length (non_null (map fst l)).
Proof.
  induction l as [|[[s|] n] l IH]; simpl; [done| |done]. by rewrite IH.
Qed.

(** X18. The figures of the home page agree with the listings: the
    number of pending orders is the total of [get_fechas_pendientes];
    the number of pending dates is the number of its entries that have
    a date (all of them, in a store that keeps its invariant); the
    number of orders for today is the length of today's picking
    manifest, and at most the number of pending orders; the number of
    products without category is the length of
    [get_productos_sin_categoria]. *)
Theorem home_figures_agree_with_listings (hoy : string) (d : db) :
  pedidos_pendientes (home hoy d) = sumZ (map snd (get_fechas_pendientes d)) /\
  fechas_pendientes (home hoy d)
  = Z.of_nat (length (List.filter has_date (get_fechas_pendientes d))) /\
  (store_inv d ->
   fechas_pendientes (home hoy d) = Z.of_nat (length (get_fechas_pendientes d))) /\
  (hoy <> "" -> pedidos_hoy (home hoy d) = Z.of_nat (length (picking_manifest hoy d))) /\
  pedidos_hoy (home hoy d) <= pedidos_pendientes (home hoy d) /\
  productos_sin_categoria (home hoy d)
  = Z.of_nat (length (get_productos_sin_categoria d)).
Proof.
  assert (Hfechas : fechas_pendientes (home hoy d)
                    = Z.of_nat (length (List.filter has_date (get_fechas_pendientes d)))).
  { unfold home, has_date. simpl. f_equal. rewrite has_date_length.
    apply Permutation_length, NoDup_Permutation.
    - apply NoDup_distinct.
    - apply non_null_NoDup, fechas_pendientes_NoDup.
    - intros s. rewrite elem_of_distinct, !non_null_elem.
      rewrite !list_elem_of_fmap. split.
      + intros (p & Hs & [Hp Hpend]%elem_of_lfilter).
        exists (Some s, pendientes_de d (Some s)). split; [done|].
        apply fechas_pendientes_member. split; [|done].
        unfold pendientes_de.
        assert (p ∈ List.filter (fun p => is_pendiente p
                                          && opt_eqb (p_fecha_entrega p) (Some s))
                                (pedidos d)) as Hin.
        { apply elem_of_lfilter. split; [done|]. rewrite Hpend, <- Hs.
          apply opt_eqb_refl. }
        destruct (List.filter _ _); [by apply elem_of_nil in Hin|simpl; lia].
      + intros ([k n] & Hs & [Hpos Hn]%fechas_pendientes_member). simpl in Hs. subst k.
        unfold pendientes_de in Hn.
        destruct (List.filter _ (pedidos d)) as [|p rest] eqn:E; [simpl in Hn; lia|].
        assert (p ∈ List.filter (fun p => is_pendiente p
                                          && opt_eqb (p_fecha_entrega p) (Some s))
                                (pedidos d)) as [Hp [Hpend Hk%opt_eqb_true]%andb_true_iff
                                                ]%elem_of_lfilter
          by (rewrite E; apply list_elem_of_here).
        exists p. split; [done|]. by apply elem_of_lfilter. }
  split_and!.
  - by rewrite fechas_pendientes_sum.
  - done.
  - intros [Hdated _ _]. rewrite Hfechas. do 2 f_equal.
    apply lfilter_all, Forall_forall. intros [k n] [Hpos Hn]%fechas_pendientes_member.
    unfold pendientes_de in Hn.
    destruct (List.filter _ (pedidos d)) as [|p rest] eqn:E; [simpl in Hn; lia|].
    assert (p ∈ List.filter (fun p => is_pendiente p && opt_eqb (p_fecha_entrega p) k)
                            (pedidos d)) as [Hp [_ Hk%opt_eqb_true]%andb_true_iff
                                            ]%elem_of_lfilter
      by (rewrite E; apply list_elem_of_here).
    specialize (Hdated p Hp). rewrite Hk in Hdated. unfold has_date. simpl.
    by destruct k.
  - intros Hne. rewrite picking_manifest_length by done.
    unfold home, pendientes_de. simpl. do 2 f_equal.
    apply lfilter_ext_in. intros p _. unfold is_pendiente.
    destruct (p_fecha_entrega p) as [f|]; simpl;
      destruct (String.eqb (p_status p) pendiente); simpl; try done;
      by destruct (String.eqb f hoy).
  - unfold home. simpl. apply inj_le.
    rewrite <- (lfilter_lfilter (fun p => sql_eq_opt (p_fecha_entrega p) hoy)
                  is_pendiente (pedidos d)).
    apply filter_length_le.
  - unfold home, get_productos_sin_categoria. simpl. f_equal.
    symmetry. apply Permutation_length, sort_by_perm.
Qed.

End Listings.

(** * Worked cases *)

Section Worked.
Import RefRuntime Ejemplo.

Local Ltac by_computation := vm_compute; reflexivity.

Lemma schema_ok_computed (d : db) :
  bool_decide (NoDup (map p_id (pedidos d))) = true ->
  bool_decide (NoDup (map p_order_number (pedidos d))) = true ->
  bool_decide (NoDup (map c_id (categorias d))) = true ->
  bool_decide (NoDup (map c_nombre (categorias d))) = true ->
  bool_decide (NoDup (map pc_producto (producto_categoria d))) = true ->
  schema_ok d.
Proof. intros ?%bool_decide_eq_true ?%bool_decide_eq_true ?%bool_decide_eq_true
         ?%bool_decide_eq_true ?%bool_decide_eq_true. by split. Defined.

Local Ltac schema_by_computation := apply schema_ok_computed; vm_compute; reflexivity.

Lemma below_sentinel_computed (d : db) :
  forallb (fun c => (c_orden c <? 999) && negb (String.eqb (c_nombre c) sin_categoria))
          (categorias d) = true ->
  categorias_below_sentinel d.
Proof.
  intros H c Hc%list_elem_of_In. rewrite forallb_forall in H.
  apply H, andb_true_iff in Hc as [H1%Z.ltb_lt H2%negb_true_iff%eqb_false]. done.
Defined.


(** The two scenarios of the specification. *)
Example scenario_1001 :
  upload_csv clock0 "pedidos.csv" [fila_1001a; fila_1001b] empty_db
  = Ok (empty_db,
        {| r_success := true; r_nuevos := 0; r_duplicados := 0;
           r_sin_fecha := 1; r_total := 1 |}).
Proof. by_computation. Qed.

Example scenario_2002 :
  get_lista_compras "2024-05-10"
    (store_of (upload_csv clock0 "pedidos.csv" [fila_2002] db0))
  = Ok [("Sin Categoría", [{| e_producto := "Leche"; e_cantidad := 1 |}])] /\
  get_lista_compras "2024-05-10"
    (store_of (upload_csv clock0 "pedidos.csv" [fila_2002]
                 (db_of (asignar_categoria "Leche" 5 db0))))
  = Ok [("Lácteos", [{| e_producto := "Leche"; e_cantidad := 1 |}])].
Proof. split; by_computation. Qed.

(** C1, as stated, fails: the dateless order #1001 is rejected again on
    the second pass, not counted as a duplicate. *)
Lemma reingest_duplicate_is_not_total :
  upload_csv clock0 "pedidos.csv" filas_a db0 = Ok (db_a, res_a) /\
  upload_csv clock0 "pedidos.csv" filas_a db_a
  = Ok (db_a, {| r_success := true; r_nuevos := 0; r_duplicados := 1;
                 r_sin_fecha := 1; r_total := 2 |}).
Proof. split; by_computation. Qed.

Lemma reingest_accepts_nothing_witness :
  upload_csv clock0 "pedidos.csv" filas_a db0 = Ok (db_a, res_a) /\
  exists r2,
    upload_csv clock0 "pedidos.csv" filas_a db_a = Ok (db_a, r2) /\
    r_nuevos r2 = 0 /\
    r_total r2 = r_total res_a /\
    r_sin_fecha r2 = r_sin_fecha res_a /\
    r_duplicados r2 = r_total r2 - r_sin_fecha r2 /\
    r_duplicados r2 = r_nuevos res_a + r_duplicados res_a /\
    (forall orders, parse_shopify_csv filas_a = Ok orders ->
       forallb dated orders = true -> r_duplicados r2 = r_total r2).
Proof.
  split; [by_computation|].
  apply (reingest_accepts_nothing clock0 clock0 "pedidos.csv" filas_a db0 db_a res_a).
  by_computation.
Defined.

(** C2. A file with one order whose total is not a number, followed by
    a well-formed order: the upload raises and stores nothing, whereas
    the well-formed order alone is accepted. *)
Theorem malformed_total_aborts_the_batch :
  upload_csv clock0 "pedidos.csv" [fila_3003; fila_2002] db0 = Raise ValueError /\
  r_nuevos (result_of (upload_csv clock0 "pedidos.csv" [fila_2002] db0)) = 1 /\
  parse_created_at fila_2002
  = Ok (Some {| year := 2024; month := 5; day := 1;
                hour := 10; minute := 0; second := 0 |}).
Proof. split_and!; by_computation. Qed.

(** C3 at its failing input: the total "abc" of #3003 does not become 0,
    the grouping of the file raises; the empty total of a first row
    does become 0, a total that is a number is that number, and the
    same "abc" in the second row of #1001 changes nothing. *)
Lemma numeric_fields_default_when_missing_or_empty_witness :
  (row_key fila_3003 = PyStr "#3003" /\
   fila_3003 !! "Total" = Some (Some "abc") /\
   float_of_str "abc" = None /\
   parse_shopify_csv ([] ++ fila_3003 :: [fila_2002]) = Raise ValueError) /\
  (blank fila_1001b "Total" /\ row_total fila_1001b = Ok (float_of_Z 0)) /\
  (parse_shopify_csv filas_a = Ok pedidos_a /\
   pedido_1001 ∈ pedidos_a /\
   (exists r, first_row "#1001" filas_a r /\ row_total r = Ok (o_total pedido_1001)) /\
   Forall2 (fun r it => row_cantidad r = Ok (it_cantidad it) /\
                        row_precio r = Ok (it_precio it))
     (List.filter (contributes "#1001") filas_a) (o_items pedido_1001)) /\
  (row_key fila_1001b = PyStr "#1001" /\
   Exists (fun r' => has_key "#1001" r' = true) [fila_1001a] /\
   parse_shopify_csv ([fila_1001a] ++ <["Total" := Some "abc"]> fila_1001b :: [fila_2002])
   = parse_shopify_csv ([fila_1001a] ++ fila_1001b :: [fila_2002])).
Proof.
  destruct numeric_fields_default_when_missing_or_empty
    as (Hblank & _ & Hok & Hbad & Hlater).
  assert (Hb : blank fila_1001b "Total") by (right; right; by_computation).
  assert (Hex : Exists (fun r' => has_key "#1001" r' = true) [fila_1001a]).
  { apply Exists_cons_hd. by_computation. }
  split; [|split; [|split]]; cycle 3.
  { split; [by_computation|]. split; [exact Hex|].
    apply (proj1 (Hlater [fila_1001a] [fila_2002] fila_1001b "#1001"
                    ltac:(by_computation) ltac:(discriminate) Hex)). }
  - split_and!; [by_computation|by_computation|by_computation|].
    apply (Hbad [] [fila_2002] fila_3003 "#3003" "abc");
      [by_computation|discriminate|constructor|by_computation|discriminate|by_computation].
  - split; [exact Hb|]. exact (proj1 (Hblank fila_1001b) Hb).
  - split; [by_computation|]. split; [apply list_elem_of_here|].
    apply (Hok filas_a pedidos_a pedido_1001); [by_computation|apply list_elem_of_here].
Defined.

Example total_of_3003_with_its_cell_empty :
  o_total <$> orders_of (parse_shopify_csv [<["Total" := Some ""]> fila_3003])
  = [{| mant := 0; expo := 0 |}].
Proof. by_computation. Qed.


(** C4, as stated, fails: a dateless candidate whose number the store
    already holds is counted as a duplicate, not as rejected_no_date. *)
Lemma undated_counted_as_duplicate :
  (exists o, parse_shopify_csv [fila_1001a; fila_1001b] = Ok [o] /\
             o_fecha_entrega o = None) /\
  upload_csv clock0 "pedidos.csv" [fila_1001a; fila_1001b] db_c
  = Ok (db_c, {| r_success := true; r_nuevos := 0; r_duplicados := 1;
                 r_sin_fecha := 0; r_total := 1 |}).
Proof. split; [eexists; split; by_computation|by_computation]. Qed.

Lemma undated_orders_are_dropped_witness :
  upload_csv clock0 "pedidos.csv" filas_a db0 = Ok (db_a, res_a) /\
  exists orders,
    parse_shopify_csv filas_a = Ok orders /\
    r_duplicados res_a = count_if (stored db0) orders /\
    r_sin_fecha res_a = count_if (fun o => negb (dated o) && negb (stored db0 o)) orders /\
    r_nuevos res_a = count_if (fun o => dated o && negb (stored db0 o)) orders /\
    (exists n, ingest clock0 db0 (List.filter dated orders) = Ok (db_a, n)) /\
    (forall d2 n2, ingest clock0 db0 (List.filter dated orders) = Ok (d2, n2) ->
       forall fecha,
         get_lista_compras fecha db_a = get_lista_compras fecha d2 /\
         picking_manifest fecha db_a = picking_manifest fecha d2) /\
    (forall o, o ∈ orders -> dated o = false -> stored db0 o = false ->
       stored db_a o = false /\
       (forall fecha status pl,
          pl ∈ get_pedidos fecha status db_a ->
          p_order_number (fst pl) <> o_order_number o)).
Proof.
  split; [by_computation|].
  apply (undated_orders_are_dropped clock0 "pedidos.csv" filas_a db0 db_a res_a).
  by_computation.
Defined.

(** The counters of C4 on a file with a stored dateless candidate, a
    stored dated one, a new dateless one and a new dated one. *)
Example counters_of_a_mixed_file :
  r_nuevos
    (result_of (upload_csv clock0 "pedidos.csv"
                  [fila_1001a; fila_2002; mkrow [("Name", "#9")]; fila_4004]
                  (store_of (upload_csv clock0 "pedidos.csv"
                               [fila_1001_fechada; fila_2002] db0))))
  = 1 /\
  upload_csv clock0 "pedidos.csv"
    [fila_1001a; fila_2002; mkrow [("Name", "#9")]; fila_4004]
    (store_of (upload_csv clock0 "pedidos.csv" [fila_1001_fechada; fila_2002] db0))
  = Ok (db_of (Ok (store_of
                     (upload_csv clock0 "pedidos.csv" [fila_4004]
                        (store_of (upload_csv clock0 "pedidos.csv"
                                     [fila_1001_fechada; fila_2002] db0))))),
        {| r_success := true; r_nuevos := 1; r_duplicados := 2;
           r_sin_fecha := 1; r_total := 4 |}).
Proof. split; by_computation. Qed.



Example shopping_list_of_db_surtido :
  demand db_surtido "2024-05-10" "Pera" = [2; 1] /\
  reported lista_surtido "Pera" = [3] /\
  demand db_surtido "2024-05-10" "Vino" = [] /\
  reported lista_surtido "Vino" = [] /\
  demand db_surtido "2024-05-11" "Pera" = [] /\
  get_lista_compras "2024-05-11" db_surtido = Ok [].
Proof. split_and!; by_computation. Qed.

(** C6, as stated, fails in three ways: a category named "Sin Categoría"
    takes the unmapped product B in, ahead of the category Zeta; a
    category of display order 1000 comes after "Sin Categoría"; and
    within Verduras the product Zapallo comes before apio, which the
    alphabet puts first: the store compares texts byte by byte, capital
    letters before small ones. *)
Lemma sin_categoria_not_last :
  (get_lista_compras "2024-05-10" db_clash_pedido
   = Ok [("Sin Categoría", [{| e_producto := "A"; e_cantidad := 2 |};
                            {| e_producto := "B"; e_cantidad := 1 |}]);
         ("Zeta", [{| e_producto := "C"; e_cantidad := 1 |}])] /\
   mapping_of db_clash_pedido "B" = None /\
   map c_nombre (categorias db_clash_pedido)
   = ["Frutas"; "Verduras"; "Congelados"; "Abarrotes"; "Lácteos"; "Carnes"; "Otros";
      "Sin Categoría"; "Zeta"]) /\
  (get_lista_compras "2024-05-10" db_many_pedido
   = Ok [("Sin Categoría", [{| e_producto := "B"; e_cantidad := 1 |}]);
         ("101000011c", [{| e_producto := "A"; e_cantidad := 2 |}])] /\
   mapping_of db_many_pedido "B" = None /\
   last (categorias db_many_pedido)
   = Some {| c_id := 908; c_nombre := "101000011c"; c_orden := 1000 |}) /\
  (get_lista_compras "2024-05-10" db_surtido = Ok lista_surtido /\
   (fun kv => (fst kv, map e_producto (snd kv))) <$> (lista_surtido !! 1%nat)
   = Some ("Verduras", ["Zanahoria"; "Zapallo"; "apio"]) /\
   alfabetico "Zapallo" "apio" = false /\
   alfabetico "apio" "Zapallo" = true).
Proof. split_and!; by_computation. Qed.

Lemma shopping_list_is_ordered_by_category_witness :
  schema_ok db_surtido /\
  categorias_below_sentinel db_surtido /\
  get_lista_compras "2024-05-10" db_surtido = Ok lista_surtido /\
  StronglySorted (cat_lt db_surtido) (map fst lista_surtido) /\
  Forall (fun kv => StronglySorted str_lt (map e_producto (snd kv))) lista_surtido /\
  (forall cat es e,
     (cat, es) ∈ lista_surtido -> e ∈ es ->
     cat = categoria_de db_surtido (e_producto e)) /\
  (forall producto,
     mapping_of db_surtido producto = None ->
     categoria_de db_surtido producto = sin_categoria) /\
  cat_rank db_surtido sin_categoria = 999 /\
  (forall c, c ∈ categorias db_surtido -> cat_lt db_surtido (c_nombre c) sin_categoria) /\
  (forall pre es post,
     lista_surtido = pre ++ (sin_categoria, es) :: post -> post = []) /\
  (forall d2 lista2,
     schema_ok d2 -> same_rows db_surtido d2 ->
     get_lista_compras "2024-05-10" d2 = Ok lista2 -> lista2 = lista_surtido).
Proof.
  assert (Hok : schema_ok db_surtido) by schema_by_computation.
  assert (Hbelow : categorias_below_sentinel db_surtido)
    by (apply below_sentinel_computed; by_computation).
  assert (Hget : get_lista_compras "2024-05-10" db_surtido = Ok lista_surtido)
    by by_computation.
  split; [exact Hok|]. split; [exact Hbelow|]. split; [exact Hget|].
  exact (shopping_list_is_ordered_by_category "2024-05-10" db_surtido lista_surtido
           Hok Hbelow Hget).
Defined.

Example ranks_of_db_surtido :
  map (cat_rank db_surtido) (map fst lista_surtido) = [1; 2; 5; 999] /\
  map (categoria_de db_surtido) ["Manzana"; "apio"; "Leche"; "Pan"]
  = ["Frutas"; "Verduras"; "Lácteos"; "Sin Categoría"].
Proof. split; by_computation. Qed.

Lemma eliminar_removes_order_and_lines_witness :
  in_int64 1 = true /\
  exists d',
    eliminar_pedido 1 db_b = Ok (d', true) /\
    (forall l, l ∈ lineas_pedido d' -> l_pedido_id l <> 1) /\
    (forall p, p ∈ pedidos d' -> p_id p <> 1) /\
    (forall fecha status pl,
       pl ∈ get_pedidos fecha status d' ->
       p_id (fst pl) <> 1 /\
       forall l, l ∈ snd pl -> l_pedido_id l <> 1) /\
    (schema_ok db_b ->
     forall fecha lista,
       get_lista_compras fecha d' = Ok lista ->
       forall producto,
         reported lista producto
         = summary
             (map l_cantidad
                (List.filter
                   (fun l => String.eqb (l_producto l) producto
                             && parent_pending db_b fecha l
                             && negb (l_pedido_id l =? 1))
                   (lineas_pedido db_b)))).
Proof.
  split; [reflexivity|].
  apply (eliminar_removes_order_and_lines 1 db_b). reflexivity.
Defined.

Example eliminar_on_db_b :
  map p_id (pedidos db_b) = [1; 2] /\
  get_lista_compras "2024-05-10" db_b
  = Ok [("Sin Categoría", [{| e_producto := "Leche"; e_cantidad := 3 |}])] /\
  get_lista_compras "2024-05-10" (store_after (eliminar_pedido 1 db_b))
  = Ok [("Sin Categoría", [{| e_producto := "Leche"; e_cantidad := 2 |}])] /\
  map (fun pl => p_order_number (fst pl))
      (picking_manifest "2024-05-10" (store_after (eliminar_pedido 1 db_b)))
  = ["#4004"] /\
  lineas_pedido (store_after (eliminar_pedido 1 db_b))
  = List.filter (fun l => l_pedido_id l =? 2) (lineas_pedido db_b).
Proof. split_and!; by_computation. Qed.

(** C10, as stated, fails: the id 2^63 does not bind to the statement;
    the call raises instead of answering success. *)
Lemma completar_refuses_a_large_id :
  completar_pedido 9223372036854775808 db_b = Raise OverflowError.
Proof. by_computation. Qed.

Lemma completar_changes_only_status_witness :
  in_int64 1 = true /\
  exists d',
    completar_pedido 1 db_b = Ok (d', true) /\
    Forall2
      (fun p p' =>
         same_but_status p p' /\
         p_status p' = (if bool_decide (p_id p = 1) then "completado" else p_status p) /\
         (p_id p <> 1 -> p' = p))
      (pedidos db_b) (pedidos d') /\
    lineas_pedido d' = lineas_pedido db_b /\
    categorias d' = categorias db_b /\
    producto_categoria d' = producto_categoria db_b /\
    seq_pedidos d' = seq_pedidos db_b /\
    seq_lineas_pedido d' = seq_lineas_pedido db_b /\
    seq_categorias d' = seq_categorias db_b /\
    seq_producto_categoria d' = seq_producto_categoria db_b /\
    ((forall p, p ∈ pedidos db_b -> p_id p <> 1) -> d' = db_b).
Proof.
  split; [reflexivity|].
  apply (proj1 (completar_changes_only_status 1 db_b)). reflexivity.
Defined.

Example completar_on_db_b :
  map (fun p => (p_id p, p_order_number p, p_status p)) (pedidos db_b)
  = [(1, "#2002", "pendiente"); (2, "#4004", "pendiente")] /\
  map (fun p => (p_id p, p_order_number p, p_status p))
      (pedidos (store_after (completar_pedido 1 db_b)))
  = [(1, "#2002", "completado"); (2, "#4004", "pendiente")] /\
  completar_pedido 42 db_b = Ok (db_b, true) /\
  get_lista_compras "2024-05-10" (store_after (completar_pedido 1 db_b))
  = Ok [("Sin Categoría", [{| e_producto := "Leche"; e_cantidad := 2 |}])].
Proof. split_and!; by_computation. Qed.

(** Further worked cases *)

Lemma parse_keeps_first_seen_order_witness :
  parse_shopify_csv filas_a = Ok pedidos_a /\
  map o_order_number pedidos_a = distinct (numbers_of filas_a).
Proof.
  split; [by_computation|].
  apply (parse_keeps_first_seen_order filas_a pedidos_a). by_computation.
Defined.

Example first_seen_order_of_filas_a :
  distinct (numbers_of filas_a) = ["#1001"; "#2002"].
Proof. by_computation. Qed.

(** The bad total of a later row of an order is never read; the one of
    its first row makes the grouping fail. *)
Lemma parse_raises_only_on_bad_number_witness :
  (exists e, parse_shopify_csv [fila_2002; fila_3003; fila_4004] = Raise e) /\
  (exists rows1 r rows2,
     [fila_2002; fila_3003; fila_4004] = rows1 ++ r :: rows2 /\ faulty rows1 r) /\
  parse_reader [fila_2002; fila_3003; fila_4004] ReaderError = Raise ValueError /\
  is_ok (parse_shopify_csv [fila_2002; <["Name" := Some "#2002"]> fila_3003]) = true.
Proof.
  assert (H : exists e, parse_shopify_csv [fila_2002; fila_3003; fila_4004] = Raise e).
  { exists ValueError. by_computation. }
  destruct (parse_raises_only_on_bad_number [fila_2002; fila_3003; fila_4004])
    as (_ & Hiff & _ & Hstop & _).
  split; [exact H|]. split; [exact (proj1 Hiff H)|]. split; [|by_computation].
  exact (Hstop (proj1 Hiff H)).
Defined.

Example reader_stops_after_good_rows :
  parse_reader [fila_2002; fila_4004] ReaderError = Raise CsvError /\
  parse_reader [fila_2002; fila_3003] ReaderError = Raise ValueError.
Proof. split; by_computation. Qed.

(** The next category after a second [init_db] gets id 15, not 8. *)
Example init_db_twice_on_a_new_store :
  exc_map snd (create_categoria "Vinos" (init_db empty_db)) = Ok 8 /\
  exc_map snd (create_categoria "Vinos" (init_db (init_db empty_db))) = Ok 15 /\
  categorias (init_db (init_db empty_db)) = categorias (init_db empty_db).
Proof. split_and!; by_computation. Qed.

Lemma asignar_categoria_latest_wins_witness :
  in_int64 5 = true /\
  exists d',
    asignar_categoria "Pera" 5 db_surtido = Ok d' /\
    (pc_categoria_id <$> mapping_of d' "Pera") = Some 5 /\
    cat_of d' "Pera" = List.find (fun c => 5 =? c_id c) (categorias db_surtido) /\
    (forall q, q <> "Pera" ->
       mapping_of d' q = mapping_of db_surtido q /\ cat_of d' q = cat_of db_surtido q) /\
    categorias d' = categorias db_surtido /\
    pedidos d' = pedidos db_surtido /\
    lineas_pedido d' = lineas_pedido db_surtido.
Proof.
  split; [reflexivity|].
  apply (proj1 (asignar_categoria_latest_wins "Pera" 5 db_surtido)). reflexivity.
Defined.

Example asignar_on_db_surtido :
  c_nombre <$> cat_of db_surtido "Pera" = Some "Frutas" /\
  c_nombre <$> cat_of (db_of (asignar_categoria "Pera" 5 db_surtido)) "Pera"
  = Some "Lácteos" /\
  asignar_categoria "Pera" 9223372036854775808 db_surtido = Raise OverflowError.
Proof. split_and!; by_computation. Qed.

Lemma productos_sin_categoria_are_the_unmapped_witness :
  get_productos_sin_categoria db_surtido = ["Arroz"; "Pan"] /\
  asignar_categoria "Pan" 4 db_surtido = Ok (db_of (asignar_categoria "Pan" 4 db_surtido)) /\
  forall q,
    q ∈ get_productos_sin_categoria (db_of (asignar_categoria "Pan" 4 db_surtido)) <->
    q ∈ get_productos_sin_categoria db_surtido /\ q <> "Pan".
Proof.
  split; [by_computation|].
  assert (H : asignar_categoria "Pan" 4 db_surtido
              = Ok (db_of (asignar_categoria "Pan" 4 db_surtido))) by by_computation.
  split; [exact H|].
  exact (proj2 (proj2 (productos_sin_categoria_are_the_unmapped db_surtido))
           "Pan" 4 _ H).
Defined.

Lemma upload_csv_only_appends_witness :
  upload_csv clock0 "pedidos.csv" filas_a db0 = Ok (db_a, res_a) /\
  r_success res_a = true /\
  r_nuevos res_a + r_duplicados res_a + r_sin_fecha res_a = r_total res_a /\
  0 <= r_nuevos res_a /\ 0 <= r_duplicados res_a /\ 0 <= r_sin_fecha res_a /\
  categorias db_a = categorias db0 /\
  producto_categoria db_a = producto_categoria db0 /\
  exists newp newl,
    pedidos db_a = pedidos db0 ++ newp /\
    lineas_pedido db_a = lineas_pedido db0 ++ newl /\
    Z.of_nat (length newp) = r_nuevos res_a /\
    Forall (fun p => p_status p = pendiente /\ (p_id p ∉ map p_id (pedidos db0))) newp.
Proof.
  split; [by_computation|].
  apply (upload_csv_only_appends clock0 "pedidos.csv" filas_a db0 db_a res_a).
  by_computation.
Defined.

(** A quantity that no INTEGER of the store holds makes the upload fail
    as a whole: the order before it is not stored either. *)
Example upload_with_a_quantity_out_of_range :
  upload_csv clock0 "pedidos.csv" [fila_2002; fila_enorme] db0 = Raise OverflowError /\
  is_ok (parse_shopify_csv [fila_2002; fila_enorme]) = true.
Proof. split; by_computation. Qed.

Lemma store_inv_db0 : store_inv db0.
Proof.
  split; intros x Hx; vm_compute in Hx; by apply elem_of_nil in Hx.
Qed.

Lemma accepted_order_is_stored_witness :
  store_inv db0 /\
  upload_csv clock0 "pedidos.csv" filas_a db0 = Ok (db_a, res_a) /\
  parse_shopify_csv filas_a = Ok pedidos_a /\
  orden_2002 ∈ pedidos_a /\
  o_fecha_entrega orden_2002 = Some "2024-05-10" /\
  "2024-05-10" <> "" /\
  stored db0 orden_2002 = false /\
  exists p,
    holds db_a orden_2002 p /\
    (p, lineas_of db_a (p_id p)) ∈ picking_manifest "2024-05-10" db_a.
Proof.
  assert (Hin : orden_2002 ∈ pedidos_a).
  { apply list_elem_of_further, list_elem_of_here. }
  split_and!; [apply store_inv_db0|by_computation|by_computation|exact Hin
              |reflexivity|discriminate|by_computation|].
  apply (accepted_order_is_stored clock0 "pedidos.csv" filas_a db0 db_a res_a
           pedidos_a orden_2002 "2024-05-10");
    [apply store_inv_db0|by_computation|by_computation|exact Hin
    |reflexivity|discriminate|by_computation].
Defined.

Lemma reachable_db_b : reachable db_b.
Proof.
  apply (reach_step db0).
  - apply (reach_step empty_db); [constructor|apply step_init].
  - apply (step_upload clock0 "pedidos.csv" [fila_2002; fila_4004] db0 db_b res_b).
    by_computation.
Qed.

Lemma reachable_asignar (l : list (string * Z)) (d : db) :
  Forall (fun pc => in_int64 (snd pc) = true) l ->
  reachable d ->
  reachable (fold_left (fun d pc => db_of (asignar_categoria (fst pc) (snd pc) d)) l d).
Proof.
  revert d. induction l as [|pc l IH]; intros d Hl Hd; [done|].
  apply Forall_cons in Hl as [Hpc Hl]. cbn [fold_left]. apply IH; [done|].
  apply (reach_step d); [done|].
  apply (step_asignar (fst pc) (snd pc)). rewrite asignar_categoria_eq, Hpc. done.
Qed.

Lemma reachable_db_surtido : reachable db_surtido.
Proof.
  assert (Hm : reachable db_mapeado).
  { replace db_mapeado
      with (fold_left (fun d pc => db_of (asignar_categoria (fst pc) (snd pc) d))
              [("Manzana", 1); ("Pera", 1); ("Zanahoria", 2); ("Zapallo", 2);
               ("apio", 2); ("Leche", 5)] db0) by by_computation.
    apply reachable_asignar; [by repeat constructor|].
    apply (reach_step empty_db); [constructor|apply step_init]. }
  apply (reach_step db_mapeado); [exact Hm|].
  apply (step_upload clock0 "pedidos.csv" filas_surtido db_mapeado db_surtido
           {| r_success := true; r_nuevos := 2; r_duplicados := 0; r_sin_fecha := 0;
              r_total := 2 |}).
  by_computation.
Qed.

Lemma reachable_stores_meet_the_schema_witness :
  reachable db_surtido /\
  schema_ok db_surtido /\
  NoDup (map pc_id (producto_categoria db_surtido)) /\
  NoDup (map l_id (lineas_pedido db_surtido)).
Proof.
  split; [apply reachable_db_surtido|].
  apply (reachable_stores_meet_the_schema db_surtido), reachable_db_surtido.
Defined.

Example row_ids_of_db_surtido :
  map pc_id (producto_categoria db_surtido) = [1; 2; 3; 4; 5; 6] /\
  map l_id (lineas_pedido db_surtido) = [1; 2; 3; 4; 5; 6; 7; 8; 9] /\
  map pc_id (producto_categoria (db_of (asignar_categoria "Pera" 5 db_surtido)))
  = [1; 3; 4; 5; 6; 7].
Proof. split_and!; by_computation. Qed.

Lemma reachable_stores_keep_the_invariant_witness : reachable db_b /\ store_inv db_b.
Proof.
  split; [apply reachable_db_b|].
  apply (reachable_stores_keep_the_invariant db_b), reachable_db_b.
Defined.

Lemma completed_order_is_final_witness :
  step db_b_completado (store_after (completar_pedido 2 db_b_completado)) /\
  schema_ok db_b_completado /\
  fila_completada ∈ pedidos db_b_completado /\
  p_status fila_completada = completado /\
  fila_completada ∈ pedidos (store_after (completar_pedido 2 db_b_completado)) /\
  p_id fila_completada = p_id fila_completada /\
  fila_completada = fila_completada.
Proof.
  assert (H0 : step db_b_completado (store_after (completar_pedido 2 db_b_completado))).
  { apply (step_completar 2 _ _ true). by_computation. }
  assert (H1 : fila_completada ∈ pedidos db_b_completado).
  { apply list_elem_of_here. }
  assert (H2 : fila_completada
               ∈ pedidos (store_after (completar_pedido 2 db_b_completado))).
  { apply list_elem_of_here. }
  split_and!; [exact H0|schema_by_computation|exact H1|reflexivity
              |exact H2|reflexivity|].
  apply (completed_order_is_final db_b_completado
           (store_after (completar_pedido 2 db_b_completado))
           fila_completada fila_completada);
    [exact H0|schema_by_computation|exact H1|reflexivity|exact H2|reflexivity].
Defined.

Lemma completar_takes_order_off_the_lists_witness :
  in_int64 1 = true /\
  exists d',
    completar_pedido 1 db_b = Ok (d', true) /\
    completar_pedido 1 d' = Ok (d', true) /\
    eliminar_pedido 1 d' = eliminar_pedido 1 db_b /\
    (forall fecha pl,
       pl ∈ picking_manifest fecha d' -> p_id (fst pl) <> 1) /\
    (schema_ok db_b ->
     forall fecha lista,
       get_lista_compras fecha d' = Ok lista ->
       forall producto,
         reported lista producto
         = summary
             (map l_cantidad
                (List.filter
                   (fun l => String.eqb (l_producto l) producto
                             && parent_pending db_b fecha l
                             && negb (l_pedido_id l =? 1))
                   (lineas_pedido db_b)))).
Proof.
  split; [reflexivity|].
  apply (completar_takes_order_off_the_lists 1 db_b). reflexivity.
Defined.

Lemma eliminar_leaves_the_other_orders_witness :
  in_int64 1 = true /\
  exists d',
    eliminar_pedido 1 db_b = Ok (d', true) /\
    (schema_ok db_b ->
     forall fecha status,
       get_pedidos fecha status d'
       = List.filter (fun pl => negb (p_id (fst pl) =? 1))
                     (get_pedidos fecha status db_b)) /\
    eliminar_pedido 1 d' = Ok (d', true) /\
    ((forall p, p ∈ pedidos db_b -> p_id p <> 1) ->
     (forall l, l ∈ lineas_pedido db_b -> l_pedido_id l <> 1) ->
     d' = db_b).
Proof.
  split; [reflexivity|].
  apply (proj1 (eliminar_leaves_the_other_orders 1 db_b)). reflexivity.
Defined.

Example eliminar_a_large_id :
  eliminar_pedido 9223372036854775808 db_b = Raise OverflowError /\
  eliminar_pedido 42 db_b = Ok (db_b, true).
Proof. split; by_computation. Qed.

Lemma shopping_list_matches_picking_manifest_witness :
  schema_ok db_surtido /\ "2024-05-10" <> "" /\
  get_lista_compras "2024-05-10" db_surtido = Ok lista_surtido /\
  forall producto,
    reported lista_surtido producto
    = summary (manifest_qty db_surtido "2024-05-10" producto).
Proof.
  assert (Hok : schema_ok db_surtido) by schema_by_computation.
  assert (Hget : get_lista_compras "2024-05-10" db_surtido = Ok lista_surtido)
    by by_computation.
  split; [exact Hok|]. split; [discriminate|]. split; [exact Hget|].
  apply (shopping_list_matches_picking_manifest db_surtido "2024-05-10" lista_surtido
           Hok); [discriminate|exact Hget].
Defined.

Example manifest_of_db_surtido :
  manifest_qty db_surtido "2024-05-10" "Pera" = [2; 1] /\
  reported lista_surtido "Pera" = [3].
Proof. split; by_computation. Qed.

Lemma fechas_pendientes_count_the_pending_witness :
  "2024-05-10" <> "" /\
  (Some "2024-05-10", 2) ∈ get_fechas_pendientes db_b /\
  2 = Z.of_nat (length (picking_manifest "2024-05-10" db_b)).
Proof.
  assert (Hin : (Some "2024-05-10", 2) ∈ get_fechas_pendientes db_b).
  { apply list_elem_of_here. }
  split; [discriminate|]. split; [exact Hin|].
  apply (proj1 (proj2 (proj2 (fechas_pendientes_count_the_pending db_b)))
           "2024-05-10" 2); [discriminate|exact Hin].
Defined.

Lemma store_inv_db_b : store_inv db_b.
Proof.
  apply (store_inv_step db0); [|apply store_inv_db0].
  apply (step_upload clock0 "pedidos.csv" [fila_2002; fila_4004] db0 db_b res_b).
  by_computation.
Qed.

Lemma home_figures_agree_with_listings_witness :
  store_inv db_b /\ "2024-05-10" <> "" /\
  fechas_pendientes (home "2024-05-10" db_b)
  = Z.of_nat (length (get_fechas_pendientes db_b)) /\
  pedidos_hoy (home "2024-05-10" db_b)
  = Z.of_nat (length (picking_manifest "2024-05-10" db_b)).
Proof.
  split; [apply store_inv_db_b|]. split; [discriminate|]. split.
  - apply (proj1 (proj2 (proj2 (home_figures_agree_with_listings "2024-05-10" db_b)))).
    apply store_inv_db_b.
  - apply (proj1 (proj2 (proj2 (proj2
             (home_figures_agree_with_listings "2024-05-10" db_b))))).
    discriminate.
Defined.

Example home_of_db_b :
  home "2024-05-10" db_b
  = {| pedidos_pendientes := 2; fechas_pendientes := 1; pedidos_hoy := 2;
       productos_sin_categoria := 1 |} /\
  get_fechas_pendientes db_b = [(Some "2024-05-10", 2)] /\
  get_productos_sin_categoria db_b = ["Leche"].
Proof. split_and!; by_computation. Qed.

(** A product mapped to a category id that no category has is filed
    under "Sin Categoría" in the shopping list, yet is not among the
    products without category. *)
Example mapped_to_a_missing_category :
  get_lista_compras "2024-05-10" (db_of (asignar_categoria "Leche" 77 db_b))
  = Ok [("Sin Categoría", [{| e_producto := "Leche"; e_cantidad := 3 |}])] /\
  get_productos_sin_categoria (db_of (asignar_categoria "Leche" 77 db_b)) = [].
Proof. split; by_computation. Qed.

(** Whether a shopping list is returned depends on the order of the
    lines: 2^63 - 1, then -5, then 1 adds up; 2^63 - 1, then 1, then -5
    overflows on the way. *)
Example overflow_depends_on_the_order_of_the_lines :
  get_lista_compras "2024-05-10"
    (store_of (upload_csv clock0 "pedidos.csv"
                 [fila "#1" "Leche" "9223372036854775807"; fila "#1" "Leche" "-5";
                  fila "#1" "Leche" "1"] db0))
  = Ok [("Sin Categoría",
         [{| e_producto := "Leche"; e_cantidad := 9223372036854775803 |}])] /\
  get_lista_compras "2024-05-10"
    (store_of (upload_csv clock0 "pedidos.csv"
                 [fila "#1" "Leche" "9223372036854775807"; fila "#1" "Leche" "1";
                  fila "#1" "Leche" "-5"] db0))
  = Raise OperationalError.
Proof. split; by_computation. Qed.

End Worked.
